(** * AgentHQ: handoff state machine, access checks, realtime fan-out

    A shallow embedding of the server of the AgentHQ repository
    (server/storage.ts, server/auth.ts, server/routes.ts, server/seed.ts,
    shared/schema.ts) and the properties its specification states about it,
    followed by further properties of the same code.

    Layout: the JavaScript values the server inspects at run time, the
    schema, the storage class, the authentication middleware, the realtime
    registry and the route handlers; then the theorems. *)

From Stdlib Require Import ZArith Ascii String List Bool Sorting.Sorted.
From stdpp Require Import base tactics option decidable countable gmap strings list sorting.

#[local] Set Warnings "-clear-no-such-hyp".

Local Open Scope string_scope.

(* ===================================================================== *)
(** ** JavaScript values                                                  *)
(* ===================================================================== *)

Module Js.

(** A value produced by [JSON.parse] or read from a request body. Arrays and
    objects carry the identity of the heap cell that holds them: a [Set]
    compares them by reference, never by content. Numbers are given by
    their integer value; the server only ever tests them for truthiness
    and identity. [undefined] is the absence of a value ([None] in an
    [option value]). *)
#[local] Unset Elimination Schemes.
Inductive value : Type :=
| JNull
| JBool (b : bool)
| JNum (n : Z)
| JStr (s : string)
| JArr (ref : nat) (items : list value)
| JObj (ref : nat) (fields : list (string * value)).
#[local] Set Elimination Schemes.

(** [!!v] of JavaScript. *)
Definition truthy (v : option value) : bool :=
  match v with
  | None | Some JNull => false
  | Some (JBool b) => b
  | Some (JNum n) => negb (n =? 0)%Z
  | Some (JStr s) => negb (String.eqb s "")
  | Some (JArr _ _) | Some (JObj _ _) => true
  end.

(** [typeof v === "string"]. *)
Definition isString (v : option value) : bool :=
  match v with Some (JStr _) => true | _ => false end.

(** [v === lit] for a string literal [lit]. *)
Definition strictEqStr (v : option value) (lit : string) : bool :=
  match v with Some (JStr s) => String.eqb s lit | _ => false end.

(** [arr.includes(v)] for an array of string literals. *)
Definition includes (arr : list string) (v : option value) : bool :=
  existsb (strictEqStr v) arr.

(** Own property of an object, first binding of the name. *)
Fixpoint assoc (name : string) (fields : list (string * value)) : option value :=
  match fields with
  | [] => None
  | (k, v) :: rest => if String.eqb k name then Some v else assoc name rest
  end.

(** [v.name] for a parsed JSON value [v]: a [TypeError] on [null] (the
    outer [None]), [undefined] on every other primitive and on arrays. *)
Definition getProp (v : value) (name : string) : option (option value) :=
  match v with
  | JNull => None
  | JObj _ fields => Some (assoc name fields)
  | _ => Some None
  end.

(** What a [Set] sees of a value: primitives by value, objects and arrays
    by reference. *)
Inductive key : Type :=
| KUndefined
| KNull
| KBool (b : bool)
| KNum (n : Z)
| KStr (s : string)
| KRef (ref : nat).

Definition toKey (v : option value) : key :=
  match v with
  | None => KUndefined
  | Some JNull => KNull
  | Some (JBool b) => KBool b
  | Some (JNum n) => KNum n
  | Some (JStr s) => KStr s
  | Some (JArr r _) | Some (JObj r _) => KRef r
  end.

#[global] Instance key_eq_dec : EqDecision key.
Proof. solve_decision. Defined.

Definition key_code (k : key) : unit + unit + bool + Z + string + nat :=
  match k with
  | KUndefined => inl (inl (inl (inl (inl tt))))
  | KNull => inl (inl (inl (inl (inr tt))))
  | KBool b => inl (inl (inl (inr b)))
  | KNum n => inl (inl (inr n))
  | KStr s => inl (inr s)
  | KRef r => inr r
  end.

Definition key_decode (c : unit + unit + bool + Z + string + nat) : key :=
  match c with
  | inl (inl (inl (inl (inl _)))) => KUndefined
  | inl (inl (inl (inl (inr _)))) => KNull
  | inl (inl (inl (inr b))) => KBool b
  | inl (inl (inr n)) => KNum n
  | inl (inr s) => KStr s
  | inr r => KRef r
  end.

#[global] Instance key_countable : Countable key.
Proof. by apply (inj_countable' key_code key_decode); intros []. Defined.

End Js.

Import Js.

(* ===================================================================== *)
(** ** shared/schema.ts                                                   *)
(* ===================================================================== *)

(** Instants. *)
Definition Time := nat.

Inductive HandoffStatus := OPEN | IN_PROGRESS | RESOLVED.
Inductive HandoffPriority := LOW | MEDIUM | HIGH | URGENT.
Inductive MessageType := TEXT | SYSTEM | HANDOFF.

#[global] Instance HandoffStatus_eq_dec : EqDecision HandoffStatus.
Proof. solve_decision. Defined.
#[global] Instance HandoffPriority_eq_dec : EqDecision HandoffPriority.
Proof. solve_decision. Defined.

(** Input of an enum column: a label is accepted, anything else is rejected
    by the database. *)
Definition castStatus (v : option value) : option HandoffStatus :=
  match v with
  | Some (JStr s) =>
      if String.eqb s "OPEN" then Some OPEN
      else if String.eqb s "IN_PROGRESS" then Some IN_PROGRESS
      else if String.eqb s "RESOLVED" then Some RESOLVED
      else None
  | _ => None
  end.

Definition castPriority (v : option value) : option HandoffPriority :=
  match v with
  | Some (JStr s) =>
      if String.eqb s "LOW" then Some LOW
      else if String.eqb s "MEDIUM" then Some MEDIUM
      else if String.eqb s "HIGH" then Some HIGH
      else if String.eqb s "URGENT" then Some URGENT
      else None
  | _ => None
  end.

Module Human.
Record t := mk {
  id : string;
  email : string;
  password : string;
  name : string;
  avatarUrl : option string;
  createdAt : Time }.
End Human.

Module WorkspaceMember.
Record t := mk {
  id : string;
  workspaceId : string;
  humanId : string;
  role : string;
  joinedAt : Time }.
End WorkspaceMember.

Module Agent.
Record t := mk {
  id : string;
  workspaceId : string;
  name : string;
  description : option string;
  apiKey : string;
  avatarUrl : option string;
  isActive : bool;
  lastSeenAt : option Time;
  createdAt : Time }.

Definition withLastSeenAt (a : t) (ts : option Time) : t :=
  mk (id a) (workspaceId a) (name a) (description a) (apiKey a)
     (avatarUrl a) (isActive a) ts (createdAt a).
End Agent.

Module Channel.
Record t := mk {
  id : string;
  workspaceId : string;
  name : string;
  description : option string;
  isPrivate : bool;
  createdAt : Time }.
End Channel.

Module Message.
Record t := mk {
  id : string;
  channelId : string;
  authorType : string;
  authorId : option string;
  content : string;
  messageType : MessageType;
  createdAt : Time }.
End Message.

Module Handoff.
Record t := mk {
  id : string;
  workspaceId : string;
  channelId : option string;
  title : string;
  description : option string;
  status : HandoffStatus;
  priority : HandoffPriority;
  fromAgentId : option string;
  toHumanId : option string;
  resolvedAt : option Time;
  createdAt : Time }.

Definition withStatus (h : t) (s : HandoffStatus) : t :=
  mk (id h) (workspaceId h) (channelId h) (title h) (description h) s
     (priority h) (fromAgentId h) (toHumanId h) (resolvedAt h) (createdAt h).

Definition withResolvedAt (h : t) (ts : option Time) : t :=
  mk (id h) (workspaceId h) (channelId h) (title h) (description h) (status h)
     (priority h) (fromAgentId h) (toHumanId h) ts (createdAt h).
End Handoff.

Module Memory.
Record t := mk {
  id : string;
  agentId : string;
  key : string;
  value : Js.value;
  expiresAt : option Time;
  createdAt : Time;
  updatedAt : Time }.
End Memory.

(** The insert types ([createInsertSchema(...).omit(...)]): the generated
    columns are left out. The enum columns of a handoff are typed by the
    schema but not checked before the database sees them, so they are kept
    as the values the caller passes. *)
Module InsertChannel.
Record t := mk {
  workspaceId : string;
  name : string;
  description : option string;
  isPrivate : bool }.
End InsertChannel.

Module InsertMessage.
Record t := mk {
  channelId : string;
  authorType : string;
  authorId : option string;
  content : string;
  messageType : MessageType }.
End InsertMessage.

Module InsertHandoff.
Record t := mk {
  workspaceId : string;
  channelId : option string;
  title : string;
  description : option string;
  status : option Js.value;
  priority : option Js.value;
  fromAgentId : option string;
  toHumanId : option string }.
End InsertHandoff.

Module InsertMemory.
Record t := mk {
  agentId : string;
  key : string;
  value : Js.value;
  expiresAt : option Time }.
End InsertMemory.

Module Workspace.
Record t := mk {
  id : string;
  name : string;
  slug : string;
  createdAt : Time }.
End Workspace.

Module InsertWorkspace.
Record t := mk {
  name : string;
  slug : string }.
End InsertWorkspace.

Module InsertHuman.
Record t := mk {
  email : string;
  password : string;
  name : string;
  avatarUrl : option string }.
End InsertHuman.

Module InsertWorkspaceMember.
Record t := mk {
  workspaceId : string;
  humanId : string;
  role : option string }.
End InsertWorkspaceMember.

Module InsertAgent.
Record t := mk {
  workspaceId : string;
  name : string;
  description : option string;
  apiKey : string;
  avatarUrl : option string;
  isActive : option bool }.
End InsertAgent.

(* ===================================================================== *)
(** ** server/storage.ts                                                  *)
(* ===================================================================== *)

(** What a rejected promise or a thrown error carries. *)
Inductive Exn := TypeError | JsonSyntaxError | DatabaseError.

Module Storage.

(** The tables the server reads and writes, each as its rows in insertion
    order. Of the constraints of the schema, the inserts below enforce the
    primary keys and the domains of the enum columns, and [insertUnique]
    the unique constraint of the tables that have one; every insert is
    rejected when one of its text columns holds what the database does not
    take for text ([accepts]); the foreign keys are not enforced here, and a
    statement that needs a constraint on the rows it starts from says
    so. *)
Record Db := mkDb {
  humans : list Human.t;
  workspaceMembers : list WorkspaceMember.t;
  agents : list Agent.t;
  channels : list Channel.t;
  messages : list Message.t;
  handoffs : list Handoff.t;
  memories : list Memory.t }.

Definition withAgents (d : Db) (l : list Agent.t) : Db :=
  mkDb (humans d) (workspaceMembers d) l (channels d) (messages d) (handoffs d) (memories d).
Definition withChannels (d : Db) (l : list Channel.t) : Db :=
  mkDb (humans d) (workspaceMembers d) (agents d) l (messages d) (handoffs d) (memories d).
Definition withMessages (d : Db) (l : list Message.t) : Db :=
  mkDb (humans d) (workspaceMembers d) (agents d) (channels d) l (handoffs d) (memories d).
Definition withHandoffs (d : Db) (l : list Handoff.t) : Db :=
  mkDb (humans d) (workspaceMembers d) (agents d) (channels d) (messages d) l (memories d).
Definition withMemories (d : Db) (l : list Memory.t) : Db :=
  mkDb (humans d) (workspaceMembers d) (agents d) (channels d) (messages d) (handoffs d) l.

(** [db.update(t).set(f).where(p)]: the table after the update. *)
Definition updateWhere {R} (p : R -> bool) (f : R -> R) (rows : list R) : list R :=
  (fun r => if p r then f r else r) <$> rows.

(** [.returning()] of an update: the updated rows. *)
Definition returningWhere {R} (p : R -> bool) (f : R -> R) (rows : list R) : list R :=
  f <$> List.filter p rows.

(** A string is its UTF-8 bytes. A [text] or [varchar] column holds every
    string but one with the NUL character, which the database rejects. *)
Fixpoint validText (s : string) : bool :=
  match s with
  | EmptyString => true
  | String c rest => negb (Ascii.eqb c Ascii.zero) && validText rest
  end.

Definition nullableText (column : option string) : bool :=
  match column with Some s => validText s | None => true end.

(** The text columns of a row to insert, all of which the database must
    accept. *)
Definition accepts (columns : list (option string)) : bool :=
  forallb nullableText columns.

(** A [jsonb] column holds a JSON value whose strings and property names
    are free of the NUL character; one declared [NOT NULL] does not hold
    [null], which the driver sends as the SQL [NULL]. *)
Fixpoint jsonText (v : Js.value) : bool :=
  match v with
  | JNull | JBool _ | JNum _ => true
  | JStr s => validText s
  | JArr _ items => forallb jsonText items
  | JObj _ fields => forallb (fun field => validText (fst field) && jsonText (snd field)) fields
  end.

Definition jsonbNotNull (v : Js.value) : bool :=
  match v with JNull => false | _ => jsonText v end.

(** [db.insert(t).values(row)] on a table whose primary key is [pk]: a row
    with a key already in use is rejected. *)
Definition insertRow {R} (pk : R -> string) (row : R) (rows : list R) : Exn + list R :=
  if existsb (String.eqb (pk row)) (pk <$> rows)
  then inl DatabaseError
  else inr (rows ++ [row])%list.

(** [ORDER BY created_at DESC]. *)
Definition createdDesc {R} (createdAt : R -> Time) (a b : R) : Prop :=
  createdAt b <= createdAt a.

#[global] Instance createdDesc_dec {R} (createdAt : R -> Time) (a b : R) :
  Decision (createdDesc createdAt a b).
Proof. unfold createdDesc. apply _. Defined.

Definition orderByCreatedDesc {R} (createdAt : R -> Time) (rows : list R) : list R :=
  merge_sort (createdDesc createdAt) rows.

(** *** Humans *)
Definition getHumanById (d : Db) (id : string) : option Human.t :=
  head (List.filter (fun h => String.eqb (Human.id h) id) (humans d)).

(** *** Workspace members *)
Definition getWorkspaceMember (d : Db) (workspaceId humanId : string)
  : option WorkspaceMember.t :=
  head (List.filter
          (fun m => String.eqb (WorkspaceMember.workspaceId m) workspaceId
                    && String.eqb (WorkspaceMember.humanId m) humanId)
          (workspaceMembers d)).

(** *** Agents *)
Definition getAgent (d : Db) (id : string) : option Agent.t :=
  head (List.filter (fun a => String.eqb (Agent.id a) id) (agents d)).

Definition getAgentByApiKey (d : Db) (apiKey : string) : option Agent.t :=
  head (List.filter (fun a => String.eqb (Agent.apiKey a) apiKey) (agents d)).

Definition updateAgentLastSeen (now : Time) (d : Db) (id : string) : Db :=
  withAgents d
    (updateWhere (fun a => String.eqb (Agent.id a) id)
                 (fun a => Agent.withLastSeenAt a (Some now)) (agents d)).

(** *** Channels *)
Definition getChannel (d : Db) (id : string) : option Channel.t :=
  head (List.filter (fun c => String.eqb (Channel.id c) id) (channels d)).

Definition getChannelsForWorkspace (d : Db) (workspaceId : string) : list Channel.t :=
  List.filter (fun c => String.eqb (Channel.workspaceId c) workspaceId) (channels d).

Definition createChannel (uuid : string) (now : Time) (d : Db) (c : InsertChannel.t)
  : Exn + (Channel.t * Db) :=
  let row := Channel.mk uuid (InsertChannel.workspaceId c) (InsertChannel.name c)
               (InsertChannel.description c) (InsertChannel.isPrivate c) now in
  if accepts [Some (InsertChannel.workspaceId c); Some (InsertChannel.name c);
              InsertChannel.description c]
  then
    match insertRow Channel.id row (channels d) with
    | inl e => inl e
    | inr rows => inr (row, withChannels d rows)
    end
  else inl DatabaseError.

(** *** Messages *)
(** [limit] is the integer the caller passes. The query builder writes a
    [LIMIT] only for a limit that is not negative, and the database takes
    the limit as a [bigint]: from [2^63] on it rejects the query. *)
Definition getMessagesForChannel (d : Db) (channelId : string) (limit : Z)
    (before : option string) : Exn + list Message.t :=
  let ordered :=
    orderByCreatedDesc Message.createdAt
      (List.filter (fun m => String.eqb (Message.channelId m) channelId) (messages d)) in
  if (limit <? 0)%Z then
    let result := ordered in
    inr (reverse result)
  else if (2 ^ 63 <=? limit)%Z then inl DatabaseError
  else
    let query := take (Z.to_nat limit) ordered in
    let result := query in
    inr (reverse result).

Definition createMessage (uuid : string) (now : Time) (d : Db) (m : InsertMessage.t)
  : Exn + (Message.t * Db) :=
  let row := Message.mk uuid (InsertMessage.channelId m) (InsertMessage.authorType m)
               (InsertMessage.authorId m) (InsertMessage.content m)
               (InsertMessage.messageType m) now in
  if accepts [Some (InsertMessage.channelId m); Some (InsertMessage.authorType m);
              InsertMessage.authorId m; Some (InsertMessage.content m)]
  then
    match insertRow Message.id row (messages d) with
    | inl e => inl e
    | inr rows => inr (row, withMessages d rows)
    end
  else inl DatabaseError.

(** *** Handoffs *)
Definition getHandoff (d : Db) (id : string) : option Handoff.t :=
  head (List.filter (fun h => String.eqb (Handoff.id h) id) (handoffs d)).

Definition getHandoffsForWorkspace (d : Db) (workspaceId : string) (status : option string)
  : Exn + list Handoff.t :=
  let inWorkspace := fun h => String.eqb (Handoff.workspaceId h) workspaceId in
  if truthy (JStr <$> status) then
    match castStatus (JStr <$> status) with
    | None => inl DatabaseError
    | Some s =>
        inr (orderByCreatedDesc Handoff.createdAt
               (List.filter (fun h => inWorkspace h && bool_decide (Handoff.status h = s))
                            (handoffs d)))
    end
  else inr (orderByCreatedDesc Handoff.createdAt (List.filter inWorkspace (handoffs d))).

(** The status and priority columns default to [OPEN] and [MEDIUM] when the
    insert leaves them out; [resolved_at] is not part of the insert type
    and has no default. *)
Definition createHandoff (uuid : string) (now : Time) (d : Db) (h : InsertHandoff.t)
  : Exn + (Handoff.t * Db) :=
  let status :=
    match InsertHandoff.status h with None => Some OPEN | v => castStatus v end in
  let priority :=
    match InsertHandoff.priority h with None => Some MEDIUM | v => castPriority v end in
  match status, priority with
  | Some s, Some p =>
      let row := Handoff.mk uuid (InsertHandoff.workspaceId h) (InsertHandoff.channelId h)
                   (InsertHandoff.title h) (InsertHandoff.description h) s p
                   (InsertHandoff.fromAgentId h) (InsertHandoff.toHumanId h) None now in
      if accepts [Some (InsertHandoff.workspaceId h); InsertHandoff.channelId h;
                  Some (InsertHandoff.title h); InsertHandoff.description h;
                  InsertHandoff.fromAgentId h; InsertHandoff.toHumanId h]
      then
        match insertRow Handoff.id row (handoffs d) with
        | inl e => inl e
        | inr rows => inr (row, withHandoffs d rows)
        end
      else inl DatabaseError
  | _, _ => inl DatabaseError
  end.

(** [updateData] is [{status}], with [resolvedAt] added when the status is
    the string [RESOLVED]. *)
Definition updateHandoffStatus (now : Time) (d : Db) (id : string) (status : option Js.value)
  : Exn + (option Handoff.t * Db) :=
  match castStatus status with
  | None => inl DatabaseError
  | Some s =>
      let updateData := fun h : Handoff.t =>
        let h1 := Handoff.withStatus h s in
        if strictEqStr status "RESOLVED"
        then Handoff.withResolvedAt h1 (Some now)
        else h1 in
      let hit := fun h => String.eqb (Handoff.id h) id in
      inr (head (returningWhere hit updateData (handoffs d)),
           withHandoffs d (updateWhere hit updateData (handoffs d)))
  end.

(** *** Memory *)
Definition sameKey (agentId key : string) (m : Memory.t) : bool :=
  String.eqb (Memory.agentId m) agentId && String.eqb (Memory.key m) key.

Definition getMemory (d : Db) (agentId key : string) : option Memory.t :=
  head (List.filter (sameKey agentId key) (memories d)).

(** The second and later bytes of a character that takes more than one
    byte: [10xxxxxx]. *)
Definition continuation (b : ascii) : bool :=
  match b with
  | Ascii _ _ _ _ _ _ false true => true
  | _ => false
  end.

(** The text from its next character on, once the first byte of the
    current character has been passed. *)
Fixpoint dropContinuation (s : string) : string :=
  match s with
  | String b s' => if continuation b then dropContinuation s' else s
  | EmptyString => s
  end.

(** [%] before the rest of a pattern: the rest matches the text from the
    start of one of its characters on. *)
Definition anyRun (rest : string -> bool) : string -> bool :=
  fix star (s : string) : bool :=
    rest s
    || match s with
       | EmptyString => false
       | String _ s' =>
           (fix next (t : string) : bool :=
              match t with
              | String b t' => if continuation b then next t' else star t
              | EmptyString => star t
              end) s'
       end.

(** [text LIKE pattern] of the database, on UTF-8 text: [%] stands for any
    run of characters, [_] for any one character, whatever the number of
    its bytes, and a backslash takes the next character of the pattern
    literally. The matcher walks the pattern byte by byte and the text, at
    [%] and [_], character by character. (A pattern that ends in a lone
    backslash is an error in the database; no pattern built below does.) *)
Fixpoint like (pattern : string) : string -> bool :=
  match pattern with
  | EmptyString => fun s => match s with EmptyString => true | String _ _ => false end
  | String c rest =>
      if Ascii.eqb c "%"%char then anyRun (like rest)
      else if Ascii.eqb c "_"%char then
        fun s => match s with
                 | EmptyString => false
                 | String _ s' => like rest (dropContinuation s')
                 end
      else if Ascii.eqb c "\"%char then
        match rest with
        | EmptyString => fun _ => false
        | String e rest' =>
            fun s => match s with
                     | EmptyString => false
                     | String x s' => Ascii.eqb x e && like rest' s'
                     end
        end
      else
        fun s => match s with
                 | EmptyString => false
                 | String x s' => Ascii.eqb x c && like rest s'
                 end
  end.

Definition getMemoriesByPrefix (d : Db) (agentId prefix : string) : list Memory.t :=
  List.filter (fun m => String.eqb (Memory.agentId m) agentId
                        && like (prefix ++ "%") (Memory.key m)) (memories d).

Definition deleteMemory (d : Db) (agentId key : string) : Db :=
  withMemories d (List.filter (fun m => negb (sameKey agentId key m)) (memories d)).

(** Upsert: delete existing then insert. The two statements are not in one
    transaction: a failed insert leaves the delete in place. The delete
    fails, and nothing is deleted, when the agent id or the key is no text
    the database accepts; the insert fails when the value is none the
    [value] column holds, or the generated id is taken. *)
Definition setMemory (uuid : string) (now : Time) (d : Db) (memory : InsertMemory.t)
  : Exn * Db + Memory.t * Db :=
  if accepts [Some (InsertMemory.agentId memory); Some (InsertMemory.key memory)]
  then
    let d1 := deleteMemory d (InsertMemory.agentId memory) (InsertMemory.key memory) in
    let row := Memory.mk uuid (InsertMemory.agentId memory) (InsertMemory.key memory)
                 (InsertMemory.value memory) (InsertMemory.expiresAt memory) now now in
    if jsonbNotNull (InsertMemory.value memory)
    then
      match insertRow Memory.id row (memories d1) with
      | inl e => inl (e, d1)
      | inr rows => inr (row, withMemories d1 rows)
      end
    else inl (DatabaseError, d1)
  else inl (DatabaseError, d).

(** *** Further tables and calls of the class *)

(** An insert into a table with a primary key [pk] and a column [uq] under
    a unique constraint. *)
Definition insertUnique {R} (pk uq : R -> string) (row : R) (rows : list R)
  : Exn + list R :=
  if existsb (String.eqb (uq row)) (uq <$> rows)
  then inl DatabaseError
  else insertRow pk row rows.

Definition withHumans (d : Db) (l : list Human.t) : Db :=
  mkDb l (workspaceMembers d) (agents d) (channels d) (messages d) (handoffs d) (memories d).
Definition withWorkspaceMembers (d : Db) (l : list WorkspaceMember.t) : Db :=
  mkDb (humans d) l (agents d) (channels d) (messages d) (handoffs d) (memories d).

Definition getHumanByEmail (d : Db) (email : string) : option Human.t :=
  head (List.filter (fun h => String.eqb (Human.email h) email) (humans d)).

Definition createHuman (uuid : string) (now : Time) (d : Db) (human : InsertHuman.t)
  : Exn + (Human.t * Db) :=
  let row := Human.mk uuid (InsertHuman.email human) (InsertHuman.password human)
               (InsertHuman.name human) (InsertHuman.avatarUrl human) now in
  if accepts [Some (InsertHuman.email human); Some (InsertHuman.password human);
              Some (InsertHuman.name human); InsertHuman.avatarUrl human]
  then
    match insertUnique Human.id Human.email row (humans d) with
    | inl e => inl e
    | inr rows => inr (row, withHumans d rows)
    end
  else inl DatabaseError.

(** The [workspaces] table is kept beside [Db]: the calls on it take it as
    an argument. *)
Definition getWorkspace (workspaces : list Workspace.t) (id : string) : option Workspace.t :=
  head (List.filter (fun w => String.eqb (Workspace.id w) id) workspaces).

Definition getWorkspacesForHuman (workspaces : list Workspace.t) (d : Db)
    (humanId : string) : list Workspace.t :=
  let memberRows :=
    WorkspaceMember.workspaceId
      <$> List.filter (fun m => String.eqb (WorkspaceMember.humanId m) humanId)
                      (workspaceMembers d) in
  if Nat.eqb (length memberRows) 0 then []
  else
    let workspaceIds := memberRows in
    let result := workspaces in
    List.filter (fun w => existsb (String.eqb (Workspace.id w)) workspaceIds) result.

Definition createWorkspace (uuid : string) (now : Time) (workspaces : list Workspace.t)
    (workspace : InsertWorkspace.t) : Exn + (Workspace.t * list Workspace.t) :=
  let row := Workspace.mk uuid (InsertWorkspace.name workspace)
               (InsertWorkspace.slug workspace) now in
  if accepts [Some (InsertWorkspace.name workspace); Some (InsertWorkspace.slug workspace)]
  then
    match insertUnique Workspace.id Workspace.slug row workspaces with
    | inl e => inl e
    | inr rows => inr (row, rows)
    end
  else inl DatabaseError.

Definition addWorkspaceMember (uuid : string) (now : Time) (d : Db)
    (member : InsertWorkspaceMember.t) : Exn + (WorkspaceMember.t * Db) :=
  let row := WorkspaceMember.mk uuid (InsertWorkspaceMember.workspaceId member)
               (InsertWorkspaceMember.humanId member)
               (default "member" (InsertWorkspaceMember.role member)) now in
  if accepts [Some (InsertWorkspaceMember.workspaceId member);
              Some (InsertWorkspaceMember.humanId member);
              InsertWorkspaceMember.role member]
  then
    match insertRow WorkspaceMember.id row (workspaceMembers d) with
    | inl e => inl e
    | inr rows => inr (row, withWorkspaceMembers d rows)
    end
  else inl DatabaseError.

(** A [SELECT] without [ORDER BY] returns its rows in the order the database
    finds them, which is not the order of insertion once rows have been
    updated, as those of this table are at every authentication. [scan]
    stands for that order: some permutation of the rows. *)
Definition getAgentsForWorkspace (scan : list Agent.t -> list Agent.t) (d : Db)
    (workspaceId : string) : list Agent.t :=
  scan (List.filter (fun a => String.eqb (Agent.workspaceId a) workspaceId) (agents d)).

Definition createAgent (uuid : string) (now : Time) (d : Db) (agent : InsertAgent.t)
  : Exn + (Agent.t * Db) :=
  let row := Agent.mk uuid (InsertAgent.workspaceId agent) (InsertAgent.name agent)
               (InsertAgent.description agent) (InsertAgent.apiKey agent)
               (InsertAgent.avatarUrl agent) (default true (InsertAgent.isActive agent))
               None now in
  if accepts [Some (InsertAgent.workspaceId agent); Some (InsertAgent.name agent);
              InsertAgent.description agent; Some (InsertAgent.apiKey agent);
              InsertAgent.avatarUrl agent]
  then
    match insertUnique Agent.id Agent.apiKey row (agents d) with
    | inl e => inl e
    | inr rows => inr (row, withAgents d rows)
    end
  else inl DatabaseError.

Definition getMessage (d : Db) (id : string) : option Message.t :=
  head (List.filter (fun m => String.eqb (Message.id m) id) (messages d)).

(** [`sk_${randomBytes(32).toString("hex")}`], for the hex string the
    random bytes give. *)
Definition generateApiKey (hex : string) : string := "sk_" ++ hex.

End Storage.

Import Storage.

(* ===================================================================== *)
(** ** HTTP responses                                                     *)
(* ===================================================================== *)

(** The JSON bodies the server sends. An error body is [{ message }]; the
    message of a refused status transition is a template over the current
    and the requested status. *)
Inductive Body :=
| BError (message : string)
| BInvalidTransition (from : HandoffStatus) (to : option Js.value)
| BChannels (l : list Channel.t)
| BChannel (c : Channel.t)
| BMessages (l : list (Message.t * string))
| BMessage (m : Message.t)
| BHandoffs (l : list Handoff.t)
| BHandoff (h : option Handoff.t).

Record Response := mkResponse { code : nat; body : Body }.

(** How a request ends: a response, or an error nobody catches. *)
Inductive Outcome :=
| Responded (r : Response)
| Threw (e : Exn).

(* ===================================================================== *)
(** ** server/auth.ts                                                     *)
(* ===================================================================== *)

Module Auth.

Record Headers := mkHeaders {
  xAgentKey : option string;
  authorization : option string }.

Inductive AuthType := AuthHuman | AuthAgent.

Record AuthRequest := mkReq {
  user : option Human.t;
  agent : option Agent.t;
  authType : option AuthType }.

Record JwtPayload := mkPayload { humanId : option string }.

Section WithJwt.

(** [jwt.verify(token, JWT_SECRET)]; [None] when it throws. *)
Variable jwtVerify : string -> option JwtPayload.

Definition verifyToken (token : string) : option JwtPayload := jwtVerify token.

Definition bearerShaped (authHeader : option string) : bool :=
  match authHeader with
  | Some h => negb (String.eqb h "") && String.prefix "Bearer " h
  | None => false
  end.

Definition keyShaped (apiKey : option string) : bool :=
  match apiKey with
  | Some k => negb (String.eqb k "") && String.prefix "sk_" k
  | None => false
  end.

Definition authenticateHuman (d : Db) (headers : Headers) (req : AuthRequest)
  : Response + AuthRequest :=
  let authHeader := authorization headers in
  if negb (bearerShaped authHeader)
  then inl (mkResponse 401 (BError "Unauthorized: No token provided"))
  else
    let token := match authHeader with
                 | Some h => String.substring 7 (String.length h - 7) h
                 | None => ""
                 end in
    match verifyToken token with
    | None => inl (mkResponse 401 (BError "Unauthorized: Invalid token"))
    | Some payload =>
        match humanId payload with
        | None => inl (mkResponse 401 (BError "Unauthorized: Invalid token"))
        | Some hid =>
            if String.eqb hid ""
            then inl (mkResponse 401 (BError "Unauthorized: Invalid token"))
            else
              match getHumanById d hid with
              | None => inl (mkResponse 401 (BError "Unauthorized: User not found"))
              | Some human => inr (mkReq (Some human) (agent req) (Some AuthHuman))
              end
        end
    end.

Definition authenticateAgent (now : Time) (d : Db) (headers : Headers) (req : AuthRequest)
  : (Response + AuthRequest) * Db :=
  let apiKey := xAgentKey headers in
  if negb (keyShaped apiKey)
  then (inl (mkResponse 401 (BError "Unauthorized: No API key provided")), d)
  else
    match getAgentByApiKey d (default "" apiKey) with
    | None => (inl (mkResponse 401 (BError "Unauthorized: Invalid API key")), d)
    | Some a =>
        if negb (Agent.isActive a)
        then (inl (mkResponse 403 (BError "Forbidden: Agent is deactivated")), d)
        else (inr (mkReq (user req) (Some a) (Some AuthAgent)),
              updateAgentLastSeen now d (Agent.id a))
    end.

Definition authenticateAny (now : Time) (d : Db) (headers : Headers) (req : AuthRequest)
  : (Response + AuthRequest) * Db :=
  (* Try API key first (for agents) *)
  if keyShaped (xAgentKey headers) then authenticateAgent now d headers req
  (* Try JWT token (for humans) *)
  else if bearerShaped (authorization headers) then (authenticateHuman d headers req, d)
  else (inl (mkResponse 401 (BError "Unauthorized: No credentials provided")), d).

End WithJwt.

End Auth.

Import Auth.

(* ===================================================================== *)
(** ** server/routes.ts: the realtime registry                            *)
(* ===================================================================== *)

Module WebSocket.
Inductive ReadyState := CONNECTING | OPEN | CLOSING | CLOSED.

#[global] Instance ReadyState_eq_dec : EqDecision ReadyState.
Proof. solve_decision. Defined.
End WebSocket.

(** The frames the server sends: [JSON.stringify] of one of these. *)
Inductive Event :=
| MessageCreated (channelId : string) (message : Message.t)
| HandoffCreated (workspaceId : string) (handoff : Handoff.t)
| HandoffUpdated (workspaceId : string) (handoff : option Handoff.t).

(** [WebSocketClient]. [cid] is the identity of the socket object; [sent]
    is what [send] has written to it, oldest first. The two interest sets
    are only ever used through [add], [delete] and [has]. *)
Record Client := mkClient {
  cid : nat;
  userId : option string;
  readyState : WebSocket.ReadyState;
  channels : gset Js.key;
  workspaces : gset Js.key;
  sent : list Event }.

Definition send (client : Client) (event : Event) : Client :=
  mkClient (cid client) (userId client) (readyState client)
           (channels client) (workspaces client) (sent client ++ [event])%list.

Definition withChannels (client : Client) (s : gset Js.key) : Client :=
  mkClient (cid client) (userId client) (readyState client) s (workspaces client) (sent client).

Definition withWorkspaces (client : Client) (s : gset Js.key) : Client :=
  mkClient (cid client) (userId client) (readyState client) (channels client) s (sent client).

(** The second argument of [broadcast]: ["channel"] or ["workspace"]. *)
Module Room.
Inductive RoomType := channel | workspace.

#[global] Instance RoomType_eq_dec : EqDecision RoomType.
Proof. solve_decision. Defined.
End Room.

(** [set.has(room)] for a string [room]. *)
Definition has (s : gset Js.key) (room : string) : bool := bool_decide (KStr room ∈ s).

(** The body of the [forEach] of [broadcast]. *)
Definition deliver (room : string) (type : Room.RoomType) (event : Event) (client : Client) : Client :=
  if bool_decide (readyState client = WebSocket.OPEN) then
    if bool_decide (type = Room.channel) && has (channels client) room then send client event
    else if bool_decide (type = Room.workspace) && has (workspaces client) room then send client event
    else client
  else client.

Definition broadcast (room : string) (type : Room.RoomType) (event : Event)
    (clients : list Client) : list Client :=
  deliver room type event <$> clients.

(** What [JSON.parse(data.toString())] gives. *)
Inductive Parsed :=
| Unparsable
| Value (message : Js.value).

(** The [try] block of the message handler; [inl] is a thrown error. *)
Definition tryFrame (data : Parsed) (ws : Client) : Exn + Client :=
  match data with
  | Unparsable => inl JsonSyntaxError
  | Value message =>
      match getProp message "type" with
      | None => inl TypeError
      | Some type =>
          let prop name := default None (getProp message name) in
          if strictEqStr type "join_channel"
          then inr (withChannels ws (channels ws ∪ {[ toKey (prop "channelId") ]}))
          else if strictEqStr type "leave_channel"
          then inr (withChannels ws (channels ws ∖ {[ toKey (prop "channelId") ]}))
          else if strictEqStr type "join_workspace"
          then inr (withWorkspaces ws (workspaces ws ∪ {[ toKey (prop "workspaceId") ]}))
          else if strictEqStr type "leave_workspace"
          then inr (withWorkspaces ws (workspaces ws ∖ {[ toKey (prop "workspaceId") ]}))
          else inr ws
      end
  end.

(** [ws.on("message", ...)]: the [catch] ignores whatever was thrown. *)
Definition onFrame (data : Parsed) (ws : Client) : Client :=
  match tryFrame data ws with
  | inl _ => ws
  | inr ws' => ws'
  end.

(** The handlers of one socket, on the registry [clients]. *)
Definition onConnection (jwtVerify : string -> option JwtPayload)
    (socket : nat) (token : option string) (clients : list Client) : list Client :=
  let userId :=
    match token with
    | Some t =>
        if String.eqb t "" then None
        else match verifyToken jwtVerify t with
             | Some payload =>
                 match humanId payload with
                 | Some h => if String.eqb h "" then None else Some h
                 | None => None
                 end
             | None => None
             end
    | None => None
    end in
  let ws := mkClient socket userId WebSocket.OPEN ∅ ∅ [] in
  if existsb (Nat.eqb socket) (cid <$> clients) then clients else (clients ++ [ws])%list.

Definition onMessage (socket : nat) (data : Parsed) (clients : list Client) : list Client :=
  (fun ws => if Nat.eqb (cid ws) socket then onFrame data ws else ws) <$> clients.

Definition onClose (socket : nat) (clients : list Client) : list Client :=
  List.filter (fun ws => negb (Nat.eqb (cid ws) socket)) clients.

(* ===================================================================== *)
(** ** server/routes.ts: the HTTP routes                                  *)
(* ===================================================================== *)

(** Everything a request can read or change: the database and the set of
    live sockets. *)
Record World := mkWorld { db : Db; clients : list Client }.

(** What the environment supplies to one request: the identifier the
    database generates for a new row and the current time. *)
Record Env := mkEnv { uuid : string; now : Time }.

(** A handler runs over the world and either goes on with a value or has
    ended the request ([return res.status(...)...], or an uncaught error). *)
Inductive Step (A : Type) :=
| Go (a : A)
| End_ (o : Outcome).
Arguments Go {A} a.
Arguments End_ {A} o.

Definition M (A : Type) := World -> Step A * World.

Definition ret {A} (a : A) : M A := fun w => (Go a, w).

Definition bind {A B} (m : M A) (k : A -> M B) : M B :=
  fun w => match m w with
           | (Go a, w') => k a w'
           | (End_ o, w') => (End_ o, w')
           end.

Notation "'await' x <- m ; k" := (bind m (fun x => k))
  (at level 10, x name, m at level 100, k at level 200,
   format "'[v' 'await'  x  <-  m ; '/' k ']'").
Notation "'perform' m ; k" := (bind m (fun _ => k))
  (at level 10, m at level 100, k at level 200,
   format "'[v' 'perform'  m ; '/' k ']'").

(** [return res.status(code).json(body)]. *)
Definition reply {A} (code : nat) (body : Body) : M A :=
  fun w => (End_ (Responded (mkResponse code body)), w).

Definition throw {A} (e : Exn) : M A := fun w => (End_ (Threw e), w).

(** A storage call that only reads. *)
Definition query {A} (f : Db -> A) : M A := fun w => (Go (f (db w)), w).

(** A storage call that can fail. *)
Definition attempt {A} (f : Db -> Exn + A) : M A :=
  fun w => match f (db w) with
           | inl e => (End_ (Threw e), w)
           | inr a => (Go a, w)
           end.

(** A storage call that writes. *)
Definition mutate {A} (f : Db -> Exn + A * Db) : M A :=
  fun w => match f (db w) with
           | inl e => (End_ (Threw e), w)
           | inr (a, d) => (Go a, mkWorld d (clients w))
           end.

Definition publish (room : string) (type : Room.RoomType) (event : Event) : M unit :=
  fun w => (Go tt, mkWorld (db w) (broadcast room type event (clients w))).

(** [x!]: the value, or the [TypeError] of reading a property of
    [undefined]. *)
Definition unwrap {A} (x : option A) : M A :=
  match x with Some a => ret a | None => throw TypeError end.

(** A request as a function of the world. *)
Definition run (m : M Response) (w : World) : Outcome * World :=
  match m w with
  | (Go r, w') => (Responded r, w')
  | (End_ o, w') => (o, w')
  end.

(** The string [v] holds when the test [!v || typeof v !== "string"] of the
    routes lets it through, and nothing when the route answers 400. *)
Definition requiredString (v : option Js.value) : option string :=
  if negb (truthy v) || negb (isString v) then None
  else match v with Some (JStr s) => Some s | _ => None end.

(** The access check that five routes repeat word for word. *)
Definition checkAccess (req : AuthRequest) (workspaceId : string) : M unit :=
  match authType req with
  | Some AuthHuman =>
      await u <- unwrap (user req) ;
      await member <- query (fun d => getWorkspaceMember d workspaceId (Human.id u)) ;
      match member with
      | None => reply 403 (BError "Not a member of this workspace")
      | Some _ => ret tt
      end
  | Some AuthAgent =>
      await a <- unwrap (agent req) ;
      if negb (String.eqb (Agent.workspaceId a) workspaceId)
      then reply 403 (BError "Agent does not belong to this workspace")
      else ret tt
  | None => ret tt
  end.

(** *** Channels *)

(** GET /api/v1/workspaces/:workspace_id/channels *)
Definition getChannels (req : AuthRequest) (workspace_id : string) : M Response :=
  perform checkAccess req workspace_id ;
  await channels <- query (fun d => getChannelsForWorkspace d workspace_id) ;
  ret (mkResponse 200 (BChannels channels)).

(** What reaches a text column for a value of a body that the route passes
    on unchecked: nothing for a missing value or [null], a string as it is,
    and for any other value the text the driver writes for it, [toText]. *)
Definition textColumn (toText : Js.value -> string) (v : option Js.value) : option string :=
  match v with
  | None | Some JNull => None
  | Some (JStr s) => Some s
  | Some other => Some (toText other)
  end.

(** What reaches a boolean column for [v || false]: [false] for a falsy
    value, a boolean as it is, and for any other value what the database
    reads in the text the driver writes for it, [toBool]: nothing when that
    text is not a boolean literal, and the insert fails. *)
Definition boolColumn (toBool : Js.value -> option bool) (v : option Js.value) : option bool :=
  if truthy v then
    match v with
    | Some (JBool b) => Some b
    | Some other => toBool other
    | None => Some false
    end
  else Some false.

Record ChannelBody := mkChannelBody {
  cb_name : option Js.value;
  cb_description : option Js.value;
  cb_isPrivate : option Js.value }.

(** POST /api/v1/workspaces/:workspace_id/channels *)
Definition postChannel (toText : Js.value -> string) (toBool : Js.value -> option bool)
    (env : Env) (req : AuthRequest) (workspace_id : string)
    (body : ChannelBody) : M Response :=
  perform checkAccess req workspace_id ;
  match requiredString (cb_name body) with
  | None => reply 400 (BError "Channel name is required")
  | Some name =>
      await channel <- mutate (fun d =>
        match boolColumn toBool (cb_isPrivate body) with
        | Some isPrivate =>
            createChannel (uuid env) (now env) d
              (InsertChannel.mk workspace_id name
                 (textColumn toText (cb_description body)) isPrivate)
        | None => inl DatabaseError
        end) ;
      ret (mkResponse 201 (BChannel channel))
  end.

(** *** Messages *)

Record MessagesQuery := mkMessagesQuery {
  q_limit : option Z;  (* [parseInt(req.query.limit)], [None] for [NaN] *)
  q_before : option string }.

(** The author name added to each message of a listing. *)
Definition authorName (d : Db) (msg : Message.t) : string :=
  let hasAuthor := match Message.authorId msg with
                   | Some a => negb (String.eqb a "")
                   | None => false
                   end in
  let authorId := default "" (Message.authorId msg) in
  if String.eqb (Message.authorType msg) "human" && hasAuthor then
    match getHumanById d authorId with
    | Some human => if String.eqb (Human.name human) "" then "Unknown" else Human.name human
    | None => "Unknown"
    end
  else if String.eqb (Message.authorType msg) "agent" && hasAuthor then
    match getAgent d authorId with
    | Some a => if String.eqb (Agent.name a) "" then "Unknown Agent" else Agent.name a
    | None => "Unknown Agent"
    end
  else if String.eqb (Message.authorType msg) "system" then "System"
  else "Unknown".

(** GET /api/v1/channels/:channel_id/messages *)
Definition getMessages (req : AuthRequest) (channel_id : string) (q : MessagesQuery)
  : M Response :=
  let limit := match q_limit q with
               | Some n => if (n =? 0)%Z then 50%Z else n
               | None => 50%Z
               end in
  let before := q_before q in
  await channel <- query (fun d => getChannel d channel_id) ;
  match channel with
  | None => reply 404 (BError "Channel not found")
  | Some channel =>
      perform checkAccess req (Channel.workspaceId channel) ;
      await messages <- attempt (fun d => getMessagesForChannel d channel_id limit before) ;
      await enrichedMessages <- query (fun d => (fun msg => (msg, authorName d msg)) <$> messages) ;
      ret (mkResponse 200 (BMessages enrichedMessages))
  end.

Record MessageBody := mkMessageBody { mb_content : option Js.value }.

(** POST /api/v1/channels/:channel_id/messages *)
Definition postMessage (env : Env) (req : AuthRequest) (channel_id : string)
    (body : MessageBody) : M Response :=
  await channel <- query (fun d => getChannel d channel_id) ;
  match channel with
  | None => reply 404 (BError "Channel not found")
  | Some channel =>
      (* Check access and determine author *)
      await author <-
        match authType req with
        | Some AuthHuman =>
            await u <- unwrap (user req) ;
            await member <- query (fun d =>
              getWorkspaceMember d (Channel.workspaceId channel) (Human.id u)) ;
            match member with
            | None => reply 403 (BError "Not a member of this workspace")
            | Some _ => ret ("human", Human.id u)
            end
        | Some AuthAgent =>
            await a <- unwrap (agent req) ;
            if negb (String.eqb (Agent.workspaceId a) (Channel.workspaceId channel))
            then reply 403 (BError "Agent does not belong to this workspace")
            else ret ("agent", Agent.id a)
        | None => reply 401 (BError "Unauthorized")
        end ;
      match requiredString (mb_content body) with
      | None => reply 400 (BError "Message content is required")
      | Some content =>
          await message <- mutate (fun d =>
            createMessage (uuid env) (now env) d
              (InsertMessage.mk channel_id (fst author) (Some (snd author)) content TEXT)) ;
          (* Broadcast to channel *)
          perform publish channel_id Room.channel (MessageCreated channel_id message) ;
          ret (mkResponse 201 (BMessage message))
      end
  end.

(** *** Handoffs *)

(** GET /api/v1/workspaces/:workspace_id/handoffs *)
Definition getHandoffs (req : AuthRequest) (workspace_id : string)
    (status : option string) : M Response :=
  perform checkAccess req workspace_id ;
  await handoffs <- attempt (fun d => getHandoffsForWorkspace d workspace_id status) ;
  ret (mkResponse 200 (BHandoffs handoffs)).

(** The body of a create-handoff request: every field is whatever
    JavaScript value the caller put there. The route inspects the title and
    the priority and passes the description, the channel and the assignee
    on to the insert as they are. [hb_status] is whatever the caller put
    under [status]; the route never reads it. *)
Record HandoffBody := mkHandoffBody {
  hb_title : option Js.value;
  hb_description : option Js.value;
  hb_priority : option Js.value;
  hb_channelId : option Js.value;
  hb_toHumanId : option Js.value;
  hb_status : option Js.value }.

Definition validPriorities : list string := ["LOW"; "MEDIUM"; "HIGH"; "URGENT"].

(** POST /api/v1/workspaces/:workspace_id/handoffs *)
Definition postHandoff (toText : Js.value -> string) (env : Env) (req : AuthRequest)
    (workspace_id : string) (body : HandoffBody) : M Response :=
  let title := hb_title body in
  let description := hb_description body in
  let priority := hb_priority body in
  let channelId := hb_channelId body in
  let toHumanId := hb_toHumanId body in
  (* Check access *)
  await fromAgentId <-
    match authType req with
    | Some AuthHuman =>
        await u <- unwrap (user req) ;
        await member <- query (fun d => getWorkspaceMember d workspace_id (Human.id u)) ;
        match member with
        | None => reply 403 (BError "Not a member of this workspace")
        | Some _ => ret None
        end
    | Some AuthAgent =>
        await a <- unwrap (agent req) ;
        if negb (String.eqb (Agent.workspaceId a) workspace_id)
        then reply 403 (BError "Agent does not belong to this workspace")
        else ret (Some (Agent.id a))
    | None => ret None
    end ;
  match requiredString title with
  | None => reply 400 (BError "Handoff title is required")
  | Some title =>
      if truthy priority && negb (includes validPriorities priority)
      then reply 400 (BError "Invalid priority")
      else
        await handoff <- mutate (fun d =>
          createHandoff (uuid env) (now env) d
            (InsertHandoff.mk workspace_id (textColumn toText channelId) title
               (textColumn toText description)
               (Some (JStr "OPEN"))
               (if truthy priority then priority else Some (JStr "MEDIUM"))
               fromAgentId (textColumn toText toHumanId))) ;
        (* Broadcast to workspace *)
        perform publish workspace_id Room.workspace (HandoffCreated workspace_id handoff) ;
        ret (mkResponse 201 (BHandoff (Some handoff)))
  end.

Record PatchBody := mkPatchBody { pb_status : option Js.value }.

(** The table of the PATCH route: [validTransitions[current]]. *)
Definition validTransitions (current : HandoffStatus) : list string :=
  match current with
  | OPEN => ["IN_PROGRESS"]
  | IN_PROGRESS => ["RESOLVED"]
  | RESOLVED => []
  end.

(** PATCH /api/v1/handoffs/:handoff_id *)
Definition patchHandoff (env : Env) (req : AuthRequest) (handoff_id : string)
    (body : PatchBody) : M Response :=
  let status := pb_status body in
  await handoff <- query (fun d => getHandoff d handoff_id) ;
  match handoff with
  | None => reply 404 (BError "Handoff not found")
  | Some handoff =>
      perform checkAccess req (Handoff.workspaceId handoff) ;
      (* Validate status transition *)
      if negb (includes (validTransitions (Handoff.status handoff)) status)
      then reply 400 (BInvalidTransition (Handoff.status handoff) status)
      else
        await updated <- mutate (fun d => updateHandoffStatus (now env) d handoff_id status) ;
        (* Broadcast to workspace *)
        perform publish (Handoff.workspaceId handoff) Room.workspace
          (HandoffUpdated (Handoff.workspaceId handoff) updated) ;
        ret (mkResponse 200 (BHandoff updated))
  end.

(** *** The routes behind [authenticateAny], as one operation

    These are the routes a request of either kind of principal reaches.
    The routes behind [authenticateHuman] (the workspaces of a human, the
    agents of a workspace) and behind [authenticateAgent] (the memory of an
    agent) take one kind of principal only and are not part of [serve]. *)

Inductive Request :=
| GetChannels (workspace_id : string)
| PostChannel (workspace_id : string) (body : ChannelBody)
| GetMessages (channel_id : string) (q : MessagesQuery)
| PostMessage (channel_id : string) (body : MessageBody)
| GetHandoffs (workspace_id : string) (status : option string)
| PostHandoff (workspace_id : string) (body : HandoffBody)
| PatchHandoff (handoff_id : string) (body : PatchBody).

(** The handler a request reaches once [authenticateAny] has called
    [next()]. *)
Definition serve (toText : Js.value -> string) (toBool : Js.value -> option bool)
    (env : Env) (req : AuthRequest) (r : Request) : M Response :=
  match r with
  | GetChannels workspace_id => getChannels req workspace_id
  | PostChannel workspace_id body => postChannel toText toBool env req workspace_id body
  | GetMessages channel_id q => getMessages req channel_id q
  | PostMessage channel_id body => postMessage env req channel_id body
  | GetHandoffs workspace_id status => getHandoffs req workspace_id status
  | PostHandoff workspace_id body => postHandoff toText env req workspace_id body
  | PatchHandoff handoff_id body => patchHandoff env req handoff_id body
  end.

(** A request from the wire: the middleware, then the handler. *)
Definition handle (jwtVerify : string -> option JwtPayload)
    (toText : Js.value -> string) (toBool : Js.value -> option bool) (env : Env)
    (headers : Headers) (r : Request) (w : World) : Outcome * World :=
  match authenticateAny jwtVerify (now env) (db w) headers (mkReq None None None) with
  | (inl response, d) => (Responded response, mkWorld d (clients w))
  | (inr req, d) => run (serve toText toBool env req r) (mkWorld d (clients w))
  end.

(** What happens to the server, one event at a time. *)
Inductive Action :=
| Http (env : Env) (headers : Headers) (r : Request)
| Connect (socket : nat) (token : option string)
| Frame (socket : nat) (data : Parsed)
| Close (socket : nat).

Definition step (jwtVerify : string -> option JwtPayload)
    (toText : Js.value -> string) (toBool : Js.value -> option bool)
    (a : Action) (w : World) : option Outcome * World :=
  match a with
  | Http env headers r =>
      let '(out, w') := handle jwtVerify toText toBool env headers r w in (Some out, w')
  | Connect socket token =>
      (None, mkWorld (db w) (onConnection jwtVerify socket token (clients w)))
  | Frame socket data => (None, mkWorld (db w) (onMessage socket data (clients w)))
  | Close socket => (None, mkWorld (db w) (onClose socket (clients w)))
  end.

(** The world after a sequence of events. *)
Definition after (jwtVerify : string -> option JwtPayload)
    (toText : Js.value -> string) (toBool : Js.value -> option bool)
    (actions : list Action) (w : World) : World :=
  fold_left (fun w a => snd (step jwtVerify toText toBool a w)) actions w.

(** *** The routes of one kind of principal

    A handler of type [M (nat * A)] ends either early, with an error
    response, or with the status and the value it sends as JSON. *)

Definition runAs {A} (m : M A) (w : World) : (Outcome + A) * World :=
  match m w with
  | (Go a, w') => (inr a, w')
  | (End_ o, w') => (inl o, w')
  end.

(** A storage call that writes and cannot fail. *)
Definition update (f : Db -> Db) : M unit :=
  fun w => (Go tt, mkWorld (f (db w)) (clients w)).

(** An agent as the listing shows it: every column but the API key. *)
Record SafeAgent := mkSafeAgent {
  sa_id : string;
  sa_workspaceId : string;
  sa_name : string;
  sa_description : option string;
  sa_avatarUrl : option string;
  sa_isActive : bool;
  sa_lastSeenAt : option Time;
  sa_createdAt : Time }.

Definition safeAgent (a : Agent.t) : SafeAgent :=
  mkSafeAgent (Agent.id a) (Agent.workspaceId a) (Agent.name a) (Agent.description a)
    (Agent.avatarUrl a) (Agent.isActive a) (Agent.lastSeenAt a) (Agent.createdAt a).

(** GET /api/v1/workspaces/:workspace_id/agents, behind [authenticateHuman] *)
Definition getAgents (scan : list Agent.t -> list Agent.t) (req : AuthRequest)
    (workspace_id : string) : M (nat * list SafeAgent) :=
  await u <- unwrap (user req) ;
  await member <- query (fun d => getWorkspaceMember d workspace_id (Human.id u)) ;
  match member with
  | None => reply 403 (BError "Not a member of this workspace")
  | Some _ =>
      await agents <- query (fun d => getAgentsForWorkspace scan d workspace_id) ;
      (* Don't expose API keys *)
      ret (200, safeAgent <$> agents)
  end.

Record AgentBody := mkAgentBody {
  ab_name : option Js.value;
  ab_description : option Js.value }.

(** POST /api/v1/workspaces/:workspace_id/agents, behind [authenticateHuman].
    [hex] is the hex string of the random bytes of the new key. *)
Definition postAgent (toText : Js.value -> string) (env : Env) (hex : string)
    (req : AuthRequest) (workspace_id : string) (body : AgentBody) : M (nat * Agent.t) :=
  await u <- unwrap (user req) ;
  await member <- query (fun d => getWorkspaceMember d workspace_id (Human.id u)) ;
  match member with
  | None => reply 403 (BError "Not a member of this workspace")
  | Some _ =>
      match requiredString (ab_name body) with
      | None => reply 400 (BError "Agent name is required")
      | Some name =>
          let apiKey := generateApiKey hex in
          await agent <- mutate (fun d =>
            createAgent (uuid env) (now env) d
              (InsertAgent.mk workspace_id name (textColumn toText (ab_description body))
                 apiKey None (Some true))) ;
          (* Return full agent including API key (only time it's visible) *)
          ret (201, agent)
      end
  end.

(** GET /api/v1/memory, behind [authenticateAgent] *)
Definition getMemoryRoute (req : AuthRequest) (q : option string)
  : M (nat * list Memory.t) :=
  match q with
  | None => reply 400 (BError "Query parameter 'q' is required")
  | Some q =>
      if String.eqb q "" then reply 400 (BError "Query parameter 'q' is required")
      else
        (* Check if it's an exact key match or prefix search *)
        await a <- unwrap (agent req) ;
        await memory <- query (fun d => getMemory d (Agent.id a) q) ;
        match memory with
        | Some memory => ret (200, [memory])
        | None =>
            (* Try prefix search *)
            await memories <- query (fun d => getMemoriesByPrefix d (Agent.id a) q) ;
            ret (200, memories)
        end
  end.

(** DELETE /api/v1/memory/:key, behind [authenticateAgent] *)
Definition deleteMemoryRoute (req : AuthRequest) (key : string) : M (nat * unit) :=
  await a <- unwrap (agent req) ;
  perform update (fun d => deleteMemory d (Agent.id a) key) ;
  ret (204, tt).

(** A human as the responses show it: every column but the password. *)
Record SafeHuman := mkSafeHuman {
  sh_id : string;
  sh_email : string;
  sh_name : string;
  sh_avatarUrl : option string;
  sh_createdAt : Time }.

Definition safeHuman (h : Human.t) : SafeHuman :=
  mkSafeHuman (Human.id h) (Human.email h) (Human.name h) (Human.avatarUrl h)
    (Human.createdAt h).

(** GET /api/v1/auth/me, behind [authenticateHuman] *)
Definition me (req : AuthRequest) : M (nat * SafeHuman) :=
  await u <- unwrap (user req) ;
  ret (200, safeHuman u).

(** The two auth routes. The libraries they call are parameters: the zod
    schemas ([inl] is the message of the first issue of a [ZodError]),
    bcrypt, the signing of a token, and the slug of a new workspace. *)
Record LoginInput := mkLoginInput { li_email : string; li_password : string }.
Record RegisterInput := mkRegisterInput {
  ri_email : string; ri_name : string; ri_password : string }.

Record AuthLibs (RawBody : Type) := mkAuthLibs {
  loginSchemaParse : RawBody -> string + LoginInput;
  registerSchemaParse : RawBody -> string + RegisterInput;
  hashPassword : string -> string;
  verifyPassword : string -> string -> bool;
  generateToken : string -> string;
  slugOf : string -> Time -> string }.
Arguments loginSchemaParse {RawBody}.
Arguments registerSchemaParse {RawBody}.
Arguments hashPassword {RawBody}.
Arguments verifyPassword {RawBody}.
Arguments generateToken {RawBody}.
Arguments slugOf {RawBody}.

(** POST /api/v1/auth/login *)
Definition login {RawBody} (libs : AuthLibs RawBody) (body : RawBody)
  : M (nat * (string * SafeHuman)) :=
  match loginSchemaParse libs body with
  | inl message => reply 400 (BError message)
  | inr data =>
      await human <- query (fun d => getHumanByEmail d (li_email data)) ;
      match human with
      | None => reply 401 (BError "Invalid email or password")
      | Some human =>
          let validPassword := verifyPassword libs (li_password data) (Human.password human) in
          if negb validPassword
          then reply 401 (BError "Invalid email or password")
          else
            let token := generateToken libs (Human.id human) in
            ret (200, (token, safeHuman human))
      end
  end.

(** POST /api/v1/auth/register, on the workspaces table and the database.
    Each of the four inserts has its own generated id and time; [dateNow]
    is the [Date.now()] of the slug. An error of the storage is caught and
    answered 500, with what was written before it left in place. *)
Record RegisterEnv := mkRegisterEnv {
  forHuman : Env; forWorkspace : Env; forMember : Env; forChannel : Env;
  dateNow : Time }.

Inductive RegisterReply :=
| Registered (token : string) (user : SafeHuman)
| RegisterError (code : nat) (message : string).

Definition register {RawBody} (libs : AuthLibs RawBody) (env : RegisterEnv)
    (workspaces : list Workspace.t) (d : Db) (body : RawBody)
  : RegisterReply * (list Workspace.t * Db) :=
  match registerSchemaParse libs body with
  | inl message => (RegisterError 400 message, (workspaces, d))
  | inr data =>
      (* Check if email already exists *)
      match getHumanByEmail d (ri_email data) with
      | Some _ => (RegisterError 400 "Email already registered", (workspaces, d))
      | None =>
          let hashedPassword := hashPassword libs (ri_password data) in
          match createHuman (uuid (forHuman env)) (now (forHuman env)) d
                  (InsertHuman.mk (ri_email data) hashedPassword (ri_name data) None) with
          | inl _ => (RegisterError 500 "Registration failed", (workspaces, d))
          | inr (human, d1) =>
              (* Create a default workspace for the new user *)
              match createWorkspace (uuid (forWorkspace env)) (now (forWorkspace env))
                      workspaces
                      (InsertWorkspace.mk (ri_name data ++ "'s Workspace")
                         (slugOf libs (ri_name data) (dateNow env))) with
              | inl _ => (RegisterError 500 "Registration failed", (workspaces, d1))
              | inr (workspace, workspaces1) =>
                  (* Add user to workspace *)
                  match addWorkspaceMember (uuid (forMember env)) (now (forMember env)) d1
                          (InsertWorkspaceMember.mk (Workspace.id workspace)
                             (Human.id human) (Some "owner")) with
                  | inl _ => (RegisterError 500 "Registration failed", (workspaces1, d1))
                  | inr (_, d2) =>
                      (* Create default channel *)
                      match createChannel (uuid (forChannel env)) (now (forChannel env)) d2
                              (InsertChannel.mk (Workspace.id workspace) "general"
                                 (Some "General discussion") false) with
                      | inl _ =>
                          (RegisterError 500 "Registration failed", (workspaces1, d2))
                      | inr (_, d3) =>
                          let token := generateToken libs (Human.id human) in
                          (Registered token (safeHuman human), (workspaces1, d3))
                      end
                  end
              end
          end
      end
  end.

(* ===================================================================== *)
(** ** server/seed.ts                                                     *)
(* ===================================================================== *)

(** The script works on the workspaces table and the database. A storage
    call that is rejected ends it, with what was written before left in
    place. *)
Definition Tables : Type := list Workspace.t * Db.
Definition Script (A : Type) : Type := Tables -> (Exn + A) * Tables.

Definition andThen {A B} (m : Script A) (k : A -> Script B) : Script B :=
  fun t => match m t with
           | (inr a, t') => k a t'
           | (inl e, t') => (inl e, t')
           end.

Notation "'stored' x <- m ; k" := (andThen m (fun x => k))
  (at level 10, x name, m at level 100, k at level 200,
   format "'[v' 'stored'  x  <-  m ; '/' k ']'").

Definition finished : Script unit := fun t => (inr tt, t).

(** An insert into a table of the database, with the id and the time it
    generates. *)
Definition inDb {X A} (e : Env) (create : string -> Time -> Db -> X -> Exn + A * Db)
    (x : X) : Script A :=
  fun t => match create (uuid e) (now e) (snd t) x with
           | inl err => (inl err, t)
           | inr (a, d) => (inr a, (fst t, d))
           end.

Definition inWorkspaces (e : Env) (x : InsertWorkspace.t) : Script Workspace.t :=
  fun t => match createWorkspace (uuid e) (now e) (fst t) x with
           | inl err => (inl err, t)
           | inr (a, l) => (inr a, (l, snd t))
           end.

(** [seed()]. [hash] is [bcrypt.hash(_, SALT_ROUNDS)], [hex n] the hex
    string of the random bytes of the [n]-th key, and [env n] the id and
    the time of the [n]-th insert. *)
Definition seed (hash : string -> string) (hex : nat -> string) (env : nat -> Env)
  : Script unit :=
  fun t =>
  (* Check if demo user exists *)
  match getHumanByEmail (snd t) "demo@agenthq.io" with
  | Some _ => finished t
  | None =>
    (* Create demo user *)
    let hashedPassword := hash "demo123" in
    (stored demoUser <- inDb (env 0) createHuman
       (InsertHuman.mk "demo@agenthq.io" hashedPassword "Alex Chen" None) ;
     (* Create additional users *)
     stored sarah <- inDb (env 1) createHuman
       (InsertHuman.mk "sarah@agenthq.io" hashedPassword "Sarah Miller" None) ;
     stored mike <- inDb (env 2) createHuman
       (InsertHuman.mk "mike@agenthq.io" hashedPassword "Mike Johnson" None) ;
     (* Create workspace *)
     stored workspace <- inWorkspaces (env 3) (InsertWorkspace.mk "Acme Corp" "acme-corp") ;
     (* Add users to workspace *)
     stored _m1 <- inDb (env 4) addWorkspaceMember
       (InsertWorkspaceMember.mk (Workspace.id workspace) (Human.id demoUser) (Some "owner")) ;
     stored _m2 <- inDb (env 5) addWorkspaceMember
       (InsertWorkspaceMember.mk (Workspace.id workspace) (Human.id sarah) (Some "member")) ;
     stored _m3 <- inDb (env 6) addWorkspaceMember
       (InsertWorkspaceMember.mk (Workspace.id workspace) (Human.id mike) (Some "member")) ;
     (* Create channels *)
     stored generalChannel <- inDb (env 7) createChannel
       (InsertChannel.mk (Workspace.id workspace) "general"
          (Some "General discussion and announcements") false) ;
     stored engineeringChannel <- inDb (env 8) createChannel
       (InsertChannel.mk (Workspace.id workspace) "engineering"
          (Some "Engineering team discussions") false) ;
     stored supportChannel <- inDb (env 9) createChannel
       (InsertChannel.mk (Workspace.id workspace) "support"
          (Some "Customer support escalations") false) ;
     (* Create AI agents *)
     stored codeReviewAgent <- inDb (env 10) createAgent
       (InsertAgent.mk (Workspace.id workspace) "CodeReview Bot"
          (Some "Automated code review and suggestions") (generateApiKey (hex 0)) None
          (Some true)) ;
     stored supportAgent <- inDb (env 11) createAgent
       (InsertAgent.mk (Workspace.id workspace) "Support Assistant"
          (Some "AI-powered customer support helper") (generateApiKey (hex 1)) None
          (Some true)) ;
     stored dataAgent <- inDb (env 12) createAgent
       (InsertAgent.mk (Workspace.id workspace) "Data Analyzer"
          (Some "Analyzes data and generates reports") (generateApiKey (hex 2)) None
          (Some false)) ;
     (* Create messages in general channel *)
     stored _g1 <- inDb (env 13) createMessage
       (InsertMessage.mk (Channel.id generalChannel) "human" (Some (Human.id demoUser))
          "Welcome to AgentHQ! This is where humans and AI agents collaborate." TEXT) ;
     stored _g2 <- inDb (env 14) createMessage
       (InsertMessage.mk (Channel.id generalChannel) "agent" (Some (Agent.id supportAgent))
          "Hello team! I'm the Support Assistant. I'm here to help with customer inquiries and escalations."
          TEXT) ;
     stored _g3 <- inDb (env 15) createMessage
       (InsertMessage.mk (Channel.id generalChannel) "human" (Some (Human.id sarah))
          "Great to have AI assistance! Looking forward to improved response times." TEXT) ;
     stored _g4 <- inDb (env 16) createMessage
       (InsertMessage.mk (Channel.id generalChannel) "agent" (Some (Agent.id codeReviewAgent))
          "I've completed reviewing the latest PR. Found 3 potential improvements. Check the engineering channel for details."
          TEXT) ;
     stored _g5 <- inDb (env 17) createMessage
       (InsertMessage.mk (Channel.id generalChannel) "human" (Some (Human.id mike))
          "Thanks CodeReview Bot! I'll take a look at those suggestions." TEXT) ;
     (* Create messages in engineering channel *)
     stored _e1 <- inDb (env 18) createMessage
       (InsertMessage.mk (Channel.id engineeringChannel) "agent"
          (Some (Agent.id codeReviewAgent))
          "PR #142 Review Summary:

1. Consider using async/await instead of callbacks on line 45
2. Missing error handling in the API endpoint
3. Unused variable 'tempData' can be removed

Overall: Good work! Minor improvements suggested."
          TEXT) ;
     stored _e2 <- inDb (env 19) createMessage
       (InsertMessage.mk (Channel.id engineeringChannel) "human" (Some (Human.id mike))
          "Good catch on the async/await. I'll refactor that section." TEXT) ;
     (* Create messages in support channel *)
     stored _s1 <- inDb (env 20) createMessage
       (InsertMessage.mk (Channel.id supportChannel) "agent" (Some (Agent.id supportAgent))
          "New support ticket #2847: Customer unable to access their dashboard after password reset. Priority: High. I've initiated the standard troubleshooting flow but may need human escalation."
          TEXT) ;
     (* Create handoffs *)
     stored _h1 <- inDb (env 21) createHandoff
       (InsertHandoff.mk (Workspace.id workspace) (Some (Channel.id supportChannel))
          "Customer dashboard access issue"
          (Some "Customer John Doe (john@example.com) cannot access dashboard after password reset. Standard troubleshooting unsuccessful. Need human verification of account status.")
          (Some (JStr "OPEN")) (Some (JStr "HIGH")) (Some (Agent.id supportAgent)) None) ;
     stored _h2 <- inDb (env 22) createHandoff
       (InsertHandoff.mk (Workspace.id workspace) (Some (Channel.id engineeringChannel))
          "Complex merge conflict resolution"
          (Some "Multiple conflicting changes in the authentication module. Automated resolution could not safely proceed.")
          (Some (JStr "IN_PROGRESS")) (Some (JStr "MEDIUM"))
          (Some (Agent.id codeReviewAgent)) (Some (Human.id mike))) ;
     stored _h3 <- inDb (env 23) createHandoff
       (InsertHandoff.mk (Workspace.id workspace) None
          "API rate limit configuration review"
          (Some "Proposed new rate limits need human approval before implementation.")
          (Some (JStr "OPEN")) (Some (JStr "LOW")) (Some (Agent.id dataAgent)) None) ;
     stored _h4 <- inDb (env 24) createHandoff
       (InsertHandoff.mk (Workspace.id workspace) None
          "Security audit completed"
          (Some "Quarterly security scan completed. No critical issues found. Report attached for review.")
          (Some (JStr "RESOLVED")) (Some (JStr "MEDIUM"))
          (Some (Agent.id codeReviewAgent)) (Some (Human.id demoUser))) ;
     finished) t
  end.

(* ===================================================================== *)
(** ** Vocabulary of the specification                                    *)
(* ===================================================================== *)

(** The interest set of a session for a kind of room. *)
Definition interest (kind : Room.RoomType) (ws : Client) : gset Js.key :=
  match kind with
  | Room.channel => channels ws
  | Room.workspace => workspaces ws
  end.

(** A session is subscribed to a room when the room id is in its interest
    set of that kind; its transport is writable when the socket is open. *)
Definition subscribed (kind : Room.RoomType) (room : string) (ws : Client) : Prop :=
  KStr room ∈ interest kind ws.

Definition writable (ws : Client) : Prop := readyState ws = WebSocket.OPEN.

(** The four control frames, as the client library sends them: an object
    with a [type] and the id of the room. [ref] is the identity of the
    parsed object. *)
Definition joinType (kind : Room.RoomType) : string :=
  match kind with Room.channel => "join_channel" | Room.workspace => "join_workspace" end.

Definition leaveType (kind : Room.RoomType) : string :=
  match kind with Room.channel => "leave_channel" | Room.workspace => "leave_workspace" end.

Definition roomField (kind : Room.RoomType) : string :=
  match kind with Room.channel => "channelId" | Room.workspace => "workspaceId" end.

Definition subscribe (kind : Room.RoomType) (ref : nat) (room : string) : Parsed :=
  Value (JObj ref [("type", JStr (joinType kind)); (roomField kind, JStr room)]).

Definition unsubscribe (kind : Room.RoomType) (ref : nat) (room : string) : Parsed :=
  Value (JObj ref [("type", JStr (leaveType kind)); (roomField kind, JStr room)]).

(** The [type] of a frame when it is one of the four control types. *)
Definition controlType (data : Parsed) : option (bool * Room.RoomType) :=
  match data with
  | Unparsable => None
  | Value message =>
      match getProp message "type" with
      | Some type =>
          if strictEqStr type "join_channel" then Some (true, Room.channel)
          else if strictEqStr type "leave_channel" then Some (false, Room.channel)
          else if strictEqStr type "join_workspace" then Some (true, Room.workspace)
          else if strictEqStr type "leave_workspace" then Some (false, Room.workspace)
          else None
      | None => None
      end
  end.

(** The room-id field of a frame, when it has one. *)
Definition roomOf (kind : Room.RoomType) (data : Parsed) : option Js.value :=
  match data with
  | Unparsable => None
  | Value message => default None (getProp message (roomField kind))
  end.

(** The three ways a frame fails structural validation. *)
Definition notJson (data : Parsed) : Prop := data = Unparsable.

Definition unknownType (data : Parsed) : Prop :=
  data <> Unparsable /\ controlType data = None.

Definition lacksRoomId (data : Parsed) : Prop :=
  exists join kind, controlType data = Some (join, kind) /\ roomOf kind data = None.

Definition malformed (data : Parsed) : Prop :=
  notJson data \/ unknownType data \/ lacksRoomId data.

(** A session without any interest, with an open socket. *)
Definition freshClient (socket : nat) : Client :=
  mkClient socket None WebSocket.OPEN ∅ ∅ [].

(** A session with its interest set of one kind replaced. *)
Definition setInterest (kind : Room.RoomType) (ws : Client) (s : gset Js.key) : Client :=
  match kind with
  | Room.channel => withChannels ws s
  | Room.workspace => withWorkspaces ws s
  end.

(** A join frame without its room id, as parsed: [{"type":"join_channel"}]. *)
Definition joinWithoutRoom : Parsed := Value (JObj 0 [("type", JStr "join_channel")]).

(** The unique constraint of the [api_key] column. *)
Definition apiKeysUnique (d : Db) : Prop := NoDup (Agent.apiKey <$> agents d).

(** An authenticated principal, and the request [authenticateAny] hands
    to the route for it. *)
Inductive Principal :=
| PHuman (u : Human.t)
| PAgent (a : Agent.t).

Definition asRequest (p : Principal) : AuthRequest :=
  match p with
  | PHuman u => mkReq (Some u) None (Some AuthHuman)
  | PAgent a => mkReq None (Some a) (Some AuthAgent)
  end.

(** The rule of the access checker: a human needs a membership row for the
    workspace; an agent needs to be of the workspace. *)
Definition isMember (d : Db) (workspaceId humanId : string) : Prop :=
  exists m, m ∈ workspaceMembers d /\
            WorkspaceMember.workspaceId m = workspaceId /\
            WorkspaceMember.humanId m = humanId.

Definition authorized (d : Db) (p : Principal) (workspaceId : string) : Prop :=
  match p with
  | PHuman u => isMember d workspaceId (Human.id u)
  | PAgent a => Agent.workspaceId a = workspaceId
  end.

(** The two legal transitions of a handoff. *)
Definition legalTransition (current : HandoffStatus) (requested : option Js.value) : Prop :=
  (current = OPEN /\ requested = Some (JStr "IN_PROGRESS")) \/
  (current = IN_PROGRESS /\ requested = Some (JStr "RESOLVED")).

(** A handoff that has entered [s] at [now]: the status is [s], and
    [resolvedAt] is [now] when [s] is [RESOLVED] and untouched otherwise. *)
Definition entered (now : Time) (h : Handoff.t) (s : HandoffStatus) : Handoff.t :=
  Handoff.mk (Handoff.id h) (Handoff.workspaceId h) (Handoff.channelId h)
    (Handoff.title h) (Handoff.description h) s (Handoff.priority h)
    (Handoff.fromAgentId h) (Handoff.toHumanId h)
    (if decide (s = RESOLVED) then Some now else Handoff.resolvedAt h)
    (Handoff.createdAt h).

(** A create-handoff body with another value under [status]. *)
Definition withBodyStatus (body : HandoffBody) (status : option Js.value) : HandoffBody :=
  mkHandoffBody (hb_title body) (hb_description body) (hb_priority body)
    (hb_channelId body) (hb_toHumanId body) status.

(** The priority a create-handoff body asks for: one of the four levels,
    [MEDIUM] when the body names none, and nothing when it names something
    else. *)
Definition requestedPriority (priority : option Js.value) : option HandoffPriority :=
  if truthy priority then castPriority priority else Some MEDIUM.


(** The error of the state machine, with the two statuses it carries. *)
Definition InvalidTransition (current : HandoffStatus) (requested : option Js.value)
  : Outcome :=
  Responded (mkResponse 400 (BInvalidTransition current requested)).

Definition Forbidden (o : Outcome) : Prop :=
  exists b, o = Responded (mkResponse 403 b).

(** How often the [resolvedAt] of the handoff [id] changes while the
    server goes through [actions]. *)
Fixpoint assignments (jwtVerify : string -> option JwtPayload)
    (toText : Js.value -> string) (toBool : Js.value -> option bool) (id : string)
    (actions : list Action) (w : World) : nat :=
  match actions with
  | [] => 0
  | a :: rest =>
      let w' := snd (step jwtVerify toText toBool a w) in
      (if decide (Handoff.resolvedAt <$> getHandoff (db w') id
                  = Handoff.resolvedAt <$> getHandoff (db w) id)
       then 0 else 1) + assignments jwtVerify toText toBool id rest w'
  end.

(** A handoff row is consistent when it has a resolution time exactly when
    it is resolved. *)
Definition consistent (h : Handoff.t) : Prop :=
  Handoff.resolvedAt h = None <-> Handoff.status h <> RESOLVED.

(** The PATCH body that asks for [RESOLVED]. *)
Definition resolveBody : PatchBody := mkPatchBody (Some (JStr "RESOLVED")).

(** What a message says of its author, for each kind of principal. *)
Definition authorTypeOf (p : Principal) : string :=
  match p with PHuman _ => "human" | PAgent _ => "agent" end.

Definition principalId (p : Principal) : string :=
  match p with PHuman u => Human.id u | PAgent a => Agent.id a end.

(** The routes that only read. *)
Definition readOnly (r : Request) : bool :=
  match r with
  | GetChannels _ | GetMessages _ _ | GetHandoffs _ _ => true
  | _ => false
  end.

(** A request that went through: answered 200 or 201. *)
Definition succeeded (o : Outcome) : Prop :=
  exists b, o = Responded (mkResponse 200 b) \/ o = Responded (mkResponse 201 b).


(** A prefix is plain when it holds none of the characters a [LIKE]
    pattern reads specially. *)
Fixpoint plain (s : string) : bool :=
  match s with
  | EmptyString => true
  | String c rest =>
      negb (Ascii.eqb c "%"%char) && negb (Ascii.eqb c "_"%char)
      && negb (Ascii.eqb c "\"%char) && plain rest
  end.

(** The bytes that follow a leading byte, by what it announces; nothing for
    a byte that cannot lead. *)
Definition announced (b : ascii) : option nat :=
  match b with
  | Ascii _ _ _ _ _ _ _ false => Some 0
  | Ascii _ _ _ _ _ false true true => Some 1
  | Ascii _ _ _ _ false true true true => Some 2
  | Ascii _ _ _ false true true true true => Some 3
  | _ => None
  end.

(** Well-formed UTF-8, as far as the framing of characters goes. *)
Fixpoint utf8From (pending : nat) (s : string) : bool :=
  match s with
  | EmptyString => Nat.eqb pending 0
  | String b rest =>
      match pending with
      | 0 => match announced b with Some n => utf8From n rest | None => false end
      | S n => continuation b && utf8From n rest
      end
  end.

Definition utf8 (s : string) : bool := utf8From 0 s.

(** A text that starts at the start of a character. *)
Definition atBoundary (s : string) : bool :=
  match s with String b _ => negb (continuation b) | EmptyString => true end.


(** The events of a sequence of publishes that reach a session: those
    published to a room the session is subscribed to, in the order of
    publishing, as long as its socket is open. *)
Definition reaching (ws : Client) (published : list (string * Room.RoomType * Event))
  : list Event :=
  if bool_decide (readyState ws = WebSocket.OPEN)
  then (fun '(_, _, e) => e)
         <$> List.filter (fun '(room, kind, _) => has (interest kind ws) room) published
  else [].

(** A sequence of publishes, on the registry. *)
Definition publishAll (published : list (string * Room.RoomType * Event))
    (clients : list Client) : list Client :=
  fold_left (fun cs '(room, kind, e) => broadcast room kind e cs) published clients.


(** A script grows the table of humans when it only appends to it. *)
Definition extends (t t' : Tables) : Prop :=
  exists l, humans (snd t') = (humans (snd t) ++ l)%list.

Definition growing {A} (m : Script A) : Prop :=
  forall t r t', m t = (r, t') -> extends t t'.

(** *** Scenarios

    Small concrete worlds the statements below are run on. *)

Definition alex : Human.t := Human.mk "u1" "alex@example.org" "$2b$10$hash" "Alex" None 0.

Definition reviewer : Agent.t :=
  Agent.mk "a1" "w1" "Reviewer" None "sk_live_1" None true None 0.
Definition retired : Agent.t :=
  Agent.mk "a2" "w1" "Retired" None "sk_off_2" None false None 0.
Definition outsider : Agent.t :=
  Agent.mk "a3" "w2" "Outsider" None "sk_live_3" None true None 0.

Definition m1 : Message.t := Message.mk "m1" "c1" "human" (Some "u1") "first" TEXT 1.
Definition m2 : Message.t := Message.mk "m2" "c1" "agent" (Some "a1") "second" TEXT 2.
Definition m3 : Message.t := Message.mk "m3" "c1" "human" (Some "u1") "third" TEXT 3.
Definition m4 : Message.t := Message.mk "m4" "c2" "agent" (Some "a3") "elsewhere" TEXT 2.

Definition ticket : Handoff.t :=
  Handoff.mk "h1" "w1" (Some "c1") "Dashboard access" None OPEN HIGH (Some "a1") None None 4.

Definition draft : Memory.t := Memory.mk "mem0" "a1" "plan" (JStr "draft") None 5 5.

(** Two workspaces; [alex] is a member of [w1] only. *)
Definition demoDb : Db :=
  mkDb [alex]
       [WorkspaceMember.mk "wm1" "w1" "u1" "owner" 0]
       [reviewer; retired; outsider]
       [Channel.mk "c1" "w1" "general" None false 0;
        Channel.mk "c2" "w2" "general" None false 0]
       [m1; m2; m3; m4]
       [ticket]
       [draft].

Definition noJwt : string -> option JwtPayload := fun _ => None.

Definition demoEvent : Event :=
  MessageCreated "c1" (Message.mk "m1" "c1" "human" (Some "u1") "hello" TEXT 7).

(** Three sessions: one open and subscribed to channel [c1], one open and
    subscribed to channel [c2] only, one subscribed to [c1] whose socket is
    closing. *)
Definition demoClients : list Client :=
  [ mkClient 1 (Some "u1") WebSocket.OPEN {[ KStr "c1" ]} ∅ [];
    mkClient 2 None WebSocket.OPEN {[ KStr "c2" ]} {[ KStr "c1" ]} [];
    mkClient 3 None WebSocket.CLOSING {[ KStr "c1" ]} ∅ [] ].

Definition demoWorld : World := mkWorld demoDb demoClients.

(** A stand-in for the text the driver writes for a value that is no
    string. *)
Definition demoText (v : Js.value) : string :=
  match v with JNum 7 => "7" | JBool true => "true" | JBool false => "false" | _ => "?" end.

(** A stand-in for what the database reads in the text the driver writes
    for a value that is no boolean: true in the number 1, and no boolean in
    anything else. *)
Definition demoBool (v : Js.value) : option bool :=
  match v with JNum 1 => Some true | _ => None end.

(** A create-handoff request of the agent [reviewer] in its own workspace,
    with a priority and with a status the route does not read. *)
Definition createEnv : Env := mkEnv "h2" 10.

Definition createBody : HandoffBody :=
  mkHandoffBody (Some (JStr "Review the rate limits")) None (Some (JStr "URGENT"))
    None None (Some (JStr "RESOLVED")).

Definition created : Handoff.t :=
  Handoff.mk "h2" "w1" None "Review the rate limits" None OPEN URGENT (Some "a1") None None 10.

Definition createdWorld : World :=
  snd (run (postHandoff demoText createEnv (asRequest (PAgent reviewer)) "w1" createBody)
         demoWorld).

Definition startBody : PatchBody := mkPatchBody (Some (JStr "IN_PROGRESS")).

(** The headers of [reviewer], and of [retired] together with a bearer
    token. *)
Definition reviewerHeaders : Headers := mkHeaders (Some "sk_live_1") None.
Definition retiredHeaders : Headers := mkHeaders (Some "sk_off_2") (Some "Bearer abc").

(** A text with the NUL character in it: [a], NUL, [b]. *)
Definition nulText : string := String "a" (String Ascii.zero (String "b" EmptyString)).

(** A message that arrives after those of the scenario. *)
Definition lateMessage : InsertMessage.t :=
  InsertMessage.mk "c1" "human" (Some "u1") "late" TEXT.

(** The general channel of workspace [w1], the first session of the
    registry, and two publishes to channels. *)
Definition generalOfW1 : Channel.t := Channel.mk "c1" "w1" "general" None false 0.

Definition firstSession : Client :=
  mkClient 1 (Some "u1") WebSocket.OPEN {[ KStr "c1" ]} ∅ [].

Definition otherEvent : Event :=
  MessageCreated "c2" (Message.mk "m4" "c2" "agent" (Some "a3") "elsewhere" TEXT 2).

Definition demoPublished : list (string * Room.RoomType * Event) :=
  [("c1", Room.channel, demoEvent); ("c2", Room.channel, otherEvent);
   ("c1", Room.channel, demoEvent)].

(** Stand-ins for the libraries of the auth routes: a body that is already
    the parsed input, a hash that prefixes the password, a token that
    prefixes the id, and a slug that ignores the time. *)
Definition demoLibs : AuthLibs RegisterInput :=
  mkAuthLibs RegisterInput
    (fun body => inr (mkLoginInput (ri_email body) (ri_password body)))
    (fun body => inr body)
    (fun password => "$2b$10$" ++ password)
    (fun password hashed => String.eqb hashed ("$2b$10$" ++ password))
    (fun humanId => "jwt." ++ humanId)
    (fun name _ => name ++ "-0").

Definition demoJwt (token : string) : option JwtPayload :=
  if String.prefix "jwt." token
  then Some (mkPayload (Some (String.substring 4 (String.length token - 4) token)))
  else None.

Definition alexLogin : RegisterInput := mkRegisterInput "alex@example.org" "" "hash".
Definition samRegisters : RegisterInput := mkRegisterInput "sam@example.org" "Sam" "secret1".

Definition samEnv : RegisterEnv :=
  mkRegisterEnv (mkEnv "u2" 5) (mkEnv "w3" 5) (mkEnv "wm2" 5) (mkEnv "c3" 5) 5.

Definition acme : Workspace.t := Workspace.mk "w1" "Acme" "acme" 0.
Definition sameSlug : Workspace.t := Workspace.mk "w9" "Sam" "Sam-0" 0.

(** A body whose description is the number 7. *)
Definition botBody : AgentBody := mkAgentBody (Some (JStr "Bot")) (Some (JNum 7)).


(** A run of the seed script on empty tables: the [n]-th insert gets the
    [n]-th letter as its id and [n] as its time. *)
Definition emptyDb : Db := mkDb [] [] [] [] [] [] [].

Definition letter (n : nat) : string := String (ascii_of_nat (65 + n)) "".

Definition seedEnv (n : nat) : Env := mkEnv (letter n) n.

Definition seeded : (Exn + unit) * Tables :=
  seed (fun password => "$2b$10$" ++ password) letter seedEnv ([], emptyDb).

(* ===================================================================== *)
(** * Theorems                                                            *)
(* ===================================================================== *)

(* ===================================================================== *)
(** ** Rows and queries                                                   *)
(* ===================================================================== *)

Section Queries.

Context {R : Type}.
Implicit Types (rows : list R) (p : R -> bool) (f : R -> string).

(** [const [row] = await db.select()...where(p)]: the first row that
    satisfies [p]. *)
Lemma head_filter_Some rows p r :
  head (List.filter p rows) = Some r -> r ∈ rows /\ p r = true.
Proof.
  induction rows as [|x rows IH]; simpl; [done|].
  destruct (p x) eqn:E; simpl.
  - intros [= ->]. split; [left|done].
  - intros H. destruct (IH H). split; [by right|done].
Qed.

Lemma head_filter_None rows p :
  head (List.filter p rows) = None <-> forall r, r ∈ rows -> p r = false.
Proof.
  induction rows as [|x rows IH]; simpl.
  - split; [intros _ r Hr; by apply elem_of_nil in Hr|done].
  - destruct (p x) eqn:E; simpl.
    + split; [done|]. intros H. specialize (H x (list_elem_of_here _ _)). congruence.
    + rewrite IH. split.
      * intros H r [->|Hr]%elem_of_cons; auto.
      * intros H r Hr. apply H. by right.
Qed.

(** On a column with a unique constraint, a lookup by the value a row holds
    finds that row. *)
Lemma head_filter_unique rows f r :
  NoDup (f <$> rows) -> r ∈ rows ->
  head (List.filter (fun x => String.eqb (f x) (f r)) rows) = Some r.
Proof.
  induction rows as [|x rows IH]; simpl.
  - intros _ Hr. by apply elem_of_nil in Hr.
  - intros [Hx Hnd]%NoDup_cons [->|Hr]%elem_of_cons.
    + by rewrite String.eqb_refl.
    + destruct (String.eqb (f x) (f r)) eqn:E.
      * apply String.eqb_eq in E. exfalso. apply Hx. rewrite E.
        by apply list_elem_of_fmap_2.
      * by apply IH.
Qed.

End Queries.

Lemma prefix_nonempty (pre s : string) :
  pre <> "" -> String.prefix pre s = true -> String.eqb s "" = false.
Proof. destruct pre; [done|]. by destruct s. Qed.

(* ===================================================================== *)
(** ** Authentication                                                     *)
(* ===================================================================== *)

Section Authentication.

Variable jwtVerify : string -> option JwtPayload.

Implicit Types (d : Db) (headers : Headers) (req : AuthRequest) (a : Agent.t).

Lemma keyShaped_prefix (key : string) :
  String.prefix "sk_" key = true -> keyShaped (Some key) = true.
Proof.
  intros H. unfold keyShaped. by rewrite (prefix_nonempty "sk_" key), H.
Qed.

(** After [updateAgentLastSeen], the rows of that agent are last seen now,
    and every other row and table is as before. *)
Lemma updateAgentLastSeen_spec now d id :
  (forall b, b ∈ agents (updateAgentLastSeen now d id) -> Agent.id b = id ->
             Agent.lastSeenAt b = Some now) /\
  (forall b, b ∈ agents d -> Agent.id b <> id -> b ∈ agents (updateAgentLastSeen now d id)) /\
  (forall b, b ∈ agents d -> Agent.id b = id ->
             Agent.withLastSeenAt b (Some now) ∈ agents (updateAgentLastSeen now d id)) /\
  withAgents (updateAgentLastSeen now d id) (agents d) = d.
Proof.
  unfold updateAgentLastSeen, updateWhere. simpl. repeat split.
  - intros b (x & -> & Hx)%list_elem_of_fmap.
    destruct (String.eqb (Agent.id x) id) eqn:E; [done|].
    apply String.eqb_neq in E. simpl. congruence.
  - intros b Hb Hne. apply list_elem_of_fmap. exists b.
    apply String.eqb_neq in Hne. by rewrite Hne.
  - intros b Hb He. apply list_elem_of_fmap. exists b.
    apply String.eqb_eq in He. by rewrite He.
  - by destruct d.
Qed.

(** C4. With the [api_key] column unique: when the [x-agent-key] header
    holds an [sk_]-prefixed key, the outcome is that of [authenticateAgent]
    and does not depend on the [Authorization] header; a key no agent has
    gives 401 and a key of a deactivated agent gives 403, both without any
    write; a key of an active agent passes with that agent as the principal
    and the agent's [lastSeenAt] set to now. When neither an [sk_] key nor a
    bearer token is presented the outcome is 401. *)
Theorem authenticateAny_agent_key now d headers req :
  apiKeysUnique d ->
  (forall key,
     xAgentKey headers = Some key -> String.prefix "sk_" key = true ->
     (forall bearer,
        authenticateAny jwtVerify now d (mkHeaders (Some key) bearer) req
        = authenticateAgent now d headers req) /\
     ((forall a, a ∈ agents d -> Agent.apiKey a <> key) ->
      authenticateAny jwtVerify now d headers req
      = (inl (mkResponse 401 (BError "Unauthorized: Invalid API key")), d)) /\
     (forall a, a ∈ agents d -> Agent.apiKey a = key -> Agent.isActive a = false ->
      authenticateAny jwtVerify now d headers req
      = (inl (mkResponse 403 (BError "Forbidden: Agent is deactivated")), d)) /\
     (forall a, a ∈ agents d -> Agent.apiKey a = key -> Agent.isActive a = true ->
      exists d',
        authenticateAny jwtVerify now d headers req
        = (inr (mkReq (user req) (Some a) (Some AuthAgent)), d') /\
        Agent.withLastSeenAt a (Some now) ∈ agents d' /\
        (forall b, b ∈ agents d' -> Agent.id b = Agent.id a ->
                   Agent.lastSeenAt b = Some now) /\
        withAgents d' (agents d) = d)) /\
  (keyShaped (xAgentKey headers) = false ->
   bearerShaped (authorization headers) = false ->
   authenticateAny jwtVerify now d headers req
   = (inl (mkResponse 401 (BError "Unauthorized: No credentials provided")), d)).
Proof.
  intros Huniq. split.
  - intros key Hkey Hpre.
    pose proof (keyShaped_prefix key Hpre) as Hshape.
    assert (authenticateAny jwtVerify now d headers req
            = authenticateAgent now d headers req) as Hany.
    { unfold authenticateAny. by rewrite Hkey, Hshape. }
    assert (forall a, a ∈ agents d -> Agent.apiKey a = key ->
                      getAgentByApiKey d key = Some a) as Hfind.
    { intros a Ha <-. by apply (head_filter_unique (agents d) Agent.apiKey a). }
    repeat split.
    + intros bearer. unfold authenticateAny.
      cbn [xAgentKey]. rewrite Hshape.
      unfold authenticateAgent. cbn [xAgentKey]. by rewrite Hkey.
    + intros Hnone. rewrite Hany. unfold authenticateAgent. rewrite Hkey, Hshape.
      cbn [negb]; change (default "" (Some key)) with key. assert (getAgentByApiKey d key = None) as ->; [|done].
      apply head_filter_None. intros a Ha. apply String.eqb_neq. by apply Hnone.
    + intros a Ha Hk Hoff. rewrite Hany. unfold authenticateAgent.
      rewrite Hkey, Hshape. cbn [negb]; change (default "" (Some key)) with key. by rewrite (Hfind a Ha Hk), Hoff.
    + intros a Ha Hk Hon. exists (updateAgentLastSeen now d (Agent.id a)).
      destruct (updateAgentLastSeen_spec now d (Agent.id a)) as (Hseen & _ & Hupd & Hrest).
      split; [|split; [|split]].
      * rewrite Hany. unfold authenticateAgent.
        rewrite Hkey, Hshape. cbn [negb]; change (default "" (Some key)) with key. by rewrite (Hfind a Ha Hk), Hon.
      * by apply Hupd.
      * done.
      * done.
  - intros Hk Hb. unfold authenticateAny. by rewrite Hk, Hb.
Qed.

End Authentication.

Lemma authenticateAny_agent_key_witness :
  apiKeysUnique demoDb /\
  authenticateAny noJwt 9 demoDb retiredHeaders (mkReq None None None)
  = (inl (mkResponse 403 (BError "Forbidden: Agent is deactivated")), demoDb).
Proof.
  assert (apiKeysUnique demoDb) as Huniq.
  { unfold apiKeysUnique. apply (bool_decide_unpack _). vm_compute. exact I. }
  split; [exact Huniq|].
  destruct (authenticateAny_agent_key noJwt 9 demoDb retiredHeaders (mkReq None None None)
              Huniq)
    as [Hkey _].
  destruct (Hkey "sk_off_2" eq_refl eq_refl) as (_ & _ & Hoff & _).
  apply (Hoff retired); [|reflexivity|reflexivity].
  apply list_elem_of_In. simpl. tauto.
Defined.

(** The other outcomes, on the same database: an unknown key, the key of
    an active agent (whose [lastSeenAt] becomes the time of the request),
    and no credential at all. *)
Example authenticateAny_outcomes :
  authenticateAny noJwt 9 demoDb (mkHeaders (Some "sk_unknown") (Some "Bearer abc"))
    (mkReq None None None)
  = (inl (mkResponse 401 (BError "Unauthorized: Invalid API key")), demoDb) /\
  authenticateAny noJwt 9 demoDb reviewerHeaders (mkReq None None None)
  = (inr (mkReq None (Some reviewer) (Some AuthAgent)),
     Storage.withAgents demoDb [Agent.withLastSeenAt reviewer (Some 9); retired; outsider]) /\
  authenticateAny noJwt 9 demoDb (mkHeaders None None) (mkReq None None None)
  = (inl (mkResponse 401 (BError "Unauthorized: No credentials provided")), demoDb).
Proof. repeat split; vm_compute; reflexivity. Qed.

(* ===================================================================== *)
(** ** The access check                                                   *)
(* ===================================================================== *)

(** Unfolds a request down to the storage calls it makes. *)
Ltac run_route :=
  unfold run, serve, getChannels, postChannel, getMessages, postMessage, getHandoffs,
    postHandoff, patchHandoff, checkAccess, bind, unwrap, query, attempt, mutate,
    publish, reply, ret, throw;
  cbn [asRequest authType user agent].

Section Access.

Implicit Types (d : Db) (w : World) (p : Principal).

Lemma getWorkspaceMember_isMember d workspaceId humanId :
  is_Some (getWorkspaceMember d workspaceId humanId) <-> isMember d workspaceId humanId.
Proof.
  unfold getWorkspaceMember, isMember. split.
  - intros [m Hm]. apply head_filter_Some in Hm as [Hin Hp].
    apply andb_true_iff in Hp as [H1%String.eqb_eq H2%String.eqb_eq]. eauto.
  - intros (m & Hin & H1 & H2).
    destruct (head _) as [m'|] eqn:E; [by eexists|].
    rewrite head_filter_None in E. specialize (E m Hin). simpl in E.
    apply String.eqb_eq in H1, H2. by rewrite H1, H2 in E.
Qed.

Lemma checkAccess_authorized p workspaceId w :
  authorized (db w) p workspaceId ->
  checkAccess (asRequest p) workspaceId w = (Go tt, w).
Proof.
  destruct p as [u|a]; simpl; unfold checkAccess, bind, unwrap, ret, query; simpl.
  - intros [m Hm]%getWorkspaceMember_isMember. by rewrite Hm.
  - intros ->. by rewrite String.eqb_refl.
Qed.

(** The check reads and never writes; when it ends the request, it is
    with 403 or with the error of a request that carries no principal. *)
Lemma checkAccess_keeps req workspaceId w s w' :
  checkAccess req workspaceId w = (s, w') ->
  w' = w /\
  forall o, s = End_ o -> Forbidden o \/ o = Threw TypeError.
Proof.
  unfold checkAccess, bind, unwrap, query, reply, ret, throw, Forbidden.
  intros H. repeat (case_match; simplify_eq/=); split; try done;
    intros o [= <-]; eauto.
Qed.

Lemma authorized_cases d p workspaceId :
  match p with
  | PHuman u =>
      (authorized d p workspaceId /\
       exists m, getWorkspaceMember d workspaceId (Human.id u) = Some m) \/
      (~ authorized d p workspaceId /\
       getWorkspaceMember d workspaceId (Human.id u) = None)
  | PAgent a =>
      (authorized d p workspaceId /\ String.eqb (Agent.workspaceId a) workspaceId = true) \/
      (~ authorized d p workspaceId /\ String.eqb (Agent.workspaceId a) workspaceId = false)
  end.
Proof.
  destruct p as [u|a]; simpl.
  - destruct (getWorkspaceMember d workspaceId (Human.id u)) as [m|] eqn:E.
    + left. split; [|by eexists]. apply getWorkspaceMember_isMember. by eexists.
    + right. split; [|done]. intros H%getWorkspaceMember_isMember.
      rewrite E in H. by destruct H.
  - destruct (String.eqb (Agent.workspaceId a) workspaceId) eqn:E.
    + left. by apply String.eqb_eq in E.
    + right. by apply String.eqb_neq in E.
Qed.





(** In its own workspace the same agent posts the message, and the open
    session subscribed to the channel is sent the event. *)
Example agent_posts_in_own_workspace :
  fst (run (serve demoText demoBool (mkEnv "m5" 10) (asRequest (PAgent reviewer))
              (PostMessage "c1" (mkMessageBody (Some (JStr "hi"))))) demoWorld)
  = Responded (mkResponse 201
      (BMessage (Message.mk "m5" "c1" "agent" (Some "a1") "hi" TEXT 10))) /\
  sent <$> clients (snd (run (serve demoText demoBool (mkEnv "m5" 10) (asRequest (PAgent reviewer))
              (PostMessage "c1" (mkMessageBody (Some (JStr "hi"))))) demoWorld))
  = [ [MessageCreated "c1" (Message.mk "m5" "c1" "agent" (Some "a1") "hi" TEXT 10)];
      []; [] ].
Proof. split; vm_compute; reflexivity. Qed.

End Access.

(* ===================================================================== *)
(** ** The handoff state machine                                          *)
(* ===================================================================== *)

Section StateMachine.

Implicit Types (d : Db) (w : World) (p : Principal) (h : Handoff.t).

(** The table of the route is the two legal transitions. *)
Lemma validTransitions_legal current requested :
  includes (validTransitions current) requested = true <-> legalTransition current requested.
Proof.
  unfold legalTransition, includes.
  destruct requested as [[| | |s| |]|]; destruct current; simpl;
    try (split; [done|intros [[? ?]|[? ?]]; done]).
  - rewrite orb_false_r, String.eqb_eq. split; [intros ->; by left|].
    by intros [[_ [= ->]]|[? _]].
  - rewrite orb_false_r, String.eqb_eq. split; [intros ->; by right|].
    by intros [[? _]|[_ [= ->]]].
Qed.

Lemma legalTransition_cast current requested :
  legalTransition current requested ->
  exists s, castStatus requested = Some s /\ s <> OPEN /\ current <> RESOLVED /\
            (strictEqStr requested "RESOLVED" = bool_decide (s = RESOLVED)).
Proof.
  intros [[-> ->]|[-> ->]]; [exists IN_PROGRESS|exists RESOLVED]; done.
Qed.

Lemma head_fmap {A B} (f : A -> B) (l : list A) : head (f <$> l) = f <$> head l.
Proof. by destruct l. Qed.

Lemma filter_updateWhere {A} (hit : A -> bool) (f : A -> A) (l : list A) :
  (forall x, hit (f x) = hit x) ->
  List.filter hit (updateWhere hit f l) = f <$> List.filter hit l.
Proof.
  intros Hf. unfold updateWhere. induction l as [|x l IH]; [done|].
  rewrite fmap_cons. cbn [List.filter].
  destruct (hit x) eqn:E.
  - rewrite Hf, E, fmap_cons. by f_equal.
  - by rewrite E.
Qed.

Lemma filter_updateWhere_other {A} (hit other : A -> bool) (f : A -> A) (l : list A) :
  (forall x, other (f x) = other x) ->
  (forall x, hit x = true -> other x = false) ->
  List.filter other (updateWhere hit f l) = List.filter other l.
Proof.
  intros Hf Hdis. unfold updateWhere. induction l as [|x l IH]; [done|].
  rewrite fmap_cons. cbn [List.filter].
  destruct (hit x) eqn:E.
  - by rewrite Hf, (Hdis x E).
  - by rewrite IH.
Qed.

(** What [updateHandoffStatus] does, row by row: called with a status label
    it returns the first row of that id as a handoff that has entered the
    status, leaves that row in the table, and leaves the rows of every
    other id alone. *)
Lemma updateHandoffStatus_spec now d id requested s :
  castStatus requested = Some s ->
  exists d',
    updateHandoffStatus now d id requested
    = inr ((fun h0 => entered now h0 s) <$> getHandoff d id, d') /\
    getHandoff d' id = (fun h0 => entered now h0 s) <$> getHandoff d id /\
    (forall other, other <> id -> getHandoff d' other = getHandoff d other) /\
    withHandoffs d' (handoffs d) = d.
Proof.
  intros Hcast. unfold updateHandoffStatus. rewrite Hcast.
  cbv zeta.
  set (updateData := fun h0 : Handoff.t =>
         if strictEqStr requested "RESOLVED" then _ else _).
  assert (forall h0, updateData h0 = entered now h0 s) as Hupd.
  { intros [????? st ?????]. unfold updateData, entered. simpl.
    destruct requested as [[| | |r| |]|]; try done. simpl in *.
    destruct (String.eqb r "RESOLVED") eqn:E.
    - apply String.eqb_eq in E as ->. simpl in Hcast. by injection Hcast as <-.
    - destruct (String.eqb r "OPEN"); [by injection Hcast as <-|].
      destruct (String.eqb r "IN_PROGRESS"); [by injection Hcast as <-|]. done. }
  eexists. split; [|split; [|split]].
  - f_equal. f_equal. unfold returningWhere, getHandoff.
    rewrite head_fmap. destruct (head _); simpl; [by rewrite Hupd|done].
  - unfold getHandoff. simpl. rewrite filter_updateWhere.
    + rewrite head_fmap. destruct (head _); simpl; [by rewrite Hupd|done].
    + intros x. by rewrite Hupd.
  - intros other Hne. unfold getHandoff. simpl. f_equal.
    apply filter_updateWhere_other.
    + intros x. by rewrite Hupd.
    + intros x Hx%String.eqb_eq. apply String.eqb_neq. congruence.
  - by destruct d.
Qed.

(** C1. For a handoff [h] and a PATCH request on it: the request succeeds
    only when (current status, requested status) is (OPEN, IN_PROGRESS) or
    (IN_PROGRESS, RESOLVED); a request for any other pair leaves the world,
    so the handoff's status and [resolvedAt], unchanged. For a principal
    with access to the handoff's workspace it succeeds exactly for those
    two pairs, and the handoff is then in the requested status; every other
    pair is answered with the invalid-transition error, which carries the
    current and the requested status. *)
Theorem patch_succeeds_iff_legal env req handoff_id body w h out w' :
  getHandoff (db w) handoff_id = Some h ->
  run (patchHandoff env req handoff_id body) w = (out, w') ->
  ((exists b, out = Responded (mkResponse 200 b)) ->
   legalTransition (Handoff.status h) (pb_status body)) /\
  (~ legalTransition (Handoff.status h) (pb_status body) ->
   w' = w /\ getHandoff (db w') handoff_id = Some h) /\
  (forall p, req = asRequest p -> authorized (db w) p (Handoff.workspaceId h) ->
     ((exists b, out = Responded (mkResponse 200 b))
        <-> legalTransition (Handoff.status h) (pb_status body)) /\
     (legalTransition (Handoff.status h) (pb_status body) ->
      exists s, castStatus (pb_status body) = Some s /\
        out = Responded (mkResponse 200 (BHandoff (Some (entered (now env) h s)))) /\
        getHandoff (db w') handoff_id = Some (entered (now env) h s)) /\
     (~ legalTransition (Handoff.status h) (pb_status body) ->
      out = InvalidTransition (Handoff.status h) (pb_status body))).
Proof.
  intros Hget. unfold run, patchHandoff, bind. unfold query at 1. rewrite Hget.
  destruct (checkAccess req (Handoff.workspaceId h) w) as [st w1] eqn:Hca.
  pose proof (checkAccess_keeps _ _ _ _ _ Hca) as [-> Hend].
  destruct st as [[]|o].
  - destruct (includes _ _) eqn:Hinc; cbn [negb].
    + apply validTransitions_legal in Hinc as Hlegal.
      destruct (legalTransition_cast _ _ Hlegal) as (s & Hcast & _).
      destruct (updateHandoffStatus_spec (now env) (db w) handoff_id _ s Hcast)
        as (d' & Hupd & Hrow & _).
      unfold mutate, publish, ret. rewrite Hupd, Hget. cbn.
      intros [= <- <-]. split; [done|]. split; [done|].
      intros p _ _. split; [|split; [|done]].
      * split; [done|by eexists].
      * intros _. exists s. cbn. by rewrite Hrow, Hget.
    + assert (~ legalTransition (Handoff.status h) (pb_status body)) as Hillegal.
      { intros H%validTransitions_legal. congruence. }
      unfold reply. intros [= <- <-]. split; [by intros [b [=]]|]. split; [done|].
      intros p _ _. split; [|done]. split; [by intros [b [=]]|done].
  - intros [= <- <-]. split; [|split; [done|]].
    + intros [b ->]. destruct (Hend _ eq_refl) as [[b' [=]]|[=]].
    + intros p -> Hauth. rewrite (checkAccess_authorized _ _ _ Hauth) in Hca. done.
Qed.

(** *** Creation *)

Lemma includes_validPriorities priority :
  includes validPriorities priority = bool_decide (is_Some (castPriority priority)).
Proof.
  unfold includes, validPriorities.
  destruct priority as [[| | |s| |]|]; simpl; try done.
  repeat (destruct (String.eqb s _); simpl; [done|]). done.
Qed.

Lemma insertRow_Some {R} (pk : R -> string) row rows rows' :
  insertRow pk row rows = inr rows' ->
  rows' = (rows ++ [row])%list /\ forall r, r ∈ rows -> pk r <> pk row.
Proof.
  unfold insertRow. destruct (existsb _ _) eqn:E; [done|]. intros [= <-].
  split; [done|]. intros r Hr Heq.
  assert (existsb (String.eqb (pk row)) (pk <$> rows) = true); [|congruence].
  apply existsb_exists. exists (pk r). split.
  - apply list_elem_of_In. by apply list_elem_of_fmap_2.
  - by apply String.eqb_eq.
Qed.

Lemma createHandoff_inr uuid now d ins h d' :
  createHandoff uuid now d ins = inr (h, d') ->
  exists s prio,
    match InsertHandoff.status ins with None => Some OPEN | v => castStatus v end = Some s /\
    match InsertHandoff.priority ins with None => Some MEDIUM | v => castPriority v end
    = Some prio /\
    h = Handoff.mk uuid (InsertHandoff.workspaceId ins) (InsertHandoff.channelId ins)
          (InsertHandoff.title ins) (InsertHandoff.description ins) s prio
          (InsertHandoff.fromAgentId ins) (InsertHandoff.toHumanId ins) None now /\
    handoffs d' = (handoffs d ++ [h])%list /\
    (forall r, r ∈ handoffs d -> Handoff.id r <> uuid) /\
    withHandoffs d' (handoffs d) = d.
Proof.
  unfold createHandoff. cbv zeta.
  destruct (match InsertHandoff.status ins with None => _ | _ => _ end) as [s|]; [|done].
  destruct (match InsertHandoff.priority ins with None => _ | _ => _ end) as [prio|]; [|done].
  destruct (accepts _); [|done].
  destruct (insertRow _ _ _) as [|rows] eqn:Hins; [done|].
  intros [= <- <-]. apply insertRow_Some in Hins as [-> Hfresh].
  exists s, prio. repeat split; try done. by destruct d.
Qed.

(** What the route hands to the storage when it answers 201. *)
Lemma postHandoff_created toText env req workspace_id body w b w' :
  run (postHandoff toText env req workspace_id body) w = (Responded (mkResponse 201 b), w') ->
  exists title fromAgentId h d',
    requiredString (hb_title body) = Some title /\
    (truthy (hb_priority body) && negb (includes validPriorities (hb_priority body))) = false /\
    createHandoff (uuid env) (now env) (db w)
      (InsertHandoff.mk workspace_id (textColumn toText (hb_channelId body)) title
         (textColumn toText (hb_description body))
         (Some (JStr "OPEN"))
         (if truthy (hb_priority body) then hb_priority body else Some (JStr "MEDIUM"))
         fromAgentId (textColumn toText (hb_toHumanId body))) = inr (h, d') /\
    b = BHandoff (Some h) /\
    w' = mkWorld d' (broadcast workspace_id Room.workspace
                       (HandoffCreated workspace_id h) (clients w)).
Proof.
  unfold run, postHandoff, bind, unwrap, query, reply, ret, throw, mutate, publish.
  intros H. repeat (case_match; simplify_eq/=); eauto 10.
Qed.

(** The row a 201 of the route stands for: open, unresolved, with an id no
    other row has, appended to the table, at the priority the body asks
    for. *)
Lemma postHandoff_created_row toText env req workspace_id body w h w' :
  run (postHandoff toText env req workspace_id body) w
  = (Responded (mkResponse 201 (BHandoff (Some h))), w') ->
  Handoff.status h = OPEN /\
  Handoff.resolvedAt h = None /\
  handoffs (db w') = (handoffs (db w) ++ [h])%list /\
  (forall r, r ∈ handoffs (db w) -> Handoff.id r <> Handoff.id h) /\
  requestedPriority (hb_priority body) = Some (Handoff.priority h).
Proof.
  intros Hrun.
  apply postHandoff_created in Hrun
    as (title & fromAgentId & h' & d' & Htitle & Hprio & Hcreate & [= <-] & ->).
  apply createHandoff_inr in Hcreate as (s & prio & Hs & Hp & -> & Hrows & Hfresh & _).
  cbn [InsertHandoff.status InsertHandoff.priority] in Hs, Hp.
  injection Hs as <-.
  cbn [db Handoff.status Handoff.resolvedAt Handoff.priority Handoff.id].
  split; [done|]. split; [done|]. split; [done|]. split; [done|].
  unfold requestedPriority. destruct (truthy (hb_priority body)).
  - by destruct (hb_priority body).
  - by injection Hp as <-.
Qed.

(** C3. When the create-handoff route answers with a created handoff, that
    handoff is [OPEN] and not resolved, it is the row the table has gained,
    and its priority is the level the body names, [MEDIUM] when it names
    none. The [status] of the body plays no part: the route is the same
    function of the body whatever is put there. A body that names a
    priority outside the four levels creates nothing. *)
Theorem created_handoff_is_open toText env req workspace_id body w h w' :
  run (postHandoff toText env req workspace_id body) w
  = (Responded (mkResponse 201 (BHandoff (Some h))), w') ->
  Handoff.status h = OPEN /\
  Handoff.resolvedAt h = None /\
  handoffs (db w') = (handoffs (db w) ++ [h])%list /\
  requestedPriority (hb_priority body) = Some (Handoff.priority h) /\
  (forall status,
     postHandoff toText env req workspace_id (withBodyStatus body status)
     = postHandoff toText env req workspace_id body) /\
  (forall body' out w'',
     requestedPriority (hb_priority body') = None ->
     run (postHandoff toText env req workspace_id body') w = (out, w'') ->
     w'' = w /\ forall b, out <> Responded (mkResponse 201 b)).
Proof.
  intros Hrun.
  destruct (postHandoff_created_row _ _ _ _ _ _ _ _ Hrun) as (Hopen & Hres & Hrows & _ & Hp).
  split; [done|]. split; [done|]. split; [done|]. split; [done|]. split.
  - by intros status.
  - intros body' out w'' Hnone Hrun'. revert Hnone Hrun'.
    unfold requestedPriority.
    destruct (truthy (hb_priority body')) eqn:Ht; [|done]. intros Hnone.
    unfold run, postHandoff, bind, unwrap, query, reply, ret, throw, mutate, publish.
    cbv zeta. rewrite Ht, includes_validPriorities, Hnone.
    rewrite (bool_decide_eq_false_2 (is_Some None)) by (by intros [? ?]).
    cbn [negb andb].
    intros H. split; [|intros b]; repeat (case_match; simplify_eq/=); done.
Qed.

Lemma created_handoff_is_open_witness :
  run (postHandoff demoText createEnv (asRequest (PAgent reviewer)) "w1" createBody) demoWorld
  = (Responded (mkResponse 201 (BHandoff (Some created))), createdWorld) /\
  Handoff.status created = OPEN /\
  handoffs (db createdWorld) = [ticket; created] /\
  requestedPriority (hb_priority createBody) = Some URGENT.
Proof.
  assert (run (postHandoff demoText createEnv (asRequest (PAgent reviewer)) "w1" createBody) demoWorld
          = (Responded (mkResponse 201 (BHandoff (Some created))), createdWorld)) as Hrun.
  { vm_compute. reflexivity. }
  split; [exact Hrun|].
  destruct (created_handoff_is_open _ _ _ _ _ _ _ _ Hrun) as (Hopen & _ & Hrows & Hprio & _).
  split; [exact Hopen|]. split; [exact Hrows|exact Hprio].
Defined.

Lemma patch_succeeds_iff_legal_witness :
  getHandoff (db demoWorld) "h1" = Some ticket /\
  authorized (db demoWorld) (PAgent reviewer) (Handoff.workspaceId ticket) /\
  fst (run (patchHandoff createEnv (asRequest (PAgent reviewer)) "h1" startBody) demoWorld)
  = Responded (mkResponse 200 (BHandoff (Some (entered 10 ticket IN_PROGRESS)))) /\
  run (patchHandoff createEnv (asRequest (PAgent reviewer)) "h1" resolveBody) demoWorld
  = (InvalidTransition OPEN (Some (JStr "RESOLVED")), demoWorld).
Proof.
  split; [reflexivity|]. split; [reflexivity|]. split.
  - destruct (patch_succeeds_iff_legal createEnv (asRequest (PAgent reviewer)) "h1"
                startBody demoWorld ticket _ _ eq_refl (surjective_pairing _))
      as (_ & _ & Hauth).
    destruct (Hauth (PAgent reviewer) eq_refl eq_refl) as (_ & Hlegal & _).
    destruct Hlegal as (s & Hcast & Hout & _); [left; split; reflexivity|].
    injection Hcast as <-. exact Hout.
  - destruct (patch_succeeds_iff_legal createEnv (asRequest (PAgent reviewer)) "h1"
                resolveBody demoWorld ticket _ _ eq_refl (surjective_pairing _))
      as (_ & Hsame & Hauth).
    assert (~ legalTransition (Handoff.status ticket) (pb_status resolveBody)) as Hno.
    { intros [[_ [=]]|[[=] _]]. }
    destruct (Hauth (PAgent reviewer) eq_refl eq_refl) as (_ & _ & Hout).
    destruct (Hsame Hno) as [Hw _].
    rewrite (surjective_pairing (run _ _)). by rewrite (Hout Hno), Hw.
Defined.

End StateMachine.


(* ===================================================================== *)
(** ** The lifetime of a handoff                                          *)
(* ===================================================================== *)

Section Lifetime.

Variable jwtVerify : string -> option JwtPayload.
Variable toText : Js.value -> string.
Variable toBool : Js.value -> option bool.

Implicit Types (d : Db) (w : World) (h : Handoff.t) (a : Action).

Lemma getHandoff_handoffs d d' id :
  handoffs d' = handoffs d -> getHandoff d' id = getHandoff d id.
Proof. unfold getHandoff. by intros ->. Qed.

Lemma getHandoff_app d d' id h h' :
  handoffs d' = (handoffs d ++ [h'])%list ->
  getHandoff d id = Some h -> getHandoff d' id = Some h.
Proof.
  unfold getHandoff. intros -> H. rewrite List.filter_app.
  destruct (List.filter _ (handoffs d)); [done|]. done.
Qed.

Lemma authenticateAny_handoffs now d headers req :
  handoffs (snd (authenticateAny jwtVerify now d headers req)) = handoffs d.
Proof.
  unfold authenticateAny, authenticateAgent. repeat case_match; done.
Qed.

(** What one request does to the row of a handoff: nothing, unless it is a
    PATCH of that handoff along a legal transition, and then the row has
    entered the requested status. *)
Lemma serve_handoff_row env req r w out w' id h :
  run (serve toText toBool env req r) w = (out, w') ->
  getHandoff (db w) id = Some h ->
  getHandoff (db w') id = Some h \/
  exists body s,
    r = PatchHandoff id body /\
    legalTransition (Handoff.status h) (pb_status body) /\
    castStatus (pb_status body) = Some s /\
    out = Responded (mkResponse 200 (BHandoff (Some (entered (now env) h s)))) /\
    getHandoff (db w') id = Some (entered (now env) h s).
Proof.
  intros Hrun Hrow. destruct r.
  - left. rewrite <- Hrow. apply getHandoff_handoffs. revert Hrun. run_route.
    intros H. repeat (case_match; simplify_eq/=); done.
  - left. rewrite <- Hrow. apply getHandoff_handoffs. revert Hrun. run_route.
    unfold createChannel.
    intros H. repeat (case_match; simplify_eq/=); done.
  - left. rewrite <- Hrow. apply getHandoff_handoffs. revert Hrun. run_route.
    intros H. repeat (case_match; simplify_eq/=); done.
  - left. rewrite <- Hrow. apply getHandoff_handoffs. revert Hrun. run_route.
    unfold createMessage.
    intros H. repeat (case_match; simplify_eq/=); done.
  - left. rewrite <- Hrow. apply getHandoff_handoffs. revert Hrun. run_route.
    intros H. repeat (case_match; simplify_eq/=); done.
  - left. revert Hrun. run_route.
    intros H. repeat (case_match; simplify_eq/=); try done;
      match goal with
      | Hc : createHandoff _ _ _ _ = inr _ |- _ =>
          apply createHandoff_inr in Hc as (? & ? & _ & _ & _ & Hrows & _)
      end;
      by apply (getHandoff_app _ _ _ _ _ Hrows).
  - revert Hrun. unfold run, serve, patchHandoff, bind. unfold query at 1.
    destruct (getHandoff (db w) handoff_id) as [h0|] eqn:Hh0;
      [|unfold reply; intros [= <- <-]; by left].
    destruct (checkAccess req (Handoff.workspaceId h0) w) as [st w1] eqn:Hca.
    apply checkAccess_keeps in Hca as [-> _].
    destruct st as [[]|o]; [|intros [= <- <-]; by left].
    destruct (includes _ _) eqn:Hinc; cbn [negb];
      [|unfold reply; intros [= <- <-]; by left].
    apply validTransitions_legal in Hinc as Hlegal.
    destruct (legalTransition_cast _ _ Hlegal) as (s & Hcast & _).
    destruct (updateHandoffStatus_spec (now env) (db w) handoff_id _ s Hcast)
      as (d' & Hupd & Hsame & Hother & _).
    unfold mutate, publish, ret. rewrite Hupd. cbn [db]. intros [= <- <-].
    destruct (decide (handoff_id = id)) as [->|Hne].
    + right. rewrite Hrow in Hh0. injection Hh0 as <-.
      exists body0, s. cbn [db]. rewrite Hsame, Hrow. done.
    + left. cbn [db]. by rewrite Hother.
Qed.

Lemma step_handoff_row a w id h :
  getHandoff (db w) id = Some h ->
  getHandoff (db (snd (step jwtVerify toText toBool a w))) id = Some h \/
  exists env headers body s,
    a = Http env headers (PatchHandoff id body) /\
    legalTransition (Handoff.status h) (pb_status body) /\
    castStatus (pb_status body) = Some s /\
    getHandoff (db (snd (step jwtVerify toText toBool a w))) id = Some (entered (now env) h s).
Proof.
  intros Hrow. destruct a as [env headers r| | |]; [|by left..].
  unfold step, handle.
  pose proof (authenticateAny_handoffs (now env) (db w) headers (mkReq None None None))
    as Hauth.
  destruct (authenticateAny _ _ _ _ _) as [[response|req] d]; cbn [snd] in Hauth.
  - left. cbn [snd db]. by rewrite (getHandoff_handoffs _ _ _ Hauth).
  - destruct (run _ _) as [out w'] eqn:Hrun. cbn [snd].
    apply (serve_handoff_row _ _ _ _ _ _ id h) in Hrun
      as [?|(body & s & -> & ? & ? & _ & ?)];
      [by left| |cbn [db]; by rewrite (getHandoff_handoffs _ _ _ Hauth)].
    right. by exists env, headers, body, s.
Qed.


Lemma after_cons a actions w :
  after jwtVerify toText toBool (a :: actions) w = after jwtVerify toText toBool actions (snd (step jwtVerify toText toBool a w)).
Proof. done. Qed.

Lemma after_snoc a actions w :
  after jwtVerify toText toBool (actions ++ [a]) w
  = snd (step jwtVerify toText toBool a (after jwtVerify toText toBool actions w)).
Proof. unfold after. by rewrite fold_left_app. Qed.

(** One event, seen from a consistent row: the row stays consistent; a
    resolved row does not change; and the resolution time changes only in
    a PATCH of that handoff that asks for [RESOLVED], from nothing to the
    time of the request. *)
Lemma step_consistent a w id h1 :
  getHandoff (db w) id = Some h1 -> consistent h1 ->
  exists h2,
    getHandoff (db (snd (step jwtVerify toText toBool a w))) id = Some h2 /\
    consistent h2 /\
    (Handoff.status h1 = RESOLVED -> h2 = h1) /\
    ((Handoff.resolvedAt h2 = Handoff.resolvedAt h1 /\
      (Handoff.status h2 = RESOLVED <-> Handoff.status h1 = RESOLVED)) \/
     (exists env headers,
        a = Http env headers (PatchHandoff id resolveBody) /\
        Handoff.status h1 = IN_PROGRESS /\
        Handoff.resolvedAt h1 = None /\
        Handoff.resolvedAt h2 = Some (now env) /\
        Handoff.status h2 = RESOLVED)).
Proof.
  intros Hrow Hcons.
  destruct (step_handoff_row a w id h1 Hrow)
    as [Hsame|(env & headers & body & s & -> & Hlegal & Hcast & Hnew)].
  { exists h1. split; [done|]. split; [done|]. split; [done|]. by left. }
  exists (entered (now env) h1 s). split; [done|].
  destruct Hlegal as [[Hst Hreq]|[Hst Hreq]]; rewrite Hreq in Hcast;
    injection Hcast as <-; unfold consistent in *; cbn.
  - rewrite Hst in Hcons. split; [|split; [congruence|]].
    + split; [done|]. intros _. by apply Hcons.
    + left. split; [done|]. split; [done|congruence].
  - rewrite Hst in Hcons. split; [|split; [congruence|]].
    + split; [done|]. by intros [].
    + right. exists env, headers. destruct body as [st]. simpl in Hreq. subst st.
      repeat split; try done. by apply Hcons.
Qed.

Lemma assignments_count id actions w h1 :
  getHandoff (db w) id = Some h1 -> consistent h1 ->
  exists h2,
    getHandoff (db (after jwtVerify toText toBool actions w)) id = Some h2 /\
    consistent h2 /\
    (Handoff.status h1 = RESOLVED -> h2 = h1) /\
    (assignments jwtVerify toText toBool id actions w
       + (if decide (Handoff.status h1 = RESOLVED) then 1 else 0)
     = if decide (Handoff.status h2 = RESOLVED) then 1 else 0)%nat.
Proof.
  revert w h1. induction actions as [|a actions IH]; intros w h1 Hrow Hcons.
  { exists h1. split; [done|]. split; [done|]. split; [done|]. done. }
  destruct (step_consistent a w id h1 Hrow Hcons) as (h2 & Hrow2 & Hcons2 & Hfix & Hchg).
  destruct (IH _ h2 Hrow2 Hcons2) as (h3 & Hrow3 & Hcons3 & Hfix3 & Hcount).
  exists h3. rewrite after_cons. split; [done|]. split; [done|]. split.
  - intros Hres. specialize (Hfix Hres) as ->. by apply Hfix3.
  - cbn [assignments]. rewrite Hrow, Hrow2. cbn [fmap option_fmap option_map].
    destruct Hchg as [[Heq Hst]|(env & headers & -> & Hst1 & Hnone & Hnow & Hst2)].
    + rewrite Heq. rewrite decide_True by done.
      destruct (decide (Handoff.status h1 = RESOLVED)) as [H1|H1];
        destruct (decide (Handoff.status h2 = RESOLVED)) as [H2|H2];
        try tauto; simpl in *; lia.
    + rewrite Hnone, Hnow. rewrite decide_False by done.
      rewrite (decide_False (P := Handoff.status h1 = RESOLVED)) by congruence.
      rewrite (decide_True (P := Handoff.status h2 = RESOLVED)) in Hcount by done.
      lia.
Qed.

(** C2. A handoff created by the route has no resolution time. From then
    on, whatever the server goes through: the row has a resolution time
    exactly when it is resolved; a single event changes the resolution time
    only if it is a PATCH of this handoff that asks for [RESOLVED], and
    then from nothing to the time of that request; a resolved row never
    changes again; and so the number of times the resolution time was
    assigned is one when the handoff is resolved and zero before. In the
    storage, a status update writes [resolvedAt] when the status is
    [RESOLVED] and leaves it alone otherwise. *)
Theorem resolvedAt_assigned_once env req workspace_id body w0 h w1 :
  run (postHandoff toText env req workspace_id body) w0
  = (Responded (mkResponse 201 (BHandoff (Some h))), w1) ->
  Handoff.resolvedAt h = None /\
  getHandoff (db w1) (Handoff.id h) = Some h /\
  (forall actions, exists h1,
     getHandoff (db (after jwtVerify toText toBool actions w1)) (Handoff.id h) = Some h1 /\
     consistent h1 /\
     assignments jwtVerify toText toBool (Handoff.id h) actions w1
     = (if decide (Handoff.status h1 = RESOLVED) then 1 else 0) /\
     forall a, exists h2,
       getHandoff (db (after jwtVerify toText toBool (actions ++ [a]) w1)) (Handoff.id h) = Some h2 /\
       (Handoff.status h1 = RESOLVED -> h2 = h1) /\
       (Handoff.resolvedAt h2 = Handoff.resolvedAt h1 \/
        exists env' headers,
          a = Http env' headers (PatchHandoff (Handoff.id h) resolveBody) /\
          Handoff.status h1 = IN_PROGRESS /\
          Handoff.resolvedAt h1 = None /\
          Handoff.resolvedAt h2 = Some (now env') /\
          Handoff.status h2 = RESOLVED)) /\
  (forall t d id requested s row,
     castStatus requested = Some s -> getHandoff d id = Some row ->
     exists d', updateHandoffStatus t d id requested
                = inr (Some (entered t row s), d') /\
                getHandoff d' id = Some (entered t row s) /\
                Handoff.resolvedAt (entered t row s)
                = if decide (s = RESOLVED) then Some t else Handoff.resolvedAt row).
Proof.
  intros Hrun.
  destruct (postHandoff_created_row _ _ _ _ _ _ _ _ Hrun)
    as (Hopen & Hnone & Hrows & Hfresh & _).
  assert (getHandoff (db w1) (Handoff.id h) = Some h) as Hrow.
  { unfold getHandoff. rewrite Hrows, List.filter_app.
    assert (List.filter (fun h0 => String.eqb (Handoff.id h0) (Handoff.id h))
              (handoffs (db w0)) = []) as ->.
    { destruct (List.filter _ _) as [|r0 l] eqn:E; [done|]. exfalso.
      assert (r0 ∈ r0 :: l) as Hr0 by left. rewrite <- E in Hr0.
      apply list_elem_of_In, filter_In in Hr0 as [Hr0%list_elem_of_In He%String.eqb_eq].
      by apply (Hfresh r0 Hr0). }
    cbn [List.filter app]. by rewrite String.eqb_refl. }
  assert (consistent h) as Hcons.
  { unfold consistent. rewrite Hopen, Hnone. done. }
  split; [done|]. split; [done|]. split.
  - intros actions.
    destruct (assignments_count (Handoff.id h) actions w1 h Hrow Hcons)
      as (h1 & Hrow1 & Hcons1 & _ & Hcount).
    exists h1. split; [done|]. split; [done|]. split.
    { rewrite Hopen in Hcount. rewrite decide_False in Hcount by done. lia. }
    intros a. rewrite after_snoc.
    destruct (step_consistent a _ _ h1 Hrow1 Hcons1) as (h2 & Hrow2 & _ & Hfix & Hchg).
    exists h2. split; [done|]. split; [done|].
    destruct Hchg as [[Heq _]|Hres]; [by left|by right].
  - intros t d id requested s row Hcast Hget.
    destruct (updateHandoffStatus_spec t d id requested s Hcast) as (d' & Hupd & Hsame & _).
    exists d'. rewrite Hupd, Hsame, Hget. done.
Qed.

End Lifetime.

Lemma resolvedAt_assigned_once_witness :
  run (postHandoff demoText createEnv (asRequest (PAgent reviewer)) "w1" createBody) demoWorld
  = (Responded (mkResponse 201 (BHandoff (Some created))), createdWorld) /\
  Handoff.resolvedAt created = None /\
  getHandoff (db createdWorld) "h2" = Some created.
Proof.
  assert (run (postHandoff demoText createEnv (asRequest (PAgent reviewer)) "w1" createBody) demoWorld
          = (Responded (mkResponse 201 (BHandoff (Some created))), createdWorld)) as Hrun.
  { vm_compute. reflexivity. }
  split; [exact Hrun|].
  destruct (resolvedAt_assigned_once noJwt demoText demoBool _ _ _ _ _ _ _ Hrun) as (Hnone & Hrow & _).
  split; [exact Hnone|exact Hrow].
Defined.

(** The life of that handoff under four requests of [reviewer]: resolve at
    once (refused), start, resolve, start again (refused). The resolution
    time is absent until the third request and is the time of that request
    from then on; it was assigned once. *)
Example handoff_lifecycle :
  let patch t body := Http (mkEnv "" t) reviewerHeaders (PatchHandoff "h2" body) in
  let life := [patch 11 resolveBody; patch 12 startBody; patch 13 resolveBody;
               patch 14 startBody] in
  (fun n => (fun h => (Handoff.status h, Handoff.resolvedAt h))
              <$> getHandoff (db (after noJwt demoText demoBool (take n life) createdWorld)) "h2")
    <$> [0; 1; 2; 3; 4]
  = [Some (OPEN, None); Some (OPEN, None); Some (IN_PROGRESS, None);
     Some (RESOLVED, Some 13); Some (RESOLVED, Some 13)] /\
  assignments noJwt demoText demoBool "h2" life createdWorld = 1.
Proof. split; vm_compute; reflexivity. Qed.

(* ===================================================================== *)
(** ** The realtime registry                                              *)
(* ===================================================================== *)

Section Registry.

Implicit Types (ws : Client) (clients : list Client) (room : string)
  (kind : Room.RoomType) (event : Event).

(** What [deliver] does to one session: the event is appended to what was
    sent when the session is writable and subscribed, and nothing else
    changes. *)
Lemma deliver_subscribed room kind event ws :
  writable ws -> subscribed kind room ws ->
  deliver room kind event ws = send ws event.
Proof.
  unfold writable, subscribed, deliver, has. intros Hw Hs.
  rewrite bool_decide_eq_true_2 by done.
  destruct kind; simpl in *.
  - by rewrite (bool_decide_eq_true_2 _ Hs).
  - by rewrite (bool_decide_eq_true_2 _ Hs).
Qed.

Lemma deliver_not_subscribed room kind event ws :
  ~ subscribed kind room ws -> deliver room kind event ws = ws.
Proof.
  unfold subscribed, deliver, has. intros Hs.
  destruct (bool_decide (readyState ws = WebSocket.OPEN)); [|done].
  destruct kind; simpl in *; by rewrite (bool_decide_eq_false_2 _ Hs).
Qed.

Lemma deliver_not_writable room kind event ws :
  ~ writable ws -> deliver room kind event ws = ws.
Proof.
  unfold writable, deliver. intros Hw. by rewrite bool_decide_eq_false_2.
Qed.

Lemma broadcast_lookup room kind event clients (i : nat) :
  broadcast room kind event clients !! i = deliver room kind event <$> clients !! i.
Proof. unfold broadcast. apply list_lookup_fmap. Qed.

(** C6. Publishing [event] to the room [room] of kind [kind] keeps the
    registry as it is (same sessions, same order) and, for the session at
    any position [i]: when it is writable and its interest set of that kind
    contains the room, the event is sent to it, once, after everything sent
    before; otherwise the session is left exactly as it was, nothing is
    sent to it and nothing is kept for later. In particular a session whose
    only interest of that kind is another room gets nothing. *)
Theorem broadcast_delivers_to_subscribers room kind event clients (i : nat) ws :
  clients !! i = Some ws ->
  length (broadcast room kind event clients) = length clients /\
  (writable ws /\ subscribed kind room ws ->
     broadcast room kind event clients !! i = Some (send ws event)) /\
  (~ (writable ws /\ subscribed kind room ws) ->
     broadcast room kind event clients !! i = Some ws) /\
  (forall other, other <> room -> interest kind ws = {[ KStr other ]} ->
     broadcast room kind event clients !! i = Some ws).
Proof.
  intros Hi. rewrite broadcast_lookup, Hi. simpl.
  split; [unfold broadcast; by rewrite length_fmap|].
  split; [intros [Hw Hs]; by rewrite deliver_subscribed|].
  split.
  - intros Hn. f_equal.
    destruct (decide (writable ws)) as [Hw|Hw].
    + apply deliver_not_subscribed. tauto.
    + by apply deliver_not_writable.
  - intros other Hne Honly. f_equal. apply deliver_not_subscribed.
    unfold subscribed. intros Hin. rewrite Honly in Hin.
    apply elem_of_singleton in Hin. congruence.
Qed.

Lemma broadcast_delivers_to_subscribers_witness :
  demoClients !! 0 = Some (mkClient 1 (Some "u1") WebSocket.OPEN {[ KStr "c1" ]} ∅ []) /\
  length (broadcast "c1" Room.channel demoEvent demoClients) = 3 /\
  broadcast "c1" Room.channel demoEvent demoClients !! 0
  = Some (mkClient 1 (Some "u1") WebSocket.OPEN {[ KStr "c1" ]} ∅ [demoEvent]).
Proof.
  split; [reflexivity|].
  destruct (broadcast_delivers_to_subscribers "c1" Room.channel demoEvent demoClients 0
              (mkClient 1 (Some "u1") WebSocket.OPEN {[ KStr "c1" ]} ∅ []) eq_refl)
    as (Hlen & Hsend & _).
  split; [exact Hlen|].
  apply Hsend. split; [reflexivity|].
  unfold subscribed. simpl. apply elem_of_singleton. reflexivity.
Defined.

(** The sessions the event must not reach, on the same registry: the one
    subscribed to another channel (and to a workspace of the same id), and
    the one whose socket is not open. *)
Example broadcast_skips_others :
  broadcast "c1" Room.channel demoEvent demoClients !! 1 = demoClients !! 1 /\
  broadcast "c1" Room.channel demoEvent demoClients !! 2 = demoClients !! 2.
Proof. split; vm_compute; reflexivity. Qed.

(** *** Control frames *)

Lemma onFrame_subscribe kind ref room ws :
  onFrame (subscribe kind ref room) ws
  = match kind with
    | Room.channel => withChannels ws (channels ws ∪ {[ KStr room ]})
    | Room.workspace => withWorkspaces ws (workspaces ws ∪ {[ KStr room ]})
    end.
Proof. by destruct kind. Qed.

Lemma onFrame_unsubscribe kind ref room ws :
  onFrame (unsubscribe kind ref room) ws
  = match kind with
    | Room.channel => withChannels ws (channels ws ∖ {[ KStr room ]})
    | Room.workspace => withWorkspaces ws (workspaces ws ∖ {[ KStr room ]})
    end.
Proof. by destruct kind. Qed.

Lemma withChannels_id ws s : s = channels ws -> withChannels ws s = ws.
Proof. intros ->. by destruct ws. Qed.

Lemma withWorkspaces_id ws s : s = workspaces ws -> withWorkspaces ws s = ws.
Proof. intros ->. by destruct ws. Qed.

Lemma onMessage_compose socket d1 d2 clients :
  onMessage socket d2 (onMessage socket d1 clients)
  = (fun ws => if Nat.eqb (cid ws) socket then onFrame d2 (onFrame d1 ws) else ws) <$> clients.
Proof.
  unfold onMessage. rewrite <- list_fmap_compose. apply list_fmap_ext.
  intros _ ws _. simpl. destruct (Nat.eqb (cid ws) socket) eqn:E; [|by rewrite E].
  assert (cid (onFrame d1 ws) = cid ws) as Hc.
  { unfold onFrame, tryFrame. repeat case_match; simplify_eq; done. }
  by rewrite Hc, E.
Qed.

Lemma interest_setInterest kind kind' ws s :
  interest kind' (setInterest kind ws s)
  = if decide (kind' = kind) then s else interest kind' ws.
Proof. by destruct kind, kind'. Qed.

Lemma onFrame_join kind ref room ws :
  onFrame (subscribe kind ref room) ws
  = setInterest kind ws (interest kind ws ∪ {[ KStr room ]}).
Proof. by destruct kind. Qed.

Lemma onFrame_leave kind ref room ws :
  onFrame (unsubscribe kind ref room) ws
  = setInterest kind ws (interest kind ws ∖ {[ KStr room ]}).
Proof. by destruct kind. Qed.

(** C7. For a session [ws] and a room of either kind. Subscribing adds the
    room to the interest set of its kind and unsubscribing removes it, and
    neither touches anything else of the session: after a subscribe the
    session is subscribed to the room, after an unsubscribe it is not, and
    its subscription to every other room, and to every room of the other
    kind, is as before; so a publish to the room reaches a writable session
    that has just subscribed and does not reach one that has just
    unsubscribed. Subscribing twice is subscribing once, unsubscribing twice
    is unsubscribing once, and unsubscribing and then subscribing again
    leaves the session in the state that subscribing alone leaves it in;
    when the session was subscribed, that state is the one it had before the
    two frames. The same holds on the registry, so every later publish
    delivers the same frames, to the same sessions. *)
Theorem subscribe_unsubscribe_idempotent kind room ws (r1 r2 : nat) :
  (onFrame (subscribe kind r1 room) ws
     = setInterest kind ws (interest kind ws ∪ {[ KStr room ]}) /\
   onFrame (unsubscribe kind r1 room) ws
     = setInterest kind ws (interest kind ws ∖ {[ KStr room ]})) /\
  (subscribed kind room (onFrame (subscribe kind r1 room) ws) /\
   ~ subscribed kind room (onFrame (unsubscribe kind r1 room) ws)) /\
  (forall kind' other, (kind', other) <> (kind, room) ->
     (subscribed kind' other (onFrame (subscribe kind r1 room) ws)
      <-> subscribed kind' other ws) /\
     (subscribed kind' other (onFrame (unsubscribe kind r1 room) ws)
      <-> subscribed kind' other ws)) /\
  (forall event,
     (writable ws ->
      deliver room kind event (onFrame (subscribe kind r1 room) ws)
      = send (onFrame (subscribe kind r1 room) ws) event) /\
     deliver room kind event (onFrame (unsubscribe kind r1 room) ws)
     = onFrame (unsubscribe kind r1 room) ws) /\
  onFrame (subscribe kind r2 room) (onFrame (subscribe kind r1 room) ws)
    = onFrame (subscribe kind r1 room) ws /\
  onFrame (unsubscribe kind r2 room) (onFrame (unsubscribe kind r1 room) ws)
    = onFrame (unsubscribe kind r1 room) ws /\
  onFrame (subscribe kind r2 room) (onFrame (unsubscribe kind r1 room) ws)
    = onFrame (subscribe kind r2 room) ws /\
  (subscribed kind room ws ->
   onFrame (subscribe kind r2 room) (onFrame (unsubscribe kind r1 room) ws) = ws) /\
  (forall socket clients later,
     fold_left (fun cs '(r, k, e) => broadcast r k e cs) later
       (onMessage socket (subscribe kind r2 room)
          (onMessage socket (unsubscribe kind r1 room) clients))
     = fold_left (fun cs '(r, k, e) => broadcast r k e cs) later
         (onMessage socket (subscribe kind r2 room) clients)).
Proof.
  assert (forall w, onFrame (subscribe kind r2 room) (onFrame (unsubscribe kind r1 room) w)
                    = onFrame (subscribe kind r2 room) w) as Hrejoin.
  { intros w. rewrite !onFrame_subscribe, !onFrame_unsubscribe.
    destruct kind; destruct w; unfold withChannels, withWorkspaces; simpl; f_equal.
    - apply set_eq. intros x. rewrite !elem_of_union, elem_of_difference.
      destruct (decide (x ∈ ({[KStr room]} : gset Js.key))); tauto.
    - apply set_eq. intros x. rewrite !elem_of_union, elem_of_difference.
      destruct (decide (x ∈ ({[KStr room]} : gset Js.key))); tauto. }
  assert (subscribed kind room (onFrame (subscribe kind r1 room) ws)) as Hin.
  { unfold subscribed. rewrite onFrame_join, interest_setInterest.
    rewrite decide_True by done. set_solver. }
  assert (~ subscribed kind room (onFrame (unsubscribe kind r1 room) ws)) as Hout.
  { unfold subscribed. rewrite onFrame_leave, interest_setInterest.
    rewrite decide_True by done. set_solver. }
  split; [split; [apply onFrame_join|apply onFrame_leave]|].
  split; [by split|].
  split.
  { intros kind' other Hne. unfold subscribed.
    rewrite onFrame_join, onFrame_leave, !interest_setInterest.
    destruct (decide (kind' = kind)) as [->|Hk]; [|done].
    assert (other <> room) as Hr by congruence.
    rewrite elem_of_union, elem_of_difference, !elem_of_singleton.
    split; split; try tauto.
    - intros [H|[= H]]; [done|congruence].
    - intros H. split; [done|]. intros [= H']. congruence. }
  split.
  { intros event. split.
    - intros Hw. apply deliver_subscribed; [|done].
      unfold writable in *. rewrite onFrame_join. by destruct kind.
    - by apply deliver_not_subscribed. }
  repeat split.
  - rewrite !onFrame_subscribe.
    destruct kind; destruct ws; unfold withChannels, withWorkspaces; simpl; f_equal;
      set_solver.
  - rewrite !onFrame_unsubscribe.
    destruct kind; destruct ws; unfold withChannels, withWorkspaces; simpl; f_equal;
      set_solver.
  - apply Hrejoin.
  - intros Hsub. rewrite Hrejoin, onFrame_subscribe. unfold subscribed in Hsub.
    destruct kind; simpl in Hsub.
    + apply withChannels_id. set_solver.
    + apply withWorkspaces_id. set_solver.
  - intros socket clients later. f_equal.
    rewrite onMessage_compose. unfold onMessage. apply list_fmap_ext.
    intros _ w _. simpl. by rewrite Hrejoin.
Qed.

Lemma subscribe_unsubscribe_idempotent_witness :
  subscribed Room.channel "c1" (mkClient 1 (Some "u1") WebSocket.OPEN {[ KStr "c1" ]} ∅ []) /\
  onFrame (subscribe Room.channel 11 "c1")
    (onFrame (unsubscribe Room.channel 10 "c1")
       (mkClient 1 (Some "u1") WebSocket.OPEN {[ KStr "c1" ]} ∅ []))
  = mkClient 1 (Some "u1") WebSocket.OPEN {[ KStr "c1" ]} ∅ [] /\
  ~ subscribed Room.channel "c1"
      (onFrame (unsubscribe Room.channel 10 "c1")
         (mkClient 1 (Some "u1") WebSocket.OPEN {[ KStr "c1" ]} ∅ [])) /\
  subscribed Room.channel "c1" (onFrame (subscribe Room.channel 10 "c1") (freshClient 2)) /\
  ~ subscribed Room.channel "c1" (freshClient 2).
Proof.
  assert (subscribed Room.channel "c1"
            (mkClient 1 (Some "u1") WebSocket.OPEN {[ KStr "c1" ]} ∅ [])) as Hsub.
  { unfold subscribed. simpl. apply elem_of_singleton. reflexivity. }
  split; [exact Hsub|].
  destruct (subscribe_unsubscribe_idempotent Room.channel "c1"
              (mkClient 1 (Some "u1") WebSocket.OPEN {[ KStr "c1" ]} ∅ []) 10 11)
    as (_ & (_ & Hout) & _ & _ & _ & _ & _ & Hback & _).
  split; [exact (Hback Hsub)|].
  split; [exact Hout|].
  destruct (subscribe_unsubscribe_idempotent Room.channel "c1" (freshClient 2) 10 11)
    as (_ & (Hin & _) & _).
  split; [exact Hin|].
  unfold subscribed, freshClient. simpl. apply not_elem_of_empty.
Defined.

(** A frame of one of the four control types adds to, or removes from, the
    interest set of its kind whatever its room-id field holds. *)
Lemma onFrame_control data join kind ws :
  controlType data = Some (join, kind) ->
  onFrame data ws
  = setInterest kind ws
      (if join then interest kind ws ∪ {[ toKey (roomOf kind data) ]}
       else interest kind ws ∖ {[ toKey (roomOf kind data) ]}).
Proof.
  unfold controlType, onFrame, tryFrame, roomOf.
  destruct data as [|message]; [done|].
  destruct (getProp message "type") as [type|]; [|done].
  destruct (strictEqStr type "join_channel"); [by intros [= <- <-]|].
  destruct (strictEqStr type "leave_channel"); [by intros [= <- <-]|].
  destruct (strictEqStr type "join_workspace"); [by intros [= <- <-]|].
  destruct (strictEqStr type "leave_workspace"); [by intros [= <- <-]|].
  done.
Qed.

Lemma onFrame_ignored data ws :
  controlType data = None -> onFrame data ws = ws.
Proof.
  unfold controlType, onFrame, tryFrame.
  destruct data as [|message]; [done|].
  destruct (getProp message "type") as [type|]; [|done].
  destruct (strictEqStr type "join_channel"); [done|].
  destruct (strictEqStr type "leave_channel"); [done|].
  destruct (strictEqStr type "join_workspace"); [done|].
  destruct (strictEqStr type "leave_workspace"); done.
Qed.

Lemma onFrame_keeps_socket data ws :
  cid (onFrame data ws) = cid ws /\
  userId (onFrame data ws) = userId ws /\
  readyState (onFrame data ws) = readyState ws /\
  sent (onFrame data ws) = sent ws.
Proof.
  destruct (controlType data) as [[join kind]|] eqn:E.
  - rewrite (onFrame_control _ _ _ _ E). by destruct kind.
  - by rewrite (onFrame_ignored _ _ E).
Qed.

(** C10, as the handler has it. No frame ends the connection: the socket
    stays in the registry, at its place, as open as it was and with nothing
    sent to it. A frame that is not valid JSON or has no known type is
    ignored: the session is unchanged. A frame of a known type that lacks
    its room id is not ignored: it adds to (join) or removes from (leave)
    the interest set the value [undefined]; no room id enters or leaves an
    interest set, so the session is subscribed to the same rooms as
    before. *)
Theorem malformed_frame_keeps_connection socket data clients ws :
  (cid <$> onMessage socket data clients = cid <$> clients /\
   readyState <$> onMessage socket data clients = readyState <$> clients /\
   sent <$> onMessage socket data clients = sent <$> clients) /\
  (notJson data \/ unknownType data -> onFrame data ws = ws) /\
  (forall join kind,
     controlType data = Some (join, kind) -> roomOf kind data = None ->
     onFrame data ws
     = setInterest kind ws
         (if join then interest kind ws ∪ {[ KUndefined ]}
          else interest kind ws ∖ {[ KUndefined ]})) /\
  (lacksRoomId data ->
     forall kind room, subscribed kind room (onFrame data ws) <-> subscribed kind room ws).
Proof.
  split; [|split; [|split]].
  - unfold onMessage. rewrite <- !list_fmap_compose.
    repeat split; apply list_fmap_ext; intros _ w _; simpl;
      destruct (Nat.eqb (cid w) socket); try done;
      by destruct (onFrame_keeps_socket data w) as (? & ? & ? & ?).
  - intros [->|[_ Hu]]; [done|]. by apply onFrame_ignored.
  - intros join kind Hc Hr. rewrite (onFrame_control _ _ _ _ Hc), Hr. done.
  - intros (join & kind & Hc & Hr) kind' room. unfold subscribed.
    rewrite (onFrame_control _ _ _ _ Hc), Hr, interest_setInterest. simpl.
    destruct (decide (kind' = kind)) as [->|]; [|done].
    destruct join; set_solver.
Qed.

Lemma malformed_frame_keeps_connection_witness :
  lacksRoomId joinWithoutRoom /\
  forall kind room,
    subscribed kind room (onFrame joinWithoutRoom (freshClient 1))
    <-> subscribed kind room (freshClient 1).
Proof.
  assert (lacksRoomId joinWithoutRoom) as Hl.
  { exists true, Room.channel. split; reflexivity. }
  split; [exact Hl|].
  destruct (malformed_frame_keeps_connection 1 joinWithoutRoom [] (freshClient 1))
    as (_ & _ & _ & Hsame).
  exact (Hsame Hl).
Defined.

(** C10 as stated fails: a join frame without its room id fails structural
    validation, and the session's channel-interest set is not what it was:
    it now holds [undefined]. *)
Lemma malformed_join_changes_interest :
  malformed joinWithoutRoom /\
  channels (onFrame joinWithoutRoom (freshClient 1)) <> channels (freshClient 1) /\
  KUndefined ∈ channels (onFrame joinWithoutRoom (freshClient 1)).
Proof.
  split.
  - right. right. exists true, Room.channel. split; reflexivity.
  - assert (KUndefined ∈ channels (onFrame joinWithoutRoom (freshClient 1))) as Hin.
    { simpl. apply elem_of_union_r, elem_of_singleton. reflexivity. }
    split; [|exact Hin].
    intros Heq. rewrite Heq in Hin. simpl in Hin. by apply not_elem_of_empty in Hin.
Qed.

End Registry.

(* ===================================================================== *)
(** ** The memory store                                                   *)
(* ===================================================================== *)

Section MemoryStore.

Implicit Types (d : Db) (rows : list Memory.t).

Lemma filter_none_of_negated {A} (p : A -> bool) (l : list A) :
  List.filter p (List.filter (fun x => negb (p x)) l) = [].
Proof.
  induction l as [|x l IH]; [done|]. cbn [List.filter].
  destruct (p x) eqn:E; cbn [negb List.filter]; [done|]. by rewrite E.
Qed.


Lemma sameKey_iff agentId key m :
  sameKey agentId key m = true <-> Memory.agentId m = agentId /\ Memory.key m = key.
Proof. unfold sameKey. by rewrite andb_true_iff, !String.eqb_eq. Qed.


(** A [setMemory] of a value the column does not hold: the delete has run
    when the insert is rejected, and the pair is left without a row. *)
Lemma setMemory_rejected uuid now d memory :
  accepts [Some (InsertMemory.agentId memory); Some (InsertMemory.key memory)] = true ->
  jsonbNotNull (InsertMemory.value memory) = false ->
  setMemory uuid now d memory
  = inl (DatabaseError,
         deleteMemory d (InsertMemory.agentId memory) (InsertMemory.key memory)) /\
  List.filter (sameKey (InsertMemory.agentId memory) (InsertMemory.key memory))
    (memories (deleteMemory d (InsertMemory.agentId memory) (InsertMemory.key memory)))
  = [].
Proof.
  intros Htext Hvalue. unfold setMemory. rewrite Htext, Hvalue. split; [done|].
  cbn [deleteMemory memories withMemories]. apply filter_none_of_negated.
Qed.



(** The same two calls, computed: the draft that was stored for the key is
    gone after the first, and the table ends with the second value alone. *)
Example setMemory_twice_computed :
  match setMemory "mem1" 6 demoDb (InsertMemory.mk "a1" "plan" (JStr "first") None) with
  | inr (_, d1) =>
      match setMemory "mem2" 7 d1 (InsertMemory.mk "a1" "plan" (JStr "second") None) with
      | inr (_, d2) => memories d2
      | inl _ => []
      end
  | inl _ => []
  end
  = [Memory.mk "mem2" "a1" "plan" (JStr "second") None 7 7].
Proof. vm_compute. reflexivity. Qed.


End MemoryStore.

(* ===================================================================== *)
(** ** Message listings                                                   *)
(* ===================================================================== *)

Section Messages.

Implicit Types (d : Db).

#[local] Instance createdDesc_total {R} (createdAt : R -> Time) :
  Total (createdDesc createdAt).
Proof. intros a b. unfold createdDesc. lia. Qed.

#[local] Instance createdDesc_trans {R} (createdAt : R -> Time) :
  Transitive (createdDesc createdAt).
Proof. intros a b c. unfold createdDesc. lia. Qed.

(** What the listing does give: messages of the channel, oldest first, and
    at most [limit] of them when the limit is not negative. *)
Lemma getMessagesForChannel_chronological d channelId limit before result :
  getMessagesForChannel d channelId limit before = inr result ->
  ((0 <= limit)%Z -> (length result <= Z.to_nat limit)%nat) /\
  (forall m, m ∈ result -> m ∈ messages d /\ Message.channelId m = channelId) /\
  Sorted (fun a b => Message.createdAt a <= Message.createdAt b) result.
Proof.
  unfold getMessagesForChannel. cbv zeta.
  set (rows := List.filter _ (messages d)).
  assert (forall m, m ∈ orderByCreatedDesc Message.createdAt rows ->
            m ∈ messages d /\ Message.channelId m = channelId) as Hin.
  { intros m Hm. unfold orderByCreatedDesc in Hm. rewrite merge_sort_Permutation in Hm.
    apply list_elem_of_In, filter_In in Hm as [Hm%list_elem_of_In He%String.eqb_eq].
    done. }
  assert (StronglySorted (createdDesc Message.createdAt)
            (orderByCreatedDesc Message.createdAt rows)) as Hss.
  { apply StronglySorted_merge_sort; apply _. }
  destruct (Z.ltb_spec limit 0) as [Hneg|Hpos].
  - intros [= <-]. split; [lia|]. split.
    + intros m Hm. rewrite elem_of_reverse in Hm. by apply Hin.
    + apply (Sorted_reverse (createdDesc Message.createdAt)).
      by apply StronglySorted_Sorted.
  - destruct (2 ^ 63 <=? limit)%Z; [done|]. intros [= <-].
    split; [|split].
    + intros _. rewrite length_reverse, length_take. lia.
    + intros m Hm. rewrite elem_of_reverse in Hm.
      apply (subseteq_take (Z.to_nat limit)) in Hm. by apply Hin.
    + apply (Sorted_reverse (createdDesc Message.createdAt)).
      apply StronglySorted_Sorted.
      apply (StronglySorted_app_1_l _ _
               (drop (Z.to_nat limit) (orderByCreatedDesc Message.createdAt rows))).
      by rewrite take_drop.
Qed.

(** C9, at the input where the listing and the claim part: channel [c1]
    holds [m1], [m2], [m3], created in that order; asked for the messages
    before [m2], the storage returns all three, [m2] and [m3] included. The
    cursor is never read: the result is the same for every [before]. *)
Theorem getMessagesForChannel_ignores_before :
  getMessagesForChannel demoDb "c1" 50 (Some "m2") = inr [m1; m2; m3] /\
  (forall d channelId limit before,
     getMessagesForChannel d channelId limit before
     = getMessagesForChannel d channelId limit None).
Proof. split; [vm_compute; reflexivity|reflexivity]. Qed.

End Messages.

(* ===================================================================== *)
(** ** Further properties of the storage                                  *)
(* ===================================================================== *)

Section StorageMemory.

Implicit Types (d : Db) (m : Memory.t).

Lemma filter_idem {A} (p : A -> bool) (l : list A) :
  List.filter p (List.filter p l) = List.filter p l.
Proof.
  induction l as [|x l IH]; [done|]. cbn [List.filter].
  destruct (p x) eqn:E; cbn [List.filter]; [by rewrite E, IH|done].
Qed.

Lemma filter_all {A} (p : A -> bool) (l : list A) :
  (forall x, x ∈ l -> p x = true) -> List.filter p l = l.
Proof.
  induction l as [|x l IH]; [done|]. intros H. cbn [List.filter].
  rewrite (H x) by left. f_equal. apply IH. intros y Hy. apply H. by right.
Qed.


Lemma anyRun_step rest (c : ascii) (s : string) :
  anyRun rest (String c s) = rest (String c s) || anyRun rest (dropContinuation s).
Proof.
  cbn [anyRun]. f_equal.
  induction s as [|b s IH]; [done|].
  cbn [dropContinuation]. destruct (continuation b); [exact IH|done].
Qed.

Lemma anyRun_here rest (s : string) : rest s = true -> anyRun rest s = true.
Proof. intros H. destruct s; cbn [anyRun]; by rewrite H. Qed.

Lemma dropContinuation_length s : String.length (dropContinuation s) <= String.length s.
Proof.
  induction s as [|b s IH]; [done|]. cbn [dropContinuation].
  destruct (continuation b); cbn [String.length]; lia.
Qed.

(** When the rest of the pattern matches the text from the start of one of
    its later characters on. *)
Lemma anyRun_later rest (c : ascii) (s : string) :
  anyRun rest (dropContinuation s) = true -> anyRun rest (String c s) = true.
Proof. intros H. by rewrite anyRun_step, H, orb_true_r. Qed.

Lemma like_any (s : string) : like "%" s = true.
Proof.
  change (anyRun (like "") s = true).
  remember (String.length s) as n eqn:Hn. revert s Hn.
  induction n as [n IH] using lt_wf_ind. intros s ->.
  destruct s as [|c s]; [done|]. apply anyRun_later.
  apply (IH (String.length (dropContinuation s))); [|done].
  pose proof (dropContinuation_length s). cbn [String.length]. lia.
Qed.

Lemma like_wild rest (c : ascii) (s : string) :
  like (String "%"%char rest) (String c s)
  = like rest (String c s) || like (String "%"%char rest) (dropContinuation s).
Proof. apply anyRun_step. Qed.

Lemma like_wild_here rest (s : string) :
  like rest s = true -> like (String "%"%char rest) s = true.
Proof. apply anyRun_here. Qed.

Lemma like_plain_prefix (p k : string) :
  plain p = true -> like (p ++ "%") k = String.prefix p k.
Proof.
  revert k. induction p as [|c p IH]; intros k Hp.
  { rewrite like_any. by destruct k. }
  cbn [plain] in Hp. apply andb_true_iff in Hp as [Hp Hrest].
  apply andb_true_iff in Hp as [Hp H3]. apply andb_true_iff in Hp as [H1 H2].
  apply negb_true_iff in H1, H2, H3.
  change (String c p ++ "%") with (String c (p ++ "%")).
  cbn [like]. rewrite H1, H2, H3.
  destruct k as [|x k]; [done|]. cbn [String.prefix].
  destruct (Ascii.ascii_dec c x) as [->|Hne].
  - rewrite Ascii.eqb_refl. by apply IH.
  - assert (Ascii.eqb x c = false) as ->; [|done].
    apply Ascii.eqb_neq. congruence.
Qed.

Lemma announced_continuation b : continuation b = true -> announced b = None.
Proof. destruct b as [[] [] [] [] [] [] [] []]; done. Qed.

Lemma announced_ascii b n :
  announced b = Some n -> n <> 0 -> 
  Ascii.eqb b "%"%char = false /\ Ascii.eqb b "_"%char = false.
Proof. destruct b as [[] [] [] [] [] [] [] []]; cbn; intros [= <-]; done. Qed.

Lemma utf8From_boundary s : utf8From 0 s = true -> atBoundary s = true.
Proof.
  destruct s as [|b s]; [done|]. cbn [utf8From atBoundary].
  destruct (continuation b) eqn:E; [|done]. by rewrite (announced_continuation _ E).
Qed.

(** A prefix without a backslash, in well-formed text, matches at least
    the keys that start with it: [%] and [_] also stand for themselves. *)
Lemma like_prefix_found_from (n : nat) (p k : string) :
  utf8From n p = true ->
  (forall c, In c (list_ascii_of_string p) -> c <> "\"%char) ->
  String.prefix p k = true -> like (p ++ "%") k = true.
Proof.
  revert n k. induction p as [|c p IH]; intros n k Hu Hp Hpre.
  { apply like_any. }
  destruct k as [|x k]; [done|]. cbn [String.prefix] in Hpre.
  destruct (Ascii.ascii_dec c x) as [->|]; [|done].
  assert (forall c, In c (list_ascii_of_string p) -> c <> "\"%char) as Hp'.
  { intros c Hc. apply Hp. by right. }
  assert (Ascii.eqb x "\"%char = false) as Hbs.
  { apply Ascii.eqb_neq. apply Hp. by left. }
  change (String x p ++ "%") with (String x (p ++ "%")).
  cbn [utf8From] in Hu.
  destruct n as [|n].
  - destruct (announced x) as [m|] eqn:Ha; [|done].
    assert (like (p ++ "%") k = true) as Hrec by by apply (IH m).
    destruct m as [|m].
    + (* a character of one byte *)
      assert (like (p ++ "%") (dropContinuation k) = true) as Hnext.
      { destruct p as [|b p]; [apply like_any|].
        destruct k as [|y k]; [done|]. cbn [String.prefix] in Hpre.
        destruct (Ascii.ascii_dec b y) as [->|]; [|done].
        apply utf8From_boundary in Hu. cbn [atBoundary] in Hu.
        apply negb_true_iff in Hu. cbn [dropContinuation]. by rewrite Hu. }
      destruct (Ascii.eqb x "%"%char) eqn:H1.
      { apply Ascii.eqb_eq in H1 as ->. rewrite like_wild.
        by rewrite (like_wild_here _ _ Hnext), orb_true_r. }
      cbn [like]. rewrite H1.
      destruct (Ascii.eqb x "_"%char); [done|].
      by rewrite Hbs, Ascii.eqb_refl.
    + destruct (announced_ascii x (S m) Ha) as [H1 H2]; [done|].
      cbn [like]. by rewrite H1, H2, Hbs, Ascii.eqb_refl.
  - apply andb_true_iff in Hu as [Hc Hu].
    assert (like (p ++ "%") k = true) as Hrec by by apply (IH n).
    assert (Ascii.eqb x "%"%char = false /\ Ascii.eqb x "_"%char = false) as [H1 H2].
    { destruct x as [[] [] [] [] [] [] [] []]; done. }
    cbn [like]. by rewrite H1, H2, Hbs, Ascii.eqb_refl.
Qed.

Lemma like_prefix_found (p k : string) :
  utf8 p = true ->
  (forall c, In c (list_ascii_of_string p) -> c <> "\"%char) ->
  String.prefix p k = true -> like (p ++ "%") k = true.
Proof. apply like_prefix_found_from. Qed.

(** X2. [getMemoriesByPrefix] never returns a row of another agent. For a
    prefix without [%], [_] and backslash it returns exactly the agent's
    rows whose key starts with the prefix; for a prefix without backslash,
    of well-formed characters, it returns at least those; and for the empty
    prefix it returns every row of the agent. *)
Theorem getMemoriesByPrefix_rows d agentId prefix m :
  (m ∈ getMemoriesByPrefix d agentId prefix ->
   m ∈ memories d /\ Memory.agentId m = agentId) /\
  (plain prefix = true ->
   (m ∈ getMemoriesByPrefix d agentId prefix <->
    m ∈ memories d /\ Memory.agentId m = agentId /\
    String.prefix prefix (Memory.key m) = true)) /\
  (utf8 prefix = true ->
   (forall c, In c (list_ascii_of_string prefix) -> c <> "\"%char) ->
   m ∈ memories d -> Memory.agentId m = agentId ->
   String.prefix prefix (Memory.key m) = true ->
   m ∈ getMemoriesByPrefix d agentId prefix) /\
  getMemoriesByPrefix d agentId ""
  = List.filter (fun r => String.eqb (Memory.agentId r) agentId) (memories d).
Proof.
  assert (forall p, m ∈ getMemoriesByPrefix d agentId p <->
            m ∈ memories d /\ Memory.agentId m = agentId /\
            like (p ++ "%") (Memory.key m) = true) as Hin.
  { intros p. unfold getMemoriesByPrefix.
    rewrite list_elem_of_In, filter_In, <- list_elem_of_In, andb_true_iff, String.eqb_eq.
    tauto. }
  split; [|split; [|split]].
  - intros H%Hin. tauto.
  - intros Hp. rewrite Hin, (like_plain_prefix _ _ Hp). done.
  - intros Hu Hp Hm Ha Hpre. apply Hin. by rewrite (like_prefix_found _ _ Hu Hp Hpre).
  - unfold getMemoriesByPrefix. apply List.filter_ext. intros r.
    change ("" ++ "%") with "%". by rewrite like_any, andb_true_r.
Qed.

(** The prefix is a pattern: an underscore in it stands for any character. *)
Example getMemoriesByPrefix_underscore :
  getMemoriesByPrefix demoDb "a1" "p_a" = [draft] /\
  String.prefix "p_a" (Memory.key draft) = false.
Proof. split; vm_compute; reflexivity. Qed.

End StorageMemory.

Section StorageListings.

Implicit Types (d : Db).

#[local] Instance createdDesc_total' {R} (createdAt : R -> Time) :
  Total (createdDesc createdAt).
Proof. intros a b. unfold createdDesc. lia. Qed.

#[local] Instance createdDesc_trans' {R} (createdAt : R -> Time) :
  Transitive (createdDesc createdAt).
Proof. intros a b c. unfold createdDesc. lia. Qed.

Lemma orderByCreatedDesc_spec {R} (createdAt : R -> Time) (rows : list R) :
  orderByCreatedDesc createdAt rows ≡ₚ rows /\
  StronglySorted (fun a b => createdAt b <= createdAt a)
    (orderByCreatedDesc createdAt rows).
Proof.
  unfold orderByCreatedDesc. split; [apply merge_sort_Permutation|].
  apply (StronglySorted_merge_sort (createdDesc createdAt)).
Qed.

(** X3. [getHandoffsForWorkspace] without a status (or with the empty
    string) lists exactly the handoffs of the workspace, and with a status
    label exactly those of them in that status: each such row once for
    each time the table holds it, newest first. A status that is not empty
    and not a label is an error of the database. *)
Theorem getHandoffsForWorkspace_listing d workspaceId status :
  (status = None \/ status = Some "" ->
   exists l,
     getHandoffsForWorkspace d workspaceId status = inr l /\
     l ≡ₚ List.filter (fun h => String.eqb (Handoff.workspaceId h) workspaceId) (handoffs d) /\
     (forall h, h ∈ l <-> h ∈ handoffs d /\ Handoff.workspaceId h = workspaceId) /\
     StronglySorted (fun a b => Handoff.createdAt b <= Handoff.createdAt a) l) /\
  (forall s, castStatus (JStr <$> status) = Some s ->
   exists l,
     getHandoffsForWorkspace d workspaceId status = inr l /\
     l ≡ₚ List.filter (fun h => String.eqb (Handoff.workspaceId h) workspaceId
                                && bool_decide (Handoff.status h = s)) (handoffs d) /\
     (forall h, h ∈ l <->
        h ∈ handoffs d /\ Handoff.workspaceId h = workspaceId /\ Handoff.status h = s) /\
     StronglySorted (fun a b => Handoff.createdAt b <= Handoff.createdAt a) l) /\
  (forall x, status = Some x -> x <> "" -> castStatus (Some (JStr x)) = None ->
   getHandoffsForWorkspace d workspaceId status = inl DatabaseError).
Proof.
  split; [|split].
  - intros Hs. eexists. split.
    { unfold getHandoffsForWorkspace. by destruct Hs as [->| ->]. }
    destruct (orderByCreatedDesc_spec Handoff.createdAt
                (List.filter (fun h => String.eqb (Handoff.workspaceId h) workspaceId)
                   (handoffs d))) as [Hperm Hsorted].
    split; [done|]. split; [|done].
    intros h. rewrite Hperm, list_elem_of_In, filter_In, <- list_elem_of_In, String.eqb_eq.
    done.
  - intros s Hcast.
    assert (truthy (JStr <$> status) = true) as Ht.
    { destruct status as [x|]; [|done]. destruct x; done. }
    eexists. split.
    { unfold getHandoffsForWorkspace. by rewrite Ht, Hcast. }
    destruct (orderByCreatedDesc_spec Handoff.createdAt
                (List.filter (fun h => String.eqb (Handoff.workspaceId h) workspaceId
                                       && bool_decide (Handoff.status h = s))
                   (handoffs d))) as [Hperm Hsorted].
    split; [done|]. split; [|done].
    intros h. rewrite Hperm, list_elem_of_In, filter_In, <- list_elem_of_In,
      andb_true_iff, String.eqb_eq, bool_decide_eq_true.
    done.
  - intros x -> Hx Hcast. unfold getHandoffsForWorkspace.
    assert (truthy (JStr <$> Some x) = true) as ->.
    { cbn. apply negb_true_iff. by apply String.eqb_neq. }
    cbn [fmap option_fmap option_map]. by rewrite Hcast.
Qed.

(** X4. A listing of a channel with a limit from zero up to, and not
    including, [2^63] returns the newest messages of the channel, as many
    as the limit allows, oldest first: no message of the channel that is
    left out is newer than one that is returned. With a negative limit the
    query has no limit at all, and the listing is every message of the
    channel, oldest first. From [2^63] on the limit is out of the range of
    the database, and the call throws. *)
Theorem getMessagesForChannel_newest d channelId limit before :
  ((2 ^ 63 <= limit)%Z ->
   getMessagesForChannel d channelId limit before = inl DatabaseError) /\
  ((0 <= limit < 2 ^ 63)%Z ->
   exists result,
     getMessagesForChannel d channelId limit before = inr result /\
     length result
     = min (Z.to_nat limit)
           (length (List.filter (fun m => String.eqb (Message.channelId m) channelId)
                                (messages d))) /\
     Sorted (fun a b => Message.createdAt a <= Message.createdAt b) result /\
     (forall m, m ∈ result -> m ∈ messages d /\ Message.channelId m = channelId) /\
     (forall m m', m ∈ result ->
        m' ∈ messages d -> Message.channelId m' = channelId -> m' ∉ result ->
        Message.createdAt m' <= Message.createdAt m)) /\
  ((limit < 0)%Z ->
   exists result,
     getMessagesForChannel d channelId limit before = inr result /\
     result ≡ₚ List.filter (fun m => String.eqb (Message.channelId m) channelId)
                 (messages d) /\
     Sorted (fun a b => Message.createdAt a <= Message.createdAt b) result).
Proof.
  set (rows := List.filter (fun m => String.eqb (Message.channelId m) channelId)
                           (messages d)).
  set (sorted := orderByCreatedDesc Message.createdAt rows).
  destruct (orderByCreatedDesc_spec Message.createdAt rows) as [Hperm Hss].
  fold sorted in Hperm, Hss.
  split; [|split].
  - intros Hbig. unfold getMessagesForChannel. cbv zeta.
    assert ((limit <? 0)%Z = false) as -> by (apply Z.ltb_ge; lia).
    by rewrite (proj2 (Z.leb_le _ _) Hbig).
  - intros [Hpos Hsmall].
    assert ((limit <? 0)%Z = false) as Hlt by (apply Z.ltb_ge; lia).
    assert ((2 ^ 63 <=? limit)%Z = false) as Hle by (apply Z.leb_gt; lia).
    exists (reverse (take (Z.to_nat limit) sorted)).
    assert (getMessagesForChannel d channelId limit before
            = inr (reverse (take (Z.to_nat limit) sorted))) as Hrun.
    { unfold getMessagesForChannel. cbv zeta. by rewrite Hlt, Hle. }
    destruct (getMessagesForChannel_chronological _ _ _ _ _ Hrun) as (_ & Hin & Hsorted).
    split; [done|]. split; [|split; [done|split; [done|]]].
    + rewrite length_reverse, length_take. f_equal. by rewrite Hperm.
    + intros m m' Hm Hm' Hc Hout. rewrite elem_of_reverse in Hm, Hout.
      assert (m' ∈ sorted) as Hs.
      { rewrite Hperm. unfold rows. apply list_elem_of_In, filter_In.
        split; [by apply list_elem_of_In|by apply String.eqb_eq]. }
      rewrite <- (take_drop (Z.to_nat limit) sorted) in Hs, Hss.
      apply elem_of_app in Hs as [Hs|Hs]; [done|].
      exact (StronglySorted_app_1_elem_of _ _ _ _ _ Hss Hm Hs).
  - intros Hneg. exists (reverse sorted).
    assert (getMessagesForChannel d channelId limit before = inr (reverse sorted)) as Hrun.
    { unfold getMessagesForChannel. cbv zeta. by rewrite (proj2 (Z.ltb_lt _ _) Hneg). }
    destruct (getMessagesForChannel_chronological _ _ _ _ _ Hrun) as (_ & _ & Hsorted).
    split; [done|]. split; [|done]. by rewrite reverse_Permutation.
Qed.

End StorageListings.

(** Discharges the check of the text columns from the hypotheses at hand. *)
Ltac accepted :=
  unfold accepts; cbn [forallb nullableText];
  repeat match goal with
         | H : validText _ = true |- _ => rewrite H
         | H : nullableText _ = true |- _ => rewrite H
         end;
  cbn [andb].

Section StorageInserts.

Implicit Types (d : Db).

Lemma insertRow_fresh {R} (pk : R -> string) row (rows : list R) :
  (forall r, r ∈ rows -> pk r <> pk row) ->
  insertRow pk row rows = inr (rows ++ [row])%list.
Proof.
  intros Hfresh. unfold insertRow.
  destruct (existsb _ _) eqn:E; [|done]. exfalso.
  apply existsb_exists in E as (x & Hx & Heq%String.eqb_eq).
  apply list_elem_of_In, list_elem_of_fmap in Hx as (r & -> & Hr).
  by apply (Hfresh r Hr).
Qed.

Lemma insertRow_taken {R} (pk : R -> string) row (rows : list R) r :
  r ∈ rows -> pk r = pk row -> insertRow pk row rows = inl DatabaseError.
Proof.
  intros Hr Heq. unfold insertRow.
  assert (existsb (String.eqb (pk row)) (pk <$> rows) = true) as ->; [|done].
  apply existsb_exists. exists (pk r). split.
  - apply list_elem_of_In. by apply list_elem_of_fmap_2.
  - by apply String.eqb_eq.
Qed.

Lemma filter_key_none {R} (f : R -> string) (rows : list R) k :
  (forall r, r ∈ rows -> f r <> k) ->
  List.filter (fun r => String.eqb (f r) k) rows = [].
Proof.
  intros H. induction rows as [|x rows IH]; [done|]. cbn [List.filter].
  assert (String.eqb (f x) k = false) as ->.
  { apply String.eqb_neq, H. left. }
  apply IH. intros r Hr. apply H. by right.
Qed.

(** Looking up by a key after appending a row: the appended row when the
    key is its own and no earlier row has it, the earlier result when the
    key is another. *)
Lemma lookup_appended {R} (f : R -> string) (rows : list R) row :
  (forall r, r ∈ rows -> f r <> f row) ->
  head (List.filter (fun r => String.eqb (f r) (f row)) (rows ++ [row])) = Some row /\
  (forall k, k <> f row ->
     List.filter (fun r => String.eqb (f r) k) (rows ++ [row])
     = List.filter (fun r => String.eqb (f r) k) rows).
Proof.
  intros Hfresh. split.
  - rewrite List.filter_app, (filter_key_none f rows (f row) Hfresh).
    cbn [List.filter app]. by rewrite String.eqb_refl.
  - intros k Hk. rewrite List.filter_app. cbn [List.filter].
    assert (String.eqb (f row) k = false) as ->; [|by rewrite app_nil_r].
    apply String.eqb_neq. congruence.
Qed.

(** X5. [createChannel] of a workspace id, a name and a description that
    are text, with an id that is free, returns the new channel, which
    carries the fields of the insert; the channel is then found by its id
    and is the last of its workspace's listing; every other lookup and
    listing, and every other table, is as before. With an id that is
    taken, or with a name or description that holds the NUL character,
    nothing is created. *)
Theorem createChannel_then_lookup uuid now d c :
  (validText (InsertChannel.workspaceId c) = true ->
   validText (InsertChannel.name c) = true ->
   nullableText (InsertChannel.description c) = true ->
   (forall r, r ∈ Storage.channels d -> Channel.id r <> uuid) ->
   exists d',
     let row := Channel.mk uuid (InsertChannel.workspaceId c) (InsertChannel.name c)
                  (InsertChannel.description c) (InsertChannel.isPrivate c) now in
     createChannel uuid now d c = inr (row, d') /\
     getChannel d' uuid = Some row /\
     (forall id, id <> uuid -> getChannel d' id = getChannel d id) /\
     getChannelsForWorkspace d' (InsertChannel.workspaceId c)
     = (getChannelsForWorkspace d (InsertChannel.workspaceId c) ++ [row])%list /\
     (forall ws, ws <> InsertChannel.workspaceId c ->
        getChannelsForWorkspace d' ws = getChannelsForWorkspace d ws) /\
     Storage.withChannels d' (Storage.channels d) = d) /\
  (forall r, r ∈ Storage.channels d -> Channel.id r = uuid ->
   createChannel uuid now d c = inl DatabaseError) /\
  (validText (InsertChannel.name c) = false \/
   nullableText (InsertChannel.description c) = false ->
   createChannel uuid now d c = inl DatabaseError).
Proof.
  split; [|split].
  - intros Hw Hn Hd Hfresh. eexists. cbv zeta. unfold createChannel. cbv zeta. accepted.
    rewrite insertRow_fresh by done. split; [done|].
    destruct (lookup_appended Channel.id (Storage.channels d)
                (Channel.mk uuid (InsertChannel.workspaceId c) (InsertChannel.name c)
                   (InsertChannel.description c) (InsertChannel.isPrivate c) now) Hfresh)
      as [Hnew Hold].
    split; [exact Hnew|]. split; [|split; [|split]].
    + intros id Hid. unfold getChannel. cbn [Storage.channels Storage.withChannels].
      by rewrite (Hold id Hid).
    + unfold getChannelsForWorkspace. cbn [Storage.channels Storage.withChannels].
      rewrite List.filter_app. cbn [List.filter Channel.workspaceId].
      by rewrite String.eqb_refl.
    + intros ws Hws. unfold getChannelsForWorkspace. cbn [Storage.channels Storage.withChannels].
      rewrite List.filter_app. cbn [List.filter Channel.workspaceId].
      assert (String.eqb (InsertChannel.workspaceId c) ws = false) as ->.
      { apply String.eqb_neq. congruence. }
      by rewrite app_nil_r.
    + by destruct d.
  - intros r Hr Hid. unfold createChannel. cbv zeta.
    erewrite insertRow_taken; [by destruct (accepts _)|exact Hr|exact Hid].
  - intros Hbad. unfold createChannel, accepts. cbv zeta. cbn [forallb nullableText].
    destruct Hbad as [-> | ->]; by rewrite ?andb_false_r.
Qed.

(** X6. A message whose columns are text, created with a free id and at a
    time later than every message of its channel, is found by its id, and
    it is the last message of every listing of the channel whose limit is
    not zero and below [2^63], whatever the cursor. *)
Theorem createMessage_then_listed_last uuid now d m limit before :
  validText (InsertMessage.channelId m) = true ->
  validText (InsertMessage.authorType m) = true ->
  nullableText (InsertMessage.authorId m) = true ->
  validText (InsertMessage.content m) = true ->
  (forall r, r ∈ messages d -> Message.id r <> uuid) ->
  (forall r, r ∈ messages d -> Message.channelId r = InsertMessage.channelId m ->
             Message.createdAt r < now) ->
  (limit <> 0)%Z -> (limit < 2 ^ 63)%Z ->
  exists row d' earlier,
    createMessage uuid now d m = inr (row, d') /\
    row = Message.mk uuid (InsertMessage.channelId m) (InsertMessage.authorType m)
            (InsertMessage.authorId m) (InsertMessage.content m)
            (InsertMessage.messageType m) now /\
    getMessage d' uuid = Some row /\
    getMessagesForChannel d' (InsertMessage.channelId m) limit before
    = inr (earlier ++ [row])%list.
Proof.
  intros Hc Hty Hau Hco Hfresh Hlater Hlimit Hsmall.
  set (row := Message.mk uuid (InsertMessage.channelId m) (InsertMessage.authorType m)
                (InsertMessage.authorId m) (InsertMessage.content m)
                (InsertMessage.messageType m) now).
  set (old := List.filter
                (fun r => String.eqb (Message.channelId r) (InsertMessage.channelId m))
                (messages d)).
  set (sorted := orderByCreatedDesc Message.createdAt (old ++ [row])).
  destruct (orderByCreatedDesc_spec Message.createdAt (old ++ [row])%list) as [Hperm Hss].
  fold sorted in Hperm, Hss.
  assert (forall r, r ∈ old -> Message.createdAt r < now) as Hold.
  { intros r Hr. unfold old in Hr.
    apply list_elem_of_In, filter_In in Hr as [Hr%list_elem_of_In He%String.eqb_eq].
    by apply Hlater. }
  assert (exists rest, sorted = row :: rest) as [rest Hsorted].
  { destruct sorted as [|x rest] eqn:E.
    - apply Permutation_nil_l in Hperm. by destruct old.
    - assert (row ∈ x :: rest) as Hrow.
      { rewrite Hperm. apply elem_of_app. right. by left. }
      assert (x ∈ (old ++ [row])%list) as Hx.
      { rewrite <- Hperm. by left. }
      apply elem_of_app in Hx as [Hx|Hx%list_elem_of_singleton]; [|subst x; by eexists].
      exfalso. specialize (Hold x Hx).
      apply elem_of_cons in Hrow as [Heq|Hrow].
      + subst x. cbn in Hold. lia.
      + apply StronglySorted_cons in Hss as [Hall _].
        rewrite Forall_forall in Hall. specialize (Hall row Hrow). cbn in Hall. lia. }
  exists row, (Storage.withMessages d (messages d ++ [row])%list),
         (if (limit <? 0)%Z then reverse rest
          else reverse (take (Z.to_nat limit - 1) rest)).
  split; [|split; [done|split]].
  - unfold createMessage. cbv zeta. accepted. fold row. by rewrite insertRow_fresh.
  - unfold getMessage. cbn [messages Storage.withMessages].
    destruct (lookup_appended Message.id (messages d) row Hfresh) as [Hnew _].
    exact Hnew.
  - unfold getMessagesForChannel.
    cbn [messages Storage.withMessages]. cbv zeta.
    rewrite List.filter_app. cbn [List.filter]. fold old.
    change (Message.channelId row) with (InsertMessage.channelId m).
    rewrite String.eqb_refl. fold sorted. rewrite Hsorted.
    destruct (Z.ltb_spec limit 0) as [Hneg|Hpos].
    + by rewrite reverse_cons.
    + assert ((2 ^ 63 <=? limit)%Z = false) as -> by (apply Z.leb_gt; lia).
      f_equal. destruct (Z.to_nat limit) as [|n] eqn:En; [lia|].
      cbn [take]. rewrite reverse_cons. replace (S n - 1) with n by lia. done.
Qed.

End StorageInserts.

Lemma createMessage_then_listed_last_witness :
  validText (InsertMessage.channelId lateMessage) = true /\
  validText (InsertMessage.authorType lateMessage) = true /\
  nullableText (InsertMessage.authorId lateMessage) = true /\
  validText (InsertMessage.content lateMessage) = true /\
  (forall r, r ∈ messages demoDb -> Message.id r <> "m9") /\
  (forall r, r ∈ messages demoDb ->
     Message.channelId r = InsertMessage.channelId lateMessage -> Message.createdAt r < 9) /\
  (2 <> 0)%Z /\ (2 < 2 ^ 63)%Z /\
  exists d' earlier,
    createMessage "m9" 9 demoDb lateMessage
    = inr (Message.mk "m9" "c1" "human" (Some "u1") "late" TEXT 9, d') /\
    getMessagesForChannel d' "c1" 2 (Some "m1")
    = inr (earlier ++ [Message.mk "m9" "c1" "human" (Some "u1") "late" TEXT 9])%list.
Proof.
  assert (forall r, r ∈ messages demoDb -> Message.id r <> "m9") as Hfresh.
  { intros r Hr. simpl in Hr.
    repeat (apply elem_of_cons in Hr as [->|Hr]); try discriminate.
    by apply elem_of_nil in Hr. }
  assert (forall r, r ∈ messages demoDb ->
            Message.channelId r = InsertMessage.channelId lateMessage ->
            Message.createdAt r < 9) as Hlater.
  { intros r Hr _. simpl in Hr.
    repeat (apply elem_of_cons in Hr as [->|Hr]); try (simpl; lia).
    by apply elem_of_nil in Hr. }
  assert (2 <> 0)%Z as Hlimit by lia.
  assert (2 < 2 ^ 63)%Z as Hsmall by lia.
  do 4 (split; [reflexivity|]).
  split; [exact Hfresh|]. split; [exact Hlater|]. split; [exact Hlimit|].
  split; [exact Hsmall|].
  destruct (createMessage_then_listed_last "m9" 9 demoDb lateMessage 2 (Some "m1")
              eq_refl eq_refl eq_refl eq_refl Hfresh Hlater Hlimit Hsmall)
    as (row & d' & earlier & Hcreate & -> & _ & Hlist).
  exists d', earlier. split; [exact Hcreate|exact Hlist].
Defined.

Section StorageMembership.

Implicit Types (d : Db).

(** X7. [addWorkspaceMember] of ids and a role that are text, with a free
    id, makes the human a member of the workspace, with the role of the
    insert or [member] when it gives none; it takes no membership away, and
    it gives no membership to any other pair of workspace and human. *)
Theorem addWorkspaceMember_grants uuid now d member :
  validText (InsertWorkspaceMember.workspaceId member) = true ->
  validText (InsertWorkspaceMember.humanId member) = true ->
  nullableText (InsertWorkspaceMember.role member) = true ->
  (forall r, r ∈ workspaceMembers d -> WorkspaceMember.id r <> uuid) ->
  exists row d',
    addWorkspaceMember uuid now d member = inr (row, d') /\
    WorkspaceMember.role row = default "member" (InsertWorkspaceMember.role member) /\
    is_Some (getWorkspaceMember d' (InsertWorkspaceMember.workspaceId member)
               (InsertWorkspaceMember.humanId member)) /\
    (forall ws h, isMember d ws h -> isMember d' ws h) /\
    (forall ws h,
       (ws, h) <> (InsertWorkspaceMember.workspaceId member,
                   InsertWorkspaceMember.humanId member) ->
       isMember d' ws h -> isMember d ws h) /\
    withWorkspaceMembers d' (workspaceMembers d) = d.
Proof.
  intros Htw Hth Htr Hfresh.
  set (row := WorkspaceMember.mk uuid (InsertWorkspaceMember.workspaceId member)
                (InsertWorkspaceMember.humanId member)
                (default "member" (InsertWorkspaceMember.role member)) now).
  exists row, (withWorkspaceMembers d (workspaceMembers d ++ [row])%list).
  split; [|split; [done|split; [|split; [|split]]]].
  - unfold addWorkspaceMember. cbv zeta. accepted. fold row. by rewrite insertRow_fresh.
  - apply getWorkspaceMember_isMember. exists row. split; [|done].
    cbn [workspaceMembers withWorkspaceMembers]. apply elem_of_app. right. by left.
  - intros ws h (r & Hr & H1 & H2). exists r. split; [|done].
    cbn [workspaceMembers withWorkspaceMembers]. apply elem_of_app. by left.
  - intros ws h Hne (r & Hr & H1 & H2).
    cbn [workspaceMembers withWorkspaceMembers] in Hr.
    apply elem_of_app in Hr as [Hr|Hr%list_elem_of_singleton]; [by exists r|].
    subst r. cbn in H1, H2. exfalso. apply Hne. by rewrite H1, H2.
  - by destruct d.
Qed.

Lemma filter_nothing {A} (p : A -> bool) (l : list A) :
  (forall x, x ∈ l -> p x = false) -> List.filter p l = [].
Proof.
  induction l as [|x l IH]; [done|]. intros H. cbn [List.filter].
  rewrite (H x) by left. apply IH. intros y Hy. apply H. by right.
Qed.

Lemma list_filter_sublist {A} (p : A -> bool) (l : list A) :
  List.filter p l `sublist_of` l.
Proof.
  induction l as [|x l IH]; [done|]. cbn [List.filter].
  destruct (p x); [by apply sublist_skip|by apply sublist_cons].
Qed.

(** X8. [getWorkspacesForHuman] returns exactly the workspaces the human
    has a membership row for, in the order of the workspaces table and
    each no more often than that table holds it, however many membership
    rows there are; and nothing when the human has none. *)
Theorem getWorkspacesForHuman_memberships workspaces d humanId :
  (forall w, w ∈ getWorkspacesForHuman workspaces d humanId <->
             w ∈ workspaces /\ isMember d (Workspace.id w) humanId) /\
  getWorkspacesForHuman workspaces d humanId `sublist_of` workspaces /\
  ((forall ws, ~ isMember d ws humanId) ->
   getWorkspacesForHuman workspaces d humanId = []).
Proof.
  set (rows := List.filter (fun m => String.eqb (WorkspaceMember.humanId m) humanId)
                 (workspaceMembers d)).
  assert (forall ws, isMember d ws humanId <->
            existsb (String.eqb ws) (WorkspaceMember.workspaceId <$> rows) = true) as Hmem.
  { intros ws. rewrite existsb_exists. unfold isMember, rows. split.
    - intros (m & Hm & H1 & H2). exists (WorkspaceMember.workspaceId m). split.
      + apply list_elem_of_In, list_elem_of_fmap_2, list_elem_of_In, filter_In.
        split; [by apply list_elem_of_In|by apply String.eqb_eq].
      + by apply String.eqb_eq.
    - intros (x & Hx & Heq%String.eqb_eq).
      apply list_elem_of_In, list_elem_of_fmap in Hx as (m & -> & Hm).
      apply list_elem_of_In, filter_In in Hm as [Hm%list_elem_of_In H2%String.eqb_eq].
      by exists m. }
  assert (getWorkspacesForHuman workspaces d humanId
          = List.filter (fun w => existsb (String.eqb (Workspace.id w))
                                    (WorkspaceMember.workspaceId <$> rows)) workspaces)
    as Heq.
  { unfold getWorkspacesForHuman. cbv zeta. fold rows.
    destruct (Nat.eqb _ 0) eqn:E; [|done].
    apply Nat.eqb_eq, nil_length_inv in E. rewrite E. cbn [existsb].
    induction workspaces as [|w l IH]; [done|]. done. }
  split; [|split].
  - intros w. rewrite Heq, list_elem_of_In, filter_In, <- list_elem_of_In, Hmem. done.
  - rewrite Heq. apply list_filter_sublist.
  - intros Hnone. rewrite Heq. apply filter_nothing.
    intros w _. destruct (existsb _ _) eqn:E; [|done].
    apply Hmem in E. by apply Hnone in E.
Qed.

End StorageMembership.

Lemma addWorkspaceMember_grants_witness :
  validText "w2" = true /\ validText "u1" = true /\ nullableText None = true /\
  (forall r, r ∈ workspaceMembers demoDb -> WorkspaceMember.id r <> "wm2") /\
  exists row d',
    addWorkspaceMember "wm2" 5 demoDb (InsertWorkspaceMember.mk "w2" "u1" None)
    = inr (row, d') /\
    WorkspaceMember.role row = "member" /\
    is_Some (getWorkspaceMember d' "w2" "u1").
Proof.
  assert (forall r, r ∈ workspaceMembers demoDb -> WorkspaceMember.id r <> "wm2") as Hfresh.
  { intros r Hr. simpl in Hr. apply list_elem_of_singleton in Hr as ->. discriminate. }
  do 3 (split; [reflexivity|]). split; [exact Hfresh|].
  destruct (addWorkspaceMember_grants "wm2" 5 demoDb
              (InsertWorkspaceMember.mk "w2" "u1" None) eq_refl eq_refl eq_refl Hfresh)
    as (row & d' & Hadd & Hrole & Hmember & _).
  exists row, d'. split; [exact Hadd|]. split; [exact Hrole|exact Hmember].
Defined.

(* ===================================================================== *)
(** ** Further properties of the authentication                           *)
(* ===================================================================== *)

Section AuthenticationMore.

Variable jwtVerify : string -> option JwtPayload.
Variable toText : Js.value -> string.
Variable toBool : Js.value -> option bool.

Implicit Types (d : Db) (headers : Headers) (req : AuthRequest).

Lemma insertUnique_fresh {R} (pk uq : R -> string) row (rows : list R) :
  (forall r, r ∈ rows -> pk r <> pk row) ->
  (forall r, r ∈ rows -> uq r <> uq row) ->
  insertUnique pk uq row rows = inr (rows ++ [row])%list.
Proof.
  intros Hpk Huq. unfold insertUnique.
  destruct (existsb _ _) eqn:E; [|by apply insertRow_fresh]. exfalso.
  apply existsb_exists in E as (x & Hx & Heq%String.eqb_eq).
  apply list_elem_of_In, list_elem_of_fmap in Hx as (r & -> & Hr).
  by apply (Huq r Hr).
Qed.

Lemma insertUnique_taken {R} (pk uq : R -> string) row (rows : list R) r :
  r ∈ rows -> uq r = uq row -> insertUnique pk uq row rows = inl DatabaseError.
Proof.
  intros Hr Heq. unfold insertUnique.
  assert (existsb (String.eqb (uq row)) (uq <$> rows) = true) as ->; [|done].
  apply existsb_exists. exists (uq r). split.
  - apply list_elem_of_In. by apply list_elem_of_fmap_2.
  - by apply String.eqb_eq.
Qed.

Lemma substring_all (s : string) : String.substring 0 (String.length s) s = s.
Proof. induction s as [|c s IH]; [done|]. cbn. by rewrite IH. Qed.

Lemma prefix_split (p h : string) :
  String.prefix p h = true ->
  h = p ++ String.substring (String.length p) (String.length h - String.length p) h.
Proof.
  revert h. induction p as [|c p IH]; intros h Hp.
  { change ("" ++ ?x) with x. cbn [String.length]. rewrite Nat.sub_0_r.
    by rewrite substring_all. }
  destruct h as [|x h]; [done|]. cbn [String.prefix] in Hp.
  destruct (Ascii.ascii_dec c x) as [->|]; [|done].
  cbn [String.length String.substring Nat.sub].
  change (String x h = String x (p ++ String.substring (String.length p)
                                   (String.length h - String.length p) h)).
  f_equal. by apply IH.
Qed.

Lemma substring_after (p s : string) :
  String.substring (String.length p) (String.length (p ++ s) - String.length p) (p ++ s) = s.
Proof.
  induction p as [|c p IH].
  - change ("" ++ s) with s. cbn [String.length]. rewrite Nat.sub_0_r. apply substring_all.
  - change (String c p ++ s) with (String c (p ++ s)).
    cbn [String.length String.substring Nat.sub]. exact IH.
Qed.

Lemma prefix_app (p s : string) : String.prefix p (p ++ s) = true.
Proof.
  induction p as [|c p IH]; [by destruct s|].
  change (String c p ++ s) with (String c (p ++ s)). cbn [String.prefix].
  by destruct (Ascii.ascii_dec c c).
Qed.

(** X9. [createAgent] of columns that are text, with a free id and an API
    key no agent has, returns the agent, active unless the insert says
    otherwise and never seen; the agent is then the one its key finds, and
    the keys stay unique. When the key is [sk_]-prefixed and the agent
    active, a request that presents the key authenticates as that agent,
    whatever its [Authorization] header. A key that is taken creates
    nothing, and neither does a column that holds the NUL character. *)
Theorem createAgent_then_authenticate uuid now d agent :
  (accepts [Some (InsertAgent.workspaceId agent); Some (InsertAgent.name agent);
            InsertAgent.description agent; Some (InsertAgent.apiKey agent);
            InsertAgent.avatarUrl agent] = true ->
   (forall r, r ∈ agents d -> Agent.id r <> uuid) ->
   (forall r, r ∈ agents d -> Agent.apiKey r <> InsertAgent.apiKey agent) ->
   exists a d',
     createAgent uuid now d agent = inr (a, d') /\
     a = Agent.mk uuid (InsertAgent.workspaceId agent) (InsertAgent.name agent)
           (InsertAgent.description agent) (InsertAgent.apiKey agent)
           (InsertAgent.avatarUrl agent) (default true (InsertAgent.isActive agent))
           None now /\
     getAgentByApiKey d' (InsertAgent.apiKey agent) = Some a /\
     getAgent d' uuid = Some a /\
     (apiKeysUnique d -> apiKeysUnique d') /\
     (String.prefix "sk_" (InsertAgent.apiKey agent) = true ->
      Agent.isActive a = true ->
      forall t bearer req,
        authenticateAny jwtVerify t d' (mkHeaders (Some (InsertAgent.apiKey agent)) bearer) req
        = (inr (mkReq (user req) (Some a) (Some AuthAgent)),
           updateAgentLastSeen t d' uuid))) /\
  (forall r, r ∈ agents d -> Agent.apiKey r = InsertAgent.apiKey agent ->
   createAgent uuid now d agent = inl DatabaseError) /\
  (accepts [Some (InsertAgent.workspaceId agent); Some (InsertAgent.name agent);
            InsertAgent.description agent; Some (InsertAgent.apiKey agent);
            InsertAgent.avatarUrl agent] = false ->
   createAgent uuid now d agent = inl DatabaseError) /\
  (forall hex, String.prefix "sk_" (generateApiKey hex) = true).
Proof.
  split; [|split; [|split]].
  - intros Htext Hid Hkey.
    set (a := Agent.mk uuid (InsertAgent.workspaceId agent) (InsertAgent.name agent)
                (InsertAgent.description agent) (InsertAgent.apiKey agent)
                (InsertAgent.avatarUrl agent) (default true (InsertAgent.isActive agent))
                None now).
    exists a, (withAgents d (agents d ++ [a])%list).
    assert (getAgentByApiKey (withAgents d (agents d ++ [a])%list) (InsertAgent.apiKey agent)
            = Some a) as Hfind.
    { unfold getAgentByApiKey. cbn [agents withAgents].
      by destruct (lookup_appended Agent.apiKey (agents d) a Hkey) as [Hnew _]. }
    split; [|split; [done|split; [done|split; [|split]]]].
    + unfold createAgent. cbv zeta. rewrite Htext. fold a. by rewrite insertUnique_fresh.
    + unfold getAgent. cbn [agents withAgents].
      by destruct (lookup_appended Agent.id (agents d) a Hid) as [Hnew _].
    + unfold apiKeysUnique. cbn [agents withAgents]. intros Hnd.
      rewrite fmap_app. apply NoDup_app. split; [done|]. split.
      * intros k (r & -> & Hr)%list_elem_of_fmap Hin.
        apply list_elem_of_singleton in Hin. by apply (Hkey r Hr).
      * apply NoDup_singleton.
    + intros Hpre Hon t bearer req. unfold authenticateAny.
      cbn [xAgentKey]. rewrite (keyShaped_prefix _ Hpre).
      unfold authenticateAgent. cbn [xAgentKey]. rewrite (keyShaped_prefix _ Hpre).
      cbn [negb]. change (default "" (Some (InsertAgent.apiKey agent)))
        with (InsertAgent.apiKey agent).
      rewrite Hfind, Hon. done.
  - intros r Hr Hk. unfold createAgent. cbv zeta.
    erewrite insertUnique_taken; [by destruct (accepts _)|exact Hr|exact Hk].
  - intros Hbad. unfold createAgent. cbv zeta. by rewrite Hbad.
  - intros hex. apply prefix_app.
Qed.

(** When [authenticateHuman] lets a request through. *)
Lemma authenticateHuman_passes d headers req req' :
  authenticateHuman jwtVerify d headers req = inr req' ->
  exists token hid human,
    authorization headers = Some ("Bearer " ++ token) /\
    jwtVerify token = Some (mkPayload (Some hid)) /\ hid <> "" /\
    getHumanById d hid = Some human /\ Human.id human = hid /\ human ∈ humans d /\
    req' = mkReq (Some human) (agent req) (Some AuthHuman).
Proof.
  unfold authenticateHuman, verifyToken, bearerShaped.
  destruct (authorization headers) as [h|]; [|done].
  destruct (String.eqb h "") eqn:Hempty; [done|]. cbn [negb andb].
  destruct (String.prefix "Bearer " h) eqn:Hpre; [|done]. cbn [negb].
  destruct (jwtVerify _) as [[[hid|]]|] eqn:Hjwt; [|done..]. cbn [humanId].
  destruct (String.eqb hid "") eqn:Hhid; [done|].
  destruct (getHumanById d hid) as [human|] eqn:Hhuman; [|done].
  intros [= <-]. exists (String.substring 7 (String.length h - 7) h), hid, human.
  apply head_filter_Some in Hhuman as Hin. destruct Hin as [Hin Hid%String.eqb_eq].
  split; [f_equal; exact (prefix_split "Bearer " h Hpre)|].
  split; [done|]. split; [by apply String.eqb_neq|]. done.
Qed.

Lemma authenticateHuman_401 d headers req response :
  authenticateHuman jwtVerify d headers req = inl response -> code response = 401.
Proof. unfold authenticateHuman. repeat case_match; intros [= <-]; done. Qed.

(** When [authenticateAny] lets a request through. *)
Lemma authenticateAny_passes now d headers req req' d' :
  authenticateAny jwtVerify now d headers req = (inr req', d') ->
  (exists a, req' = mkReq (user req) (Some a) (Some AuthAgent) /\
             a ∈ agents d /\ Agent.isActive a = true /\
             xAgentKey headers = Some (Agent.apiKey a) /\
             d' = updateAgentLastSeen now d (Agent.id a)) \/
  (exists u, req' = mkReq (Some u) (agent req) (Some AuthHuman) /\
             u ∈ humans d /\ d' = d).
Proof.
  unfold authenticateAny, authenticateAgent.
  destruct (keyShaped (xAgentKey headers)) eqn:Hshape.
  - cbn [negb]. destruct (getAgentByApiKey _ _) as [a|] eqn:Hfind; [|done].
    destruct (Agent.isActive a) eqn:Hon; cbn [negb]; [|done].
    intros [= <- <-]. left. exists a.
    apply head_filter_Some in Hfind as [Hin Hk%String.eqb_eq].
    destruct (xAgentKey headers) as [k|]; [|done]. cbn in Hk. subst k. done.
  - destruct (bearerShaped _); [|done]. intros [= H <-]. right.
    destruct (authenticateHuman_passes _ _ _ _ H)
      as (token & hid & human & _ & _ & _ & _ & _ & Hin & ->).
    by exists human.
Qed.

Lemma authenticateAny_rejects now d headers req response d' :
  authenticateAny jwtVerify now d headers req = (inl response, d') ->
  d' = d /\ (code response = 401 \/ code response = 403).
Proof.
  unfold authenticateAny, authenticateAgent.
  destruct (keyShaped (xAgentKey headers)).
  - cbn [negb]. destruct (getAgentByApiKey _ _) as [a|]; [|intros [= <- <-]; auto].
    destruct (Agent.isActive a); cbn [negb]; [done|]. intros [= <- <-]. auto.
  - destruct (bearerShaped _); [|intros [= <- <-]; auto].
    intros [= H <-]. split; [done|]. left. by apply (authenticateHuman_401 _ _ _ _ H).
Qed.

(** X10. [authenticateHuman] passes exactly when the [Authorization] header
    is [Bearer ] followed by a token that verifies to a payload with a
    non-empty [humanId] of an existing human; the request then carries that
    human, whose id is the [humanId] of the token. Every other request is
    answered 401. *)
Theorem authenticateHuman_outcome d headers req :
  (forall req', authenticateHuman jwtVerify d headers req = inr req' ->
     exists token hid human,
       authorization headers = Some ("Bearer " ++ token) /\
       jwtVerify token = Some (mkPayload (Some hid)) /\ hid <> "" /\
       getHumanById d hid = Some human /\ Human.id human = hid /\ human ∈ humans d /\
       req' = mkReq (Some human) (agent req) (Some AuthHuman)) /\
  (forall token hid human,
     authorization headers = Some ("Bearer " ++ token) ->
     jwtVerify token = Some (mkPayload (Some hid)) -> hid <> "" ->
     getHumanById d hid = Some human ->
     authenticateHuman jwtVerify d headers req
     = inr (mkReq (Some human) (agent req) (Some AuthHuman))) /\
  (forall response, authenticateHuman jwtVerify d headers req = inl response ->
     code response = 401).
Proof.
  split; [|split].
  - intros req'. apply authenticateHuman_passes.
  - intros token hid human Hh Hjwt Hhid Hhuman.
    unfold authenticateHuman, verifyToken, bearerShaped. rewrite Hh.
    change (String.eqb ("Bearer " ++ token) "") with false.
    rewrite (prefix_app "Bearer " token). cbn [negb andb].
    pose proof (substring_after "Bearer " token) as Hsub.
    change (String.length "Bearer ") with 7 in Hsub.
    rewrite Hsub, Hjwt. cbn [humanId].
    apply String.eqb_neq in Hhid. by rewrite Hhid, Hhuman.
  - intros response. apply authenticateHuman_401.
Qed.

(** X11. A request that [authenticateAny] turns away has written nothing
    and is answered 401 or 403. A request it lets through carries a
    principal of the kind it says: an active agent of the table whose key is
    the one presented, or a human of the table; the only write is the
    agent's [lastSeenAt]. *)
Theorem authenticateAny_outcome now d headers req :
  (forall response d',
     authenticateAny jwtVerify now d headers req = (inl response, d') ->
     d' = d /\ (code response = 401 \/ code response = 403)) /\
  (forall req' d',
     authenticateAny jwtVerify now d headers req = (inr req', d') ->
     (exists a, req' = mkReq (user req) (Some a) (Some AuthAgent) /\
                a ∈ agents d /\ Agent.isActive a = true /\
                xAgentKey headers = Some (Agent.apiKey a) /\
                d' = updateAgentLastSeen now d (Agent.id a)) \/
     (exists u, req' = mkReq (Some u) (agent req) (Some AuthHuman) /\
                u ∈ humans d /\ d' = d)).
Proof.
  split.
  - intros response d'. apply authenticateAny_rejects.
  - intros req' d'. apply authenticateAny_passes.
Qed.

(** A request that carries the principal its [authType] names never reads
    a property of [undefined]. *)
Lemma serve_no_TypeError env req r w :
  (authType req = Some AuthHuman -> is_Some (user req)) ->
  (authType req = Some AuthAgent -> is_Some (agent req)) ->
  fst (run (serve toText toBool env req r) w) <> Threw TypeError.
Proof.
  intros Hu Ha. destruct req as [u a [[|]|]]; cbn in Hu, Ha.
  - destruct (Hu eq_refl) as [u' ->].
    destruct r; run_route; unfold createChannel, createMessage, createHandoff,
      getMessagesForChannel, getHandoffsForWorkspace, updateHandoffStatus, insertRow;
      repeat (case_match; simplify_eq/=); done.
  - destruct (Ha eq_refl) as [a' ->].
    destruct r; run_route; unfold createChannel, createMessage, createHandoff,
      getMessagesForChannel, getHandoffsForWorkspace, updateHandoffStatus, insertRow;
      repeat (case_match; simplify_eq/=); done.
  - destruct r; run_route; unfold createChannel, createMessage, createHandoff,
      getMessagesForChannel, getHandoffsForWorkspace, updateHandoffStatus, insertRow;
      repeat (case_match; simplify_eq/=); done.
Qed.

(** X12. A request from the wire never ends in the [TypeError] of a
    missing principal: the routes read [req.user] and [req.agent] only
    where the middleware has set them. And a request the middleware turns
    away is answered by the middleware alone, with the world unchanged. *)
Theorem handle_never_TypeError env headers r w :
  fst (handle jwtVerify toText toBool env headers r w) <> Threw TypeError /\
  (forall response d',
     authenticateAny jwtVerify (now env) (db w) headers (mkReq None None None)
     = (inl response, d') ->
     handle jwtVerify toText toBool env headers r w = (Responded response, w)).
Proof.
  split.
  - unfold handle.
    destruct (authenticateAny _ _ _ _ _) as [[response|req'] d'] eqn:Hauth; [done|].
    apply serve_no_TypeError.
    + destruct (authenticateAny_passes _ _ _ _ _ _ Hauth)
        as [(a & -> & _)|(u & -> & _)]; [done|by eexists].
    + destruct (authenticateAny_passes _ _ _ _ _ _ Hauth)
        as [(a & -> & _)|(u & -> & _)]; [by eexists|done].
  - intros response d' Hauth. unfold handle. rewrite Hauth.
    destruct (authenticateAny_rejects _ _ _ _ _ _ Hauth) as [-> _]. by destruct w.
Qed.

End AuthenticationMore.

(* ===================================================================== *)
(** ** Further properties of the routes                                   *)
(* ===================================================================== *)

Section RoutesMore.

Implicit Types (d : Db) (w : World) (p : Principal) (req : AuthRequest) (r : Request).

(** X13. The handler of a request that does not go through has no effect
    at all: unless the answer is 200 or 201, the database and the sessions
    are what they were when the middleware passed the request on, so
    nothing is written and nothing is published; and the routes that read
    never change anything, whatever they answer. *)
Theorem serve_effect_only_on_success toText toBool env req r w out w' :
  run (serve toText toBool env req r) w = (out, w') ->
  (~ succeeded out -> w' = w) /\
  (readOnly r = true -> w' = w).
Proof.
  intros Hrun. split.
  - intros Hfail.
    assert (forall b, out <> Responded (mkResponse 200 b)) as H200.
    { intros b Hb. apply Hfail. exists b. by left. }
    assert (forall b, out <> Responded (mkResponse 201 b)) as H201.
    { intros b Hb. apply Hfail. exists b. by right. }
    clear Hfail. revert Hrun. destruct r; run_route;
      intros Hrun; repeat (case_match; simplify_eq/=); try done;
      try (by destruct w);
      first [by exfalso; eapply H200 | by exfalso; eapply H201].
  - destruct r; try done; intros _; revert Hrun; run_route;
      intros Hrun; repeat (case_match; simplify_eq/=); done.
Qed.

(** X14. A message posted by a principal with access to the channel, the
    ids of the channel and of the principal being text as every id the
    database holds: a content that is missing, empty or not a string is
    answered 400; a content with the NUL character makes the insert fail,
    and the request ends in that error with nothing written or sent; any
    other content, with an id that is free, is answered 201 with the
    message; its author is the principal (never a value of the body), its
    type is [TEXT], its time the time of the request; the messages table
    has gained that row and nothing else has changed in the database; and
    the event [message.created] has been sent to the sessions that are
    writable and subscribed to the channel, and to no other. *)
Theorem postMessage_persists_and_publishes env p channel_id body w c :
  getChannel (db w) channel_id = Some c ->
  authorized (db w) p (Channel.workspaceId c) ->
  validText channel_id = true ->
  validText (principalId p) = true ->
  (requiredString (mb_content body) = None ->
   run (postMessage env (asRequest p) channel_id body) w
   = (Responded (mkResponse 400 (BError "Message content is required")), w)) /\
  (forall content,
     requiredString (mb_content body) = Some content ->
     validText content = false ->
     run (postMessage env (asRequest p) channel_id body) w = (Threw DatabaseError, w)) /\
  (forall content,
     requiredString (mb_content body) = Some content ->
     validText content = true ->
     (forall x, x ∈ messages (db w) -> Message.id x <> uuid env) ->
     let message := Message.mk (uuid env) channel_id (authorTypeOf p) (Some (principalId p))
                      content TEXT (now env) in
     exists w',
       run (postMessage env (asRequest p) channel_id body) w
       = (Responded (mkResponse 201 (BMessage message)), w') /\
       db w' = Storage.withMessages (db w) (messages (db w) ++ [message])%list /\
       getMessage (db w') (uuid env) = Some message /\
       length (clients w') = length (clients w) /\
       forall (i : nat) ws, clients w !! i = Some ws ->
         (writable ws /\ subscribed Room.channel channel_id ws ->
          clients w' !! i = Some (send ws (MessageCreated channel_id message))) /\
         (~ (writable ws /\ subscribed Room.channel channel_id ws) ->
          clients w' !! i = Some ws)).
Proof.
  intros Hc Hauth Hcid Hpid.
  pose proof (authorized_cases (db w) p (Channel.workspaceId c)) as Hcases.
  split; [|split].
  - intros Hnone. unfold run, postMessage, bind. unfold query at 1. rewrite Hc.
    destruct p as [u|a]; destruct Hcases as [[_ Hb]|[Hno _]]; try done;
      [destruct Hb as [m Hb]|];
      cbn [asRequest authType user agent]; unfold unwrap, ret, query, reply;
      rewrite Hb, Hnone; done.
  - intros content Hsome Hbad.
    unfold run, postMessage, bind. unfold query at 1. rewrite Hc.
    destruct p as [u|a]; destruct Hcases as [[_ Hb]|[Hno _]]; try done;
      [destruct Hb as [m Hb]|];
      cbn [asRequest authType user agent]; unfold unwrap, ret, query, reply,
        mutate, publish, createMessage, accepts;
      rewrite Hb, Hsome; cbn [negb fst snd forallb nullableText InsertMessage.content
        InsertMessage.channelId InsertMessage.authorType InsertMessage.authorId];
      rewrite Hbad, !andb_false_r; reflexivity.
  - intros content Hsome Hgood Hfresh message.
    exists (mkWorld (Storage.withMessages (db w) (messages (db w) ++ [message])%list)
              (broadcast channel_id Room.channel (MessageCreated channel_id message)
                 (clients w))).
    split; [|split; [|split; [|split]]].
    + unfold run, postMessage, bind. unfold query at 1. rewrite Hc.
      cbn [principalId] in Hpid.
      destruct p as [u|a]; destruct Hcases as [[_ Hb]|[Hno _]]; try done;
        [destruct Hb as [m Hb]|];
        cbn [asRequest authType user agent]; unfold unwrap, ret, query, reply,
          mutate, publish, createMessage, accepts;
        rewrite Hb, Hsome; cbn [negb fst snd forallb nullableText InsertMessage.content
          InsertMessage.channelId InsertMessage.authorType InsertMessage.authorId
          principalId] in *;
        rewrite Hcid, Hpid, Hgood; cbn [andb validText];
        rewrite insertRow_fresh by done; reflexivity.
    + done.
    + cbn [db]. unfold getMessage. cbn [messages Storage.withMessages].
      by destruct (lookup_appended Message.id (messages (db w)) message Hfresh) as [Hn _].
    + cbn [clients]. unfold broadcast. by rewrite length_fmap.
    + intros i ws Hi. cbn [clients]. rewrite broadcast_lookup, Hi. cbn. split.
      * intros [Hw Hs]. f_equal. by apply deliver_subscribed.
      * intros Hd. f_equal. destruct (decide (writable ws)) as [Hw|Hw].
        -- apply deliver_not_subscribed. tauto.
        -- by apply deliver_not_writable.
Qed.

(** X15. A channel posted by a principal with access to the workspace of
    the path, whose id is text as every id the database holds, with any
    body. A name that is missing, empty or not a string is answered 400 and
    creates nothing. Otherwise the description and [isPrivate || false] go
    to the insert as they are: a description that is missing or [null] is
    stored as nothing, a string as itself, any other value as the text the
    driver writes for it; [isPrivate] is stored as false when it is falsy,
    as itself when it is a boolean, and otherwise as what the database reads
    in its text. If the name or the text of the description holds the NUL
    character, or the text of [isPrivate] is no boolean, the insert fails,
    and the request ends in that error with nothing written. In every other
    case, with an id that is free, the answer is 201 with a channel of the
    workspace of the path; the channels table has gained that row and
    nothing else has changed; and the listing of the workspace then ends
    with it. *)
Theorem postChannel_creates_in_workspace toText toBool env p workspace_id body w :
  authorized (db w) p workspace_id ->
  validText workspace_id = true ->
  (requiredString (cb_name body) = None ->
   run (postChannel toText toBool env (asRequest p) workspace_id body) w
   = (Responded (mkResponse 400 (BError "Channel name is required")), w)) /\
  (forall name,
     requiredString (cb_name body) = Some name ->
     validText name = false \/
     nullableText (textColumn toText (cb_description body)) = false \/
     boolColumn toBool (cb_isPrivate body) = None ->
     run (postChannel toText toBool env (asRequest p) workspace_id body) w
     = (Threw DatabaseError, w)) /\
  (forall name isPrivate,
     requiredString (cb_name body) = Some name ->
     validText name = true ->
     nullableText (textColumn toText (cb_description body)) = true ->
     boolColumn toBool (cb_isPrivate body) = Some isPrivate ->
     (forall x, x ∈ Storage.channels (db w) -> Channel.id x <> uuid env) ->
     let channel := Channel.mk (uuid env) workspace_id name
                      (textColumn toText (cb_description body)) isPrivate (now env) in
     run (postChannel toText toBool env (asRequest p) workspace_id body) w
     = (Responded (mkResponse 201 (BChannel channel)),
        mkWorld (Storage.withChannels (db w) (Storage.channels (db w) ++ [channel])%list)
                (clients w)) /\
     (forall principal', authorized (db w) principal' workspace_id ->
        fst (run (getChannels (asRequest principal') workspace_id)
               (mkWorld (Storage.withChannels (db w) (Storage.channels (db w) ++ [channel])%list)
                        (clients w)))
        = Responded (mkResponse 200 (BChannels
            (getChannelsForWorkspace (db w) workspace_id ++ [channel])%list)))) /\
  ((cb_description body = None \/ cb_description body = Some JNull ->
    textColumn toText (cb_description body) = None) /\
   (forall s, cb_description body = Some (JStr s) ->
      textColumn toText (cb_description body) = Some s) /\
   (truthy (cb_isPrivate body) = false ->
    boolColumn toBool (cb_isPrivate body) = Some false) /\
   (forall b, cb_isPrivate body = Some (JBool b) ->
      boolColumn toBool (cb_isPrivate body) = Some b)).
Proof.
  intros Hauth Hws. split; [|split; [|split]].
  - intros Hnone. unfold run, postChannel, bind.
    rewrite (checkAccess_authorized _ _ _ Hauth), Hnone. done.
  - intros name Hsome Hbad. unfold run, postChannel, bind.
    rewrite (checkAccess_authorized _ _ _ Hauth), Hsome.
    unfold mutate, ret. destruct (boolColumn toBool (cb_isPrivate body)) as [isPrivate|];
      [|done].
    unfold createChannel, accepts. cbv zeta.
    cbn [forallb nullableText InsertChannel.workspaceId InsertChannel.name
         InsertChannel.description].
    destruct Hbad as [-> | [-> | ?]]; [| |done]; by rewrite ?andb_false_r.
  - intros name isPrivate Hsome Hname Hdesc Hbool Hfresh channel. split.
    + unfold run, postChannel, bind.
      rewrite (checkAccess_authorized _ _ _ Hauth), Hsome.
      unfold mutate, ret. rewrite Hbool. unfold createChannel. cbv zeta.
      cbn [InsertChannel.workspaceId InsertChannel.name InsertChannel.description
           InsertChannel.isPrivate].
      accepted. fold channel.
      by rewrite insertRow_fresh.
    + intros p' Hauth'. unfold run, getChannels, bind.
      rewrite checkAccess_authorized by done. unfold query, ret. cbn [fst db].
      do 3 f_equal. unfold getChannelsForWorkspace. cbn [Storage.channels Storage.withChannels].
      rewrite List.filter_app. cbn [List.filter Channel.workspaceId channel].
      by rewrite String.eqb_refl.
  - repeat split.
    + by intros [-> | ->].
    + by intros s ->.
    + unfold boolColumn. by intros ->.
    + intros b ->. unfold boolColumn. by destruct b.
Qed.

(** X16. A handoff created through the route is of the workspace of the
    path; it comes from the agent that made the request, and from no agent
    when a human made it, whatever the body holds; its title is the string
    of the body, and its description, channel and assignee are what the
    body holds there as it reaches a text column (a string as it is,
    nothing for [null] or a missing value, the text the driver writes for
    any other value); and the event [handoff.created] has gone to the
    sessions of the workspace room, the registry being what [broadcast]
    makes of it. *)
Theorem postHandoff_provenance toText env p workspace_id body w h w' :
  run (postHandoff toText env (asRequest p) workspace_id body) w
  = (Responded (mkResponse 201 (BHandoff (Some h))), w') ->
  authorized (db w) p workspace_id /\
  Handoff.workspaceId h = workspace_id /\
  Handoff.fromAgentId h = match p with PAgent a => Some (Agent.id a) | PHuman _ => None end /\
  Handoff.id h = uuid env /\
  Handoff.createdAt h = now env /\
  hb_title body = Some (JStr (Handoff.title h)) /\
  Handoff.title h <> "" /\
  Handoff.description h = textColumn toText (hb_description body) /\
  Handoff.channelId h = textColumn toText (hb_channelId body) /\
  Handoff.toHumanId h = textColumn toText (hb_toHumanId body) /\
  clients w' = broadcast workspace_id Room.workspace
                 (HandoffCreated workspace_id h) (clients w) /\
  Storage.withHandoffs (db w') (handoffs (db w)) = db w.
Proof.
  intros Hrun.
  pose proof (authorized_cases (db w) p workspace_id) as Hcases.
  assert (authorized (db w) p workspace_id /\
          exists title,
            requiredString (hb_title body) = Some title /\
            exists d',
            createHandoff (uuid env) (now env) (db w)
              (InsertHandoff.mk workspace_id (textColumn toText (hb_channelId body)) title
                 (textColumn toText (hb_description body))
                 (Some (JStr "OPEN"))
                 (if truthy (hb_priority body) then hb_priority body
                  else Some (JStr "MEDIUM"))
                 match p with PAgent a => Some (Agent.id a) | PHuman _ => None end
                 (textColumn toText (hb_toHumanId body))) = inr (h, d') /\
            w' = mkWorld d' (broadcast workspace_id Room.workspace
                               (HandoffCreated workspace_id h) (clients w)))
    as (Hauth & title & Htitle & d' & Hcreate & ->).
  { revert Hrun. unfold run, postHandoff, bind, unwrap, query, reply, ret, throw,
      mutate, publish.
    destruct p as [u|a]; cbn [asRequest authType user agent].
    - destruct Hcases as [[Hyes [m Hb]]|[Hno Hb]]; rewrite Hb;
        intros Hrun; repeat (case_match; simplify_eq/=); eauto 10.
    - destruct Hcases as [[Hyes Hb]|[Hno Hb]]; rewrite Hb; cbn [negb];
        intros Hrun; repeat (case_match; simplify_eq/=); eauto 10. }
  apply createHandoff_inr in Hcreate as (s & prio & _ & _ & -> & Hrows & _ & Hrest).
  cbn.
  assert (hb_title body = Some (JStr title) /\ title <> "") as [Ht Hne].
  { unfold requiredString in Htitle.
    destruct (hb_title body) as [[| | |t| |]|]; cbn in Htitle;
      rewrite ?orb_true_r in Htitle; try done.
    destruct (String.eqb t "") eqn:E; [done|]. cbn in Htitle. injection Htitle as ->.
    split; [done|]. by apply String.eqb_neq. }
  repeat split; done.
Qed.


End RoutesMore.

Lemma serve_effect_only_on_success_witness :
  fst (run (serve demoText demoBool createEnv (asRequest (PAgent outsider))
              (PostChannel "w1" (mkChannelBody (Some (JStr "ops")) None None))) demoWorld)
  = Responded (mkResponse 403 (BError "Agent does not belong to this workspace")) /\
  snd (run (serve demoText demoBool createEnv (asRequest (PAgent outsider))
              (PostChannel "w1" (mkChannelBody (Some (JStr "ops")) None None))) demoWorld)
  = demoWorld.
Proof.
  assert (fst (run (serve demoText demoBool createEnv (asRequest (PAgent outsider))
                      (PostChannel "w1" (mkChannelBody (Some (JStr "ops")) None None)))
                 demoWorld)
          = Responded (mkResponse 403 (BError "Agent does not belong to this workspace")))
    as Hout by reflexivity.
  split; [exact Hout|].
  destruct (serve_effect_only_on_success demoText demoBool createEnv (asRequest (PAgent outsider))
              (PostChannel "w1" (mkChannelBody (Some (JStr "ops")) None None)) demoWorld
              _ _ (surjective_pairing _))
    as [Hfail _].
  apply Hfail. rewrite Hout. intros [b [[=]|[=]]].
Defined.

Lemma postMessage_persists_and_publishes_witness :
  getChannel (db demoWorld) "c1" = Some generalOfW1 /\
  authorized (db demoWorld) (PAgent reviewer) (Channel.workspaceId generalOfW1) /\
  validText "c1" = true /\
  validText (principalId (PAgent reviewer)) = true /\
  run (postMessage (mkEnv "m9" 9) (asRequest (PAgent reviewer)) "c1"
         (mkMessageBody (Some (JStr nulText)))) demoWorld
  = (Threw DatabaseError, demoWorld) /\
  exists w',
    run (postMessage (mkEnv "m9" 9) (asRequest (PAgent reviewer)) "c1"
           (mkMessageBody (Some (JStr "hi")))) demoWorld
    = (Responded (mkResponse 201
         (BMessage (Message.mk "m9" "c1" "agent" (Some "a1") "hi" TEXT 9))), w') /\
    getMessage (db w') "m9" = Some (Message.mk "m9" "c1" "agent" (Some "a1") "hi" TEXT 9) /\
    clients w' !! 0
    = Some (send firstSession
              (MessageCreated "c1" (Message.mk "m9" "c1" "agent" (Some "a1") "hi" TEXT 9))).
Proof.
  assert (getChannel (db demoWorld) "c1" = Some generalOfW1) as Hc by reflexivity.
  assert (authorized (db demoWorld) (PAgent reviewer) (Channel.workspaceId generalOfW1))
    as Hauth by reflexivity.
  split; [exact Hc|]. split; [exact Hauth|]. split; [reflexivity|]. split; [reflexivity|].
  split.
  - destruct (postMessage_persists_and_publishes (mkEnv "m9" 9) (PAgent reviewer) "c1"
                (mkMessageBody (Some (JStr nulText))) demoWorld generalOfW1 Hc Hauth
                eq_refl eq_refl)
      as (_ & Hbad & _).
    exact (Hbad nulText eq_refl eq_refl).
  - destruct (postMessage_persists_and_publishes (mkEnv "m9" 9) (PAgent reviewer) "c1"
                (mkMessageBody (Some (JStr "hi"))) demoWorld generalOfW1 Hc Hauth
                eq_refl eq_refl)
      as (_ & _ & Hpost).
    destruct (Hpost "hi" eq_refl eq_refl) as (w' & Hrun & _ & Hget & _ & Hsent).
    { intros x Hx. simpl in Hx.
      repeat (apply elem_of_cons in Hx as [->|Hx]); try discriminate.
      by apply elem_of_nil in Hx. }
    exists w'. split; [exact Hrun|]. split; [exact Hget|].
    destruct (Hsent 0 firstSession eq_refl) as [Hyes _].
    apply Hyes. split; [reflexivity|].
    unfold subscribed. simpl. apply elem_of_singleton. reflexivity.
Defined.

Lemma postChannel_creates_in_workspace_witness :
  authorized (db demoWorld) (PHuman alex) "w1" /\
  validText "w1" = true /\
  run (postChannel demoText demoBool (mkEnv "c3" 9) (asRequest (PHuman alex)) "w1"
         (mkChannelBody (Some (JStr nulText)) None None)) demoWorld
  = (Threw DatabaseError, demoWorld) /\
  run (postChannel demoText demoBool (mkEnv "c3" 9) (asRequest (PHuman alex)) "w1"
         (mkChannelBody (Some (JStr "ops")) None (Some (JStr "private")))) demoWorld
  = (Threw DatabaseError, demoWorld) /\
  run (postChannel demoText demoBool (mkEnv "c3" 9) (asRequest (PHuman alex)) "w1"
         (mkChannelBody (Some (JStr "ops")) (Some (JNum 7)) (Some (JNum 1)))) demoWorld
  = (Responded (mkResponse 201 (BChannel (Channel.mk "c3" "w1" "ops" (Some "7") true 9))),
     mkWorld (Storage.withChannels (db demoWorld)
                (Storage.channels (db demoWorld)
                 ++ [Channel.mk "c3" "w1" "ops" (Some "7") true 9])%list)
             (clients demoWorld)).
Proof.
  assert (authorized (db demoWorld) (PHuman alex) "w1") as Hauth.
  { exists (WorkspaceMember.mk "wm1" "w1" "u1" "owner" 0). split; [|done].
    simpl. by apply list_elem_of_singleton. }
  split; [exact Hauth|]. split; [reflexivity|]. split; [|split].
  - destruct (postChannel_creates_in_workspace demoText demoBool (mkEnv "c3" 9)
                (PHuman alex) "w1"
                (mkChannelBody (Some (JStr nulText)) None None) demoWorld Hauth eq_refl)
      as (_ & Hbad & _).
    apply (Hbad nulText eq_refl). by left.
  - destruct (postChannel_creates_in_workspace demoText demoBool (mkEnv "c3" 9)
                (PHuman alex) "w1"
                (mkChannelBody (Some (JStr "ops")) None (Some (JStr "private")))
                demoWorld Hauth eq_refl)
      as (_ & Hbad & _).
    apply (Hbad "ops" eq_refl). right. by right.
  - destruct (postChannel_creates_in_workspace demoText demoBool (mkEnv "c3" 9)
                (PHuman alex) "w1"
                (mkChannelBody (Some (JStr "ops")) (Some (JNum 7)) (Some (JNum 1)))
                demoWorld Hauth eq_refl)
      as (_ & _ & Hpost & _).
    destruct (Hpost "ops" true eq_refl eq_refl eq_refl eq_refl) as [Hrun _]; [|exact Hrun].
    intros x Hx. simpl in Hx.
    repeat (apply elem_of_cons in Hx as [->|Hx]); try discriminate.
    by apply elem_of_nil in Hx.
Defined.

Lemma postHandoff_provenance_witness :
  run (postHandoff demoText createEnv (asRequest (PAgent reviewer)) "w1" createBody) demoWorld
  = (Responded (mkResponse 201 (BHandoff (Some created))), createdWorld) /\
  Handoff.fromAgentId created = Some (Agent.id reviewer) /\
  Handoff.workspaceId created = "w1" /\
  clients createdWorld
  = broadcast "w1" Room.workspace (HandoffCreated "w1" created) (clients demoWorld).
Proof.
  assert (run (postHandoff demoText createEnv (asRequest (PAgent reviewer)) "w1" createBody) demoWorld
          = (Responded (mkResponse 201 (BHandoff (Some created))), createdWorld)) as Hrun.
  { vm_compute. reflexivity. }
  split; [exact Hrun|].
  destruct (postHandoff_provenance demoText createEnv (PAgent reviewer) "w1" createBody demoWorld
              created createdWorld Hrun)
    as (_ & Hws & Hfrom & _ & _ & _ & _ & _ & _ & _ & Hclients & _).
  split; [exact Hfrom|]. split; [exact Hws|exact Hclients].
Defined.

(* ===================================================================== *)
(** ** Further properties of the realtime registry                        *)
(* ===================================================================== *)

Section RegistryMore.

Implicit Types (ws : Client) (clients : list Client) (room : string)
  (kind : Room.RoomType) (event : Event).

(** X18. What a control frame does to the subscriptions of a session. A
    join whose room id is a string subscribes the session to that room of
    that kind and to nothing else; a leave whose room id is a string ends
    that subscription and no other; a frame whose room id is anything but a
    string (a number, [null], an object, or no value) changes the
    subscription to no room, whatever it does to the set; and a frame that
    is no control frame changes nothing. *)
Theorem onFrame_subscriptions data ws :
  (forall k r, controlType data = Some (true, k) -> roomOf k data = Some (JStr r) ->
     forall kind room,
       subscribed kind room (onFrame data ws)
       <-> (kind = k /\ room = r) \/ subscribed kind room ws) /\
  (forall k r, controlType data = Some (false, k) -> roomOf k data = Some (JStr r) ->
     forall kind room,
       subscribed kind room (onFrame data ws)
       <-> subscribed kind room ws /\ ~ (kind = k /\ room = r)) /\
  (forall join k, controlType data = Some (join, k) ->
     (forall r, roomOf k data <> Some (JStr r)) ->
     forall kind room,
       subscribed kind room (onFrame data ws) <-> subscribed kind room ws) /\
  (controlType data = None -> onFrame data ws = ws).
Proof.
  split; [|split; [|split]].
  - intros k r Hc Hr kind room. unfold subscribed.
    rewrite (onFrame_control _ _ _ _ Hc), Hr, interest_setInterest. cbn [toKey].
    destruct (decide (kind = k)) as [->|Hne].
    + rewrite elem_of_union, elem_of_singleton. split.
      * intros [H|[= ->]]; [by right|by left].
      * intros [[_ ->]|H]; [by right|by left].
    + split; [by right|]. by intros [[? _]|?].
  - intros k r Hc Hr kind room. unfold subscribed.
    rewrite (onFrame_control _ _ _ _ Hc), Hr, interest_setInterest. cbn [toKey].
    destruct (decide (kind = k)) as [->|Hne].
    + rewrite elem_of_difference, elem_of_singleton. split.
      * intros [H Hn]. split; [done|]. intros [_ ->]. by apply Hn.
      * intros [H Hn]. split; [done|]. intros [= ->]. by apply Hn.
    + split; [|by intros [? _]]. intros H. split; [done|]. by intros [? _].
  - intros join k Hc Hr kind room. unfold subscribed.
    rewrite (onFrame_control _ _ _ _ Hc), interest_setInterest.
    destruct (decide (kind = k)) as [->|Hne]; [|done].
    assert (toKey (roomOf k data) <> KStr room) as Hk.
    { destruct (roomOf k data) as [[| | |s| |]|]; cbn; try done.
      by specialize (Hr s). }
    destruct join; set_solver.
  - apply onFrame_ignored.
Qed.

Lemma deliver_keeps room kind event ws :
  cid (deliver room kind event ws) = cid ws /\
  userId (deliver room kind event ws) = userId ws /\
  readyState (deliver room kind event ws) = readyState ws /\
  channels (deliver room kind event ws) = channels ws /\
  workspaces (deliver room kind event ws) = workspaces ws.
Proof. unfold deliver. repeat case_match; done. Qed.

Lemma deliver_sent room kind event ws :
  sent (deliver room kind event ws)
  = (sent ws ++ reaching ws [(room, kind, event)])%list.
Proof.
  unfold deliver, reaching. destruct (bool_decide (readyState ws = _)); [|by rewrite app_nil_r].
  cbn [List.filter]. destruct kind; cbn [interest andb bool_decide].
  - rewrite bool_decide_eq_true_2 by done. cbn [andb].
    destruct (has (channels ws) room); [done|]. cbn.
    rewrite bool_decide_eq_false_2 by done. cbn. by rewrite app_nil_r.
  - rewrite (bool_decide_eq_false_2 (Room.workspace = Room.channel)) by done. cbn [andb].
    rewrite bool_decide_eq_true_2 by done. cbn [andb].
    destruct (has (workspaces ws) room); [done|]. cbn. by rewrite app_nil_r.
Qed.

Lemma reaching_app ws l1 l2 :
  reaching ws (l1 ++ l2) = (reaching ws l1 ++ reaching ws l2)%list.
Proof.
  unfold reaching. destruct (bool_decide _); [|done].
  by rewrite List.filter_app, fmap_app.
Qed.

(** X19. A sequence of publishes keeps the registry and every session's
    identity, socket state and interest sets, and appends to what a session
    was sent exactly the events published to rooms it is subscribed to, in
    the order they were published; a session whose socket is not open is
    sent nothing. *)
Theorem publishAll_in_order published clients (i : nat) ws :
  clients !! i = Some ws ->
  length (publishAll published clients) = length clients /\
  publishAll published clients !! i
  = Some (mkClient (cid ws) (userId ws) (readyState ws) (channels ws) (workspaces ws)
            (sent ws ++ reaching ws published)%list) /\
  (~ writable ws -> publishAll published clients !! i = Some ws).
Proof.
  assert (forall published clients ws, clients !! i = Some ws ->
    length (publishAll published clients) = length clients /\
    publishAll published clients !! i
    = Some (mkClient (cid ws) (userId ws) (readyState ws) (channels ws) (workspaces ws)
              (sent ws ++ reaching ws published)%list)) as Hgen.
  { clear. intros published. induction published as [|[[room kind] e] rest IH];
      intros clients ws Hi.
    - split; [done|]. cbn. unfold reaching. destruct (bool_decide _); cbn;
        rewrite app_nil_r; by destruct ws.
    - unfold publishAll. cbn [fold_left].
      assert (broadcast room kind e clients !! i = Some (deliver room kind e ws)) as Hi'.
      { by rewrite broadcast_lookup, Hi. }
      destruct (IH _ _ Hi') as [Hlen Hlook]. unfold publishAll in Hlen, Hlook.
      split; [rewrite Hlen; unfold broadcast; by rewrite length_fmap|].
      rewrite Hlook. destruct (deliver_keeps room kind e ws) as (-> & -> & Hrs & Hch & Hwk).
      rewrite Hch, Hwk, Hrs. do 2 f_equal.
      rewrite deliver_sent. rewrite <- app_assoc. f_equal.
      change ((room, kind, e) :: rest) with ([(room, kind, e)] ++ rest)%list.
      rewrite reaching_app. f_equal.
      unfold reaching. rewrite Hrs. destruct (bool_decide _); [|done].
      f_equal. apply List.filter_ext. intros [[r' k'] e'].
      unfold interest. destruct k'; by rewrite ?Hch, ?Hwk. }
  intros Hi. destruct (Hgen published clients ws Hi) as [Hlen Hlook].
  split; [done|]. split; [done|].
  intros Hw. rewrite Hlook. f_equal. unfold reaching.
  rewrite bool_decide_eq_false_2 by done. rewrite app_nil_r. by destruct ws.
Qed.

Lemma onConnection_registers_shape jwtVerify socket token clients :
  (forall ws, ws ∈ clients -> cid ws <> socket) ->
  exists ws, onConnection jwtVerify socket token clients = (clients ++ [ws])%list /\
             cid ws = socket.
Proof.
  intros Hfresh. unfold onConnection. cbv zeta.
  assert (existsb (Nat.eqb socket) (cid <$> clients) = false) as ->.
  { destruct (existsb _ _) eqn:E; [|done]. exfalso.
    apply existsb_exists in E as (x & Hx & Heq%Nat.eqb_eq).
    apply list_elem_of_In, list_elem_of_fmap in Hx as (ws & -> & Hws).
    by apply (Hfresh ws Hws). }
  by eexists.
Qed.

(** X20. A socket that connects with an id no session has is added at the
    end of the registry, open, with nothing sent and with no interest, so
    that a publish to any room passes it by; it carries a user id exactly
    when its token verifies to a payload with a non-empty [humanId]; and the
    sessions that were there are untouched. *)
Theorem onConnection_registers jwtVerify socket token clients :
  (forall ws, ws ∈ clients -> cid ws <> socket) ->
  exists ws,
    onConnection jwtVerify socket token clients = (clients ++ [ws])%list /\
    cid ws = socket /\ readyState ws = WebSocket.OPEN /\
    channels ws = ∅ /\ workspaces ws = ∅ /\ sent ws = [] /\
    (forall h, userId ws = Some h <->
       exists t, token = Some t /\ t <> "" /\
                 jwtVerify t = Some (mkPayload (Some h)) /\ h <> "") /\
    (forall room kind event,
       broadcast room kind event (clients ++ [ws])
       = (broadcast room kind event clients ++ [ws])%list).
Proof.
  intros Hfresh. unfold onConnection. cbv zeta.
  assert (existsb (Nat.eqb socket) (cid <$> clients) = false) as ->.
  { destruct (existsb _ _) eqn:E; [|done]. exfalso.
    apply existsb_exists in E as (x & Hx & Heq%Nat.eqb_eq).
    apply list_elem_of_In, list_elem_of_fmap in Hx as (ws & -> & Hws).
    by apply (Hfresh ws Hws). }
  eexists. split; [done|]. cbn [cid readyState channels workspaces sent userId].
  split; [done|]. split; [done|]. split; [done|]. split; [done|]. split; [done|].
  split.
  - intros h. unfold verifyToken. split.
    + destruct token as [t|]; [|done].
      destruct (String.eqb t "") eqn:Et; [done|].
      destruct (jwtVerify t) as [[[h'|]]|] eqn:Hjwt; [|done..]. cbn [humanId].
      destruct (String.eqb h' "") eqn:Eh; [done|]. intros [= ->].
      exists t. apply String.eqb_neq in Et, Eh. done.
    + intros (t & -> & Ht & Hjwt & Hh). apply String.eqb_neq in Ht, Hh.
      rewrite Ht, Hjwt. cbn [humanId]. by rewrite Hh.
  - intros room kind event. unfold broadcast. rewrite fmap_app. f_equal. cbn. f_equal.
    apply deliver_not_subscribed. unfold subscribed.
    destruct kind; cbn; apply not_elem_of_empty.
Qed.

(** X21. Closing a socket removes its session from the registry and leaves
    the others, in their order; it commutes with publishing, so that after
    the close no event reaches the socket and every other session gets
    what it would have got; closing twice is closing once; and a socket
    that connects and closes leaves the registry as it found it. *)
Theorem onClose_deregisters jwtVerify socket clients :
  (forall ws, ws ∈ onClose socket clients <-> ws ∈ clients /\ cid ws <> socket) /\
  onClose socket clients `sublist_of` clients /\
  (forall room kind event,
     broadcast room kind event (onClose socket clients)
     = onClose socket (broadcast room kind event clients)) /\
  onClose socket (onClose socket clients) = onClose socket clients /\
  (forall token, (forall ws, ws ∈ clients -> cid ws <> socket) ->
     onClose socket (onConnection jwtVerify socket token clients) = clients).
Proof.
  split; [|split; [|split; [|split]]].
  - intros ws. unfold onClose.
    rewrite list_elem_of_In, filter_In, <- list_elem_of_In, negb_true_iff, Nat.eqb_neq.
    done.
  - apply list_filter_sublist.
  - intros room kind event. unfold onClose, broadcast.
    induction clients as [|ws l IH]; [done|].
    rewrite fmap_cons. cbn [List.filter].
    destruct (deliver_keeps room kind event ws) as (-> & _).
    destruct (negb (Nat.eqb (cid ws) socket)); [|done].
    rewrite fmap_cons. by f_equal.
  - apply filter_idem.
  - intros token Hfresh.
    assert (forall l : list Client, (forall ws, ws ∈ l -> cid ws <> socket) ->
              onClose socket l = l) as Hkeep.
    { intros l Hl. unfold onClose. apply filter_all. intros ws Hws.
      apply negb_true_iff, Nat.eqb_neq. by apply Hl. }
    destruct (onConnection_registers_shape jwtVerify socket token clients Hfresh)
      as (ws & -> & Hcid).
    unfold onClose. rewrite List.filter_app. cbn [List.filter].
    rewrite Hcid, Nat.eqb_refl. cbn [negb]. rewrite app_nil_r. by apply Hkeep.
Qed.

End RegistryMore.

Lemma publishAll_in_order_witness :
  demoClients !! 0 = Some firstSession /\
  length (publishAll demoPublished demoClients) = length demoClients /\
  publishAll demoPublished demoClients !! 0
  = Some (mkClient 1 (Some "u1") WebSocket.OPEN {[ KStr "c1" ]} ∅
            (sent firstSession ++ reaching firstSession demoPublished)%list).
Proof.
  split; [reflexivity|].
  destruct (publishAll_in_order demoPublished demoClients 0 firstSession eq_refl)
    as (Hlen & Hsent & _).
  split; [exact Hlen|exact Hsent].
Defined.

(** The first session is sent the two events of its channel, in order. *)
Example publishAll_demo :
  sent <$> publishAll demoPublished demoClients = [[demoEvent; demoEvent]; [otherEvent]; []].
Proof. vm_compute. reflexivity. Qed.

Lemma onConnection_registers_witness :
  (forall ws, ws ∈ demoClients -> cid ws <> 7) /\
  exists ws,
    onConnection noJwt 7 (Some "abc") demoClients = (demoClients ++ [ws])%list /\
    cid ws = 7 /\ readyState ws = WebSocket.OPEN /\ sent ws = [].
Proof.
  assert (forall ws, ws ∈ demoClients -> cid ws <> 7) as Hfresh.
  { intros ws Hws. unfold demoClients in Hws.
    repeat (apply elem_of_cons in Hws as [->|Hws]); try (simpl; lia).
    by apply elem_of_nil in Hws. }
  split; [exact Hfresh|].
  destruct (onConnection_registers noJwt 7 (Some "abc") demoClients Hfresh)
    as (ws & Hreg & Hcid & Hopen & _ & _ & Hsent & _).
  exists ws. split; [exact Hreg|]. split; [exact Hcid|]. split; [exact Hopen|exact Hsent].
Defined.

(* ===================================================================== *)
(** ** The routes of one kind of principal                                *)
(* ===================================================================== *)

(** Unfolds a route of one kind of principal down to its storage calls. *)
Ltac run_as :=
  unfold runAs, getAgents, postAgent, getMemoryRoute, deleteMemoryRoute, me, login,
    bind, unwrap, query, attempt, mutate, update, reply, ret, throw.

Section PrincipalRoutes.

Implicit Types (d : Db) (w : World) (req : AuthRequest).

(** X22. The memory routes work on the rows of the calling agent only.
    For an agent id, a query and a key that are text: a lookup answers 200
    and leaves the world as it is; every row of the answer is a row of the
    caller whose key is the query or matches it as a prefix pattern, and a
    row under exactly the queried key is answered alone. A lookup without a
    query is answered 400. A delete answers 204 whether or not there was a
    row, and removes the caller's rows under the key and nothing else. *)
Theorem memory_routes_own_rows req a w :
  agent req = Some a ->
  validText (Agent.id a) = true ->
  (forall q, q <> "" -> validText q = true ->
     exists ms,
       runAs (getMemoryRoute req (Some q)) w = (inr (200, ms), w) /\
       (forall m, m ∈ ms ->
          m ∈ memories (db w) /\ Memory.agentId m = Agent.id a /\
          (Memory.key m = q \/ like (q ++ "%") (Memory.key m) = true)) /\
       (forall m, getMemory (db w) (Agent.id a) q = Some m -> ms = [m])) /\
  (forall q, q = None \/ q = Some "" ->
     runAs (getMemoryRoute req q) w
     = (inl (Responded (mkResponse 400 (BError "Query parameter 'q' is required"))), w)) /\
  (forall key, validText key = true ->
     exists w',
       runAs (deleteMemoryRoute req key) w = (inr (204, tt), w') /\
       clients w' = clients w /\
       withMemories (db w') (memories (db w)) = db w /\
       (forall m, m ∈ memories (db w') <->
          m ∈ memories (db w) /\
          ~ (Memory.agentId m = Agent.id a /\ Memory.key m = key))).
Proof.
  intros Ha _. split; [|split].
  - intros q Hq _. apply String.eqb_neq in Hq.
    run_as. rewrite Hq, Ha.
    destruct (getMemory (db w) (Agent.id a) q) as [m|] eqn:Hget.
    + exists [m]. split; [done|]. split; [|by intros ? [= ->]].
      intros m' ->%list_elem_of_singleton.
      apply head_filter_Some in Hget as [Hin [H1 H2]%sameKey_iff]. auto.
    + exists (getMemoriesByPrefix (db w) (Agent.id a) q). split; [done|].
      split; [|done]. intros m. unfold getMemoriesByPrefix.
      rewrite list_elem_of_In, filter_In, <- list_elem_of_In, andb_true_iff, String.eqb_eq.
      tauto.
  - by intros q [-> | ->].
  - intros key _. eexists. run_as. rewrite Ha. split; [reflexivity|]. cbn [clients db].
    split; [done|]. split; [by destruct (db w)|].
    intros m. cbn [deleteMemory memories withMemories].
    rewrite list_elem_of_In, filter_In, <- list_elem_of_In, negb_true_iff.
    rewrite <- not_true_iff_false, sameKey_iff. done.
Qed.


(** X24. A member who posts an agent with a name, the name, the description
    as it reaches the column and the workspace id being text, when the id
    and the key drawn are free, is answered 201 with the new agent: it is
    of the workspace of the path, active, never seen, and its key is the
    one generated, which the listing of the same workspace does not show.
    The listing, in whatever order the database returns the rows, then
    holds the agents it held and the new one, and the agent is authorized
    for the workspace of the path and for no other. *)
Theorem postAgent_then_listed scan toText env hex req u workspace_id body name w :
  (forall l, scan l ≡ₚ l) ->
  user req = Some u ->
  isMember (db w) workspace_id (Human.id u) ->
  ab_name body = Some (JStr name) -> name <> "" ->
  validText workspace_id = true ->
  validText name = true ->
  nullableText (textColumn toText (ab_description body)) = true ->
  (forall r, r ∈ agents (db w) -> Agent.id r <> uuid env) ->
  (forall r, r ∈ agents (db w) -> Agent.apiKey r <> generateApiKey hex) ->
  validText hex = true ->
  let a := Agent.mk (uuid env) workspace_id name (textColumn toText (ab_description body))
             (generateApiKey hex) None true None (now env) in
  let w' := mkWorld (withAgents (db w) (agents (db w) ++ [a])%list) (clients w) in
  runAs (postAgent toText env hex req workspace_id body) w = (inr (201, a), w') /\
  (exists listed listed',
     runAs (getAgents scan req workspace_id) w = (inr (200, listed), w) /\
     runAs (getAgents scan req workspace_id) w' = (inr (200, listed'), w') /\
     listed' ≡ₚ (listed ++ [safeAgent a])%list) /\
  getAgentByApiKey (db w') (generateApiKey hex) = Some a /\
  (forall ws, authorized (db w') (PAgent a) ws <-> ws = workspace_id).
Proof.
  intros Hscan Hu Hyes Hname Hne Hws Hn Hdesc Hid Hkey Hhex a w'.
  assert (exists m, getWorkspaceMember (db w) workspace_id (Human.id u) = Some m)
    as [m Hm].
  { apply getWorkspaceMember_isMember in Hyes.
    destruct (getWorkspaceMember _ _ _); [by eexists|done]. }
  assert (validText (generateApiKey hex) = true) as Hk by exact Hhex.
  split; [|split; [|split]].
  - run_as. rewrite Hu. cbn [db]. rewrite Hm, Hname. unfold requiredString.
    apply String.eqb_neq in Hne. cbn [truthy isString]. rewrite Hne. cbn [negb orb].
    unfold createAgent. cbv zeta. cbn [InsertAgent.workspaceId InsertAgent.name
      InsertAgent.description InsertAgent.apiKey InsertAgent.avatarUrl
      InsertAgent.isActive default].
    accepted.
    change (id true) with true. fold a.
    rewrite (insertUnique_fresh Agent.id Agent.apiKey a (agents (db w)) Hid Hkey).
    done.
  - exists (safeAgent <$> getAgentsForWorkspace scan (db w) workspace_id),
           (safeAgent <$> getAgentsForWorkspace scan (db w') workspace_id).
    run_as. rewrite Hu. subst w'. cbn [db]. unfold getWorkspaceMember in *.
    cbn [workspaceMembers withAgents].
    rewrite Hm. split; [done|]. split; [done|].
    unfold getAgentsForWorkspace. cbn [db agents withAgents].
    rewrite !Hscan, List.filter_app, fmap_app. subst a. cbn [List.filter Agent.workspaceId].
    by rewrite String.eqb_refl.
  - subst w'. unfold getAgentByApiKey. cbn [db agents withAgents].
    by destruct (lookup_appended Agent.apiKey (agents (db w)) a Hkey) as [Hnew _].
  - intros ws. cbn [authorized]. subst a. cbn [Agent.workspaceId]. split; by intros ->.
Qed.

End PrincipalRoutes.

Lemma memory_routes_own_rows_witness :
  agent (asRequest (PAgent reviewer)) = Some reviewer /\
  validText (Agent.id reviewer) = true /\
  (exists ms,
     runAs (getMemoryRoute (asRequest (PAgent reviewer)) (Some "pl")) demoWorld
     = (inr (200, ms), demoWorld) /\
     forall m, m ∈ ms -> Memory.agentId m = "a1") /\
  runAs (getMemoryRoute (asRequest (PAgent reviewer)) None) demoWorld
  = (inl (Responded (mkResponse 400 (BError "Query parameter 'q' is required"))), demoWorld).
Proof.
  split; [reflexivity|]. split; [reflexivity|].
  destruct (memory_routes_own_rows (asRequest (PAgent reviewer)) reviewer demoWorld
              eq_refl eq_refl)
    as (Hget & Hbad & _).
  split.
  - destruct (Hget "pl") as (ms & Hrun & Hrows & _); [discriminate|reflexivity|].
    exists ms. split; [exact Hrun|]. intros m Hm. by destruct (Hrows m Hm) as (_ & -> & _).
  - apply Hbad. by left.
Defined.

(** A pattern character stands for a whole character of the key, whatever
    the number of its bytes. *)
Example getMemoryRoute_wide_character :
  like "_a%" "éa" = true /\ like "_a%" "xya" = false /\ like "%a" "ééa" = true.
Proof. repeat split; vm_compute; reflexivity. Qed.


Lemma postAgent_then_listed_witness :
  (forall l : list Agent.t, reverse l ≡ₚ l) /\
  user (asRequest (PHuman alex)) = Some alex /\
  isMember (db demoWorld) "w1" (Human.id alex) /\
  ab_name botBody = Some (JStr "Bot") /\ "Bot" <> "" /\
  validText "w1" = true /\ validText "Bot" = true /\
  nullableText (textColumn demoText (ab_description botBody)) = true /\
  (forall r, r ∈ agents (db demoWorld) -> Agent.id r <> "a9") /\
  (forall r, r ∈ agents (db demoWorld) -> Agent.apiKey r <> generateApiKey "ff") /\
  validText "ff" = true /\
  fst (runAs (postAgent demoText (mkEnv "a9" 9) "ff" (asRequest (PHuman alex)) "w1" botBody)
         demoWorld)
  = inr (201, Agent.mk "a9" "w1" "Bot" (Some "7") "sk_ff" None true None 9).
Proof.
  assert (forall l : list Agent.t, reverse l ≡ₚ l) as Hscan.
  { intros l. apply reverse_Permutation. }
  assert (isMember (db demoWorld) "w1" (Human.id alex)) as Hyes.
  { exists (WorkspaceMember.mk "wm1" "w1" "u1" "owner" 0). split; [|done].
    simpl. by apply list_elem_of_singleton. }
  assert ("Bot" <> "") as Hne by discriminate.
  assert (forall r, r ∈ agents (db demoWorld) -> Agent.id r <> "a9") as Hid.
  { intros r Hr. simpl in Hr.
    repeat (apply elem_of_cons in Hr as [->|Hr]); try discriminate.
    by apply elem_of_nil in Hr. }
  assert (forall r, r ∈ agents (db demoWorld) -> Agent.apiKey r <> generateApiKey "ff")
    as Hkey.
  { intros r Hr. simpl in Hr.
    repeat (apply elem_of_cons in Hr as [->|Hr]); try discriminate.
    by apply elem_of_nil in Hr. }
  split; [exact Hscan|]. split; [reflexivity|]. split; [exact Hyes|]. split; [reflexivity|].
  split; [exact Hne|]. do 3 (split; [reflexivity|]).
  split; [exact Hid|]. split; [exact Hkey|]. split; [reflexivity|].
  destruct (postAgent_then_listed (@reverse Agent.t) demoText (mkEnv "a9" 9) "ff"
              (asRequest (PHuman alex)) alex "w1" botBody "Bot" demoWorld
              Hscan eq_refl Hyes eq_refl Hne eq_refl eq_refl eq_refl Hid Hkey eq_refl)
    as (Hrun & _).
  by rewrite Hrun.
Defined.

(** The listing after the post, when the database returns the rows last
    first: the new agent leads, and no key is shown. *)
Example getAgents_after_post :
  fst (runAs (getAgents (@reverse Agent.t) (asRequest (PHuman alex)) "w1")
         (snd (runAs (postAgent demoText (mkEnv "a9" 9) "ff" (asRequest (PHuman alex)) "w1"
                        botBody) demoWorld)))
  = inr (200, [safeAgent (Agent.mk "a9" "w1" "Bot" (Some "7") "sk_ff" None true None 9);
               safeAgent retired; safeAgent reviewer]).
Proof. vm_compute. reflexivity. Qed.

(* ===================================================================== *)
(** ** Registration and login                                             *)
(* ===================================================================== *)

Lemma validText_app (a b : string) : validText (a ++ b) = validText a && validText b.
Proof.
  induction a as [|c a IH]; [done|].
  change (String c a ++ b) with (String c (a ++ b)). cbn [validText].
  by rewrite IH, andb_assoc.
Qed.

Section AuthRoutes.

Context {RawBody : Type}.
Variable libs : AuthLibs RawBody.
Variable jwtVerify : string -> option JwtPayload.

Implicit Types (d : Db) (w : World) (body : RawBody).

(** X25. A login writes nothing. It succeeds only for a body that parses
    to the email of a human of the table and a password that verifies
    against the stored hash, with a token for that human and the human
    without the password. An unknown email and a wrong password get the
    same answer. *)
Theorem login_outcome body w :
  snd (runAs (login libs body) w) = w /\
  (forall r, fst (runAs (login libs body) w) = inr r ->
     exists data human,
       loginSchemaParse libs body = inr data /\
       human ∈ humans (db w) /\ Human.email human = li_email data /\
       verifyPassword libs (li_password data) (Human.password human) = true /\
       r = (200, (generateToken libs (Human.id human), safeHuman human))) /\
  (forall data,
     loginSchemaParse libs body = inr data ->
     (forall human, getHumanByEmail (db w) (li_email data) = Some human ->
        verifyPassword libs (li_password data) (Human.password human) = false) ->
     fst (runAs (login libs body) w)
     = inl (Responded (mkResponse 401 (BError "Invalid email or password")))).
Proof.
  split; [|split].
  - run_as. repeat case_match; simplify_eq/=; done.
  - intros r. run_as.
    destruct (loginSchemaParse libs body) as [msg|data]; [done|]. cbn [fst snd db].
    destruct (getHumanByEmail (db w) (li_email data)) as [human|] eqn:Hget; [|done].
    destruct (verifyPassword libs _ _) eqn:Hpw; [|done]. cbn [negb fst].
    intros [= <-]. exists data, human.
    apply head_filter_Some in Hget as [Hin Hmail%String.eqb_eq]. done.
  - intros data Hparse Hbad. run_as. rewrite Hparse. cbn [fst snd db].
    destruct (getHumanByEmail (db w) (li_email data)) as [human|] eqn:Hget; [|done].
    by rewrite (Hbad human eq_refl).
Qed.

(** X26. The token of a login opens the profile route: when a signed token
    verifies to its [humanId], the ids of the humans differ and none is
    empty, a request that carries the token of a successful login as its
    bearer passes [authenticateHuman], and the profile route answers with the
    user the login answered with. *)
Theorem login_then_me body w token profile key req :
  (forall hid, jwtVerify (generateToken libs hid) = Some (mkPayload (Some hid))) ->
  NoDup (Human.id <$> humans (db w)) ->
  (forall h, h ∈ humans (db w) -> Human.id h <> "") ->
  fst (runAs (login libs body) w) = inr (200, (token, profile)) ->
  exists req',
    authenticateHuman jwtVerify (db w) (mkHeaders key (Some ("Bearer " ++ token))) req
    = inr req' /\
    runAs (me req') w = (inr (200, profile), w).
Proof.
  intros Hjwt Hnd Hid. run_as.
  destruct (loginSchemaParse libs body) as [msg|data]; [done|]. cbn [fst snd db].
  destruct (getHumanByEmail (db w) (li_email data)) as [human|] eqn:Hget; [|done].
  destruct (verifyPassword libs _ _); [|done]. cbn [negb fst].
  intros [= <- <-].
  apply head_filter_Some in Hget as [Hin _].
  exists (mkReq (Some human) (agent req) (Some AuthHuman)). split; [|done].
  unfold authenticateHuman, verifyToken, bearerShaped. cbn [authorization].
  change (String.eqb ("Bearer " ++ ?t) "") with false.
  rewrite (prefix_app "Bearer " _). cbn [negb andb].
  pose proof (substring_after "Bearer " (generateToken libs (Human.id human))) as Hsub.
  change (String.length "Bearer ") with 7 in Hsub.
  rewrite Hsub, Hjwt. cbn [humanId].
  pose proof (Hid human Hin) as Hne. apply String.eqb_neq in Hne. rewrite Hne.
  unfold getHumanById. by rewrite (head_filter_unique _ Human.id human Hnd Hin).
Qed.

(** X27. A registration with an email no human has, when the four generated
    ids and the slug are free, and the email, the name, the hash, the slug
    and the generated ids are text, is answered with a token for the new human
    and the human without the password. It adds one row to each of four
    tables and touches nothing else: the human, with the hash of the
    password; a workspace named after the human; the membership of the
    human in that workspace as owner; and the channel [general] of that
    workspace. The workspace is then among those of the human, and when a
    hash verifies against its password, a login with the same email and
    password succeeds as the new human. *)
Theorem register_then_login env workspaces d body data :
  registerSchemaParse libs body = inr data ->
  validText (ri_email data) = true ->
  validText (ri_name data) = true ->
  validText (hashPassword libs (ri_password data)) = true ->
  validText (slugOf libs (ri_name data) (dateNow env)) = true ->
  validText (uuid (forHuman env)) = true ->
  validText (uuid (forWorkspace env)) = true ->
  getHumanByEmail d (ri_email data) = None ->
  (forall r, r ∈ humans d -> Human.id r <> uuid (forHuman env)) ->
  (forall r, r ∈ workspaces -> Workspace.id r <> uuid (forWorkspace env)) ->
  (forall r, r ∈ workspaces ->
     Workspace.slug r <> slugOf libs (ri_name data) (dateNow env)) ->
  (forall r, r ∈ workspaceMembers d -> WorkspaceMember.id r <> uuid (forMember env)) ->
  (forall r, r ∈ Storage.channels d -> Channel.id r <> uuid (forChannel env)) ->
  let human := Human.mk (uuid (forHuman env)) (ri_email data)
                 (hashPassword libs (ri_password data)) (ri_name data) None
                 (now (forHuman env)) in
  let workspace := Workspace.mk (uuid (forWorkspace env)) (ri_name data ++ "'s Workspace")
                     (slugOf libs (ri_name data) (dateNow env)) (now (forWorkspace env)) in
  let member := WorkspaceMember.mk (uuid (forMember env)) (uuid (forWorkspace env))
                  (uuid (forHuman env)) "owner" (now (forMember env)) in
  let general := Channel.mk (uuid (forChannel env)) (uuid (forWorkspace env)) "general"
                   (Some "General discussion") false (now (forChannel env)) in
  let d' := mkDb (humans d ++ [human]) (workspaceMembers d ++ [member]) (agents d)
              (Storage.channels d ++ [general]) (messages d) (handoffs d) (memories d) in
  register libs env workspaces d body
  = (Registered (generateToken libs (uuid (forHuman env))) (safeHuman human),
     ((workspaces ++ [workspace])%list, d')) /\
  isMember d' (Workspace.id workspace) (Human.id human) /\
  workspace ∈ getWorkspacesForHuman (workspaces ++ [workspace]) d' (Human.id human) /\
  general ∈ getChannelsForWorkspace d' (Workspace.id workspace) /\
  (forall loginBody clients,
     loginSchemaParse libs loginBody
     = inr (mkLoginInput (ri_email data) (ri_password data)) ->
     verifyPassword libs (ri_password data) (hashPassword libs (ri_password data)) = true ->
     runAs (login libs loginBody) (mkWorld d' clients)
     = (inr (200, (generateToken libs (uuid (forHuman env)), safeHuman human)),
        mkWorld d' clients)).
Proof.
  intros Hparse Hte Htn Hth Hts Htu Htw Hfree Hh Hw Hslug Hm Hc human workspace member general d'.
  assert (validText (ri_name data ++ "'s Workspace") = true) as Htwn.
  { by rewrite validText_app, Htn. }
  assert (validText "owner" = true) as Hto by reflexivity.
  assert (validText "general" = true) as Htg by reflexivity.
  assert (validText "General discussion" = true) as Htd by reflexivity.
  assert (forall r, r ∈ humans d -> Human.email r <> ri_email data) as Hmail.
  { intros r Hr Heq. unfold getHumanByEmail in Hfree. rewrite head_filter_None in Hfree.
    specialize (Hfree r Hr). by rewrite Heq, String.eqb_refl in Hfree. }
  split; [|split; [|split; [|split]]].
  - unfold register. rewrite Hparse, Hfree.
    unfold createHuman. cbv zeta.
    cbn [InsertHuman.email InsertHuman.password InsertHuman.name InsertHuman.avatarUrl].
    accepted.
    fold human. rewrite (insertUnique_fresh Human.id Human.email human (humans d) Hh Hmail).
    unfold createWorkspace. cbv zeta. cbn [InsertWorkspace.name InsertWorkspace.slug].
    accepted.
    fold workspace.
    rewrite (insertUnique_fresh Workspace.id Workspace.slug workspace workspaces Hw Hslug).
    unfold addWorkspaceMember. cbv zeta.
    cbn [InsertWorkspaceMember.workspaceId InsertWorkspaceMember.humanId
         InsertWorkspaceMember.role default Workspace.id Human.id workspace human
         workspaceMembers withHumans].
    accepted.
    change (id "owner") with "owner". fold human member.
    rewrite (insertRow_fresh WorkspaceMember.id member (workspaceMembers d) Hm).
    unfold createChannel. cbv zeta.
    cbn [InsertChannel.workspaceId InsertChannel.name InsertChannel.description
         InsertChannel.isPrivate Storage.channels withWorkspaceMembers withHumans].
    accepted.
    fold general.
    rewrite (insertRow_fresh Channel.id general (Storage.channels d) Hc).
    done.
  - exists member. split; [|done]. subst d'. cbn [workspaceMembers].
    apply elem_of_app. right. by apply list_elem_of_singleton.
  - unfold getWorkspacesForHuman. subst d'. cbn [workspaceMembers].
    rewrite List.filter_app, fmap_app, length_app.
    cbn [List.filter WorkspaceMember.humanId member Human.id human].
    rewrite String.eqb_refl. cbn [fmap list_fmap length].
    destruct (Nat.eqb _ 0) eqn:E; [apply Nat.eqb_eq in E; lia|].
    rewrite list_elem_of_In, filter_In, <- list_elem_of_In. split.
    + apply elem_of_app. right. by apply list_elem_of_singleton.
    + apply existsb_exists. exists (uuid (forWorkspace env)). split.
      * apply in_or_app. right. by left.
      * by apply String.eqb_eq.
  - unfold getChannelsForWorkspace. subst d'. cbn [Storage.channels].
    rewrite list_elem_of_In, filter_In, <- list_elem_of_In. split.
    + apply elem_of_app. right. by apply list_elem_of_singleton.
    + by apply String.eqb_eq.
  - intros loginBody clients Hlogin Hverify. run_as. rewrite Hlogin. cbn [fst snd db].
    unfold getHumanByEmail. subst d'. cbn [humans li_email li_password].
    change (ri_email data) with (Human.email human).
    destruct (lookup_appended Human.email (humans d) human Hmail) as [-> _].
    cbn [negb]. change (Human.password human) with (hashPassword libs (ri_password data)).
    by rewrite Hverify.
Qed.

(** X28. Registration is not one transaction. When the human, whose email,
    name and hash are text, is inserted and the insert of the workspace
    then fails, here because the slug is taken, the answer is 500, yet the
    human stays in the table, without
    workspace, membership or channel; and every later registration with the
    same email is answered 400 and changes nothing. *)
Theorem register_not_atomic env workspaces d body data taken :
  registerSchemaParse libs body = inr data ->
  validText (ri_email data) = true ->
  validText (ri_name data) = true ->
  validText (hashPassword libs (ri_password data)) = true ->
  getHumanByEmail d (ri_email data) = None ->
  (forall r, r ∈ humans d -> Human.id r <> uuid (forHuman env)) ->
  taken ∈ workspaces ->
  Workspace.slug taken = slugOf libs (ri_name data) (dateNow env) ->
  let human := Human.mk (uuid (forHuman env)) (ri_email data)
                 (hashPassword libs (ri_password data)) (ri_name data) None
                 (now (forHuman env)) in
  let d' := withHumans d (humans d ++ [human])%list in
  register libs env workspaces d body
  = (RegisterError 500 "Registration failed", (workspaces, d')) /\
  (forall env' workspaces',
     register libs env' workspaces' d' body
     = (RegisterError 400 "Email already registered", (workspaces', d'))).
Proof.
  intros Hparse Hte Htn Hth Hfree Hh Htaken Hslug human d'.
  assert (forall r, r ∈ humans d -> Human.email r <> ri_email data) as Hmail.
  { intros r Hr Heq. unfold getHumanByEmail in Hfree. rewrite head_filter_None in Hfree.
    specialize (Hfree r Hr). by rewrite Heq, String.eqb_refl in Hfree. }
  split.
  - unfold register. rewrite Hparse, Hfree.
    unfold createHuman. cbv zeta.
    cbn [InsertHuman.email InsertHuman.password InsertHuman.name InsertHuman.avatarUrl].
    accepted.
    fold human. rewrite (insertUnique_fresh Human.id Human.email human (humans d) Hh Hmail).
    unfold createWorkspace. cbv zeta. cbn [InsertWorkspace.name InsertWorkspace.slug].
    erewrite insertUnique_taken; [by destruct (accepts _)|exact Htaken|exact Hslug].
  - intros env' workspaces'. unfold register. rewrite Hparse.
    unfold getHumanByEmail. subst d'. cbn [humans withHumans].
    change (ri_email data) with (Human.email human).
    by destruct (lookup_appended Human.email (humans d) human Hmail) as [-> _].
Qed.

End AuthRoutes.

Lemma demoJwt_round_trip hid :
  demoJwt (generateToken demoLibs hid) = Some (mkPayload (Some hid)).
Proof.
  unfold demoJwt, generateToken, demoLibs. rewrite (prefix_app "jwt." hid).
  pose proof (substring_after "jwt." hid) as Hsub.
  change (String.length "jwt.") with 4 in Hsub. by rewrite Hsub.
Qed.

Lemma login_then_me_witness :
  (forall hid, demoJwt (generateToken demoLibs hid) = Some (mkPayload (Some hid))) /\
  NoDup (Human.id <$> humans (db demoWorld)) /\
  (forall h, h ∈ humans (db demoWorld) -> Human.id h <> "") /\
  fst (runAs (login demoLibs alexLogin) demoWorld) = inr (200, ("jwt.u1", safeHuman alex)) /\
  exists req',
    authenticateHuman demoJwt (db demoWorld) (mkHeaders None (Some ("Bearer " ++ "jwt.u1")))
      (mkReq None None None) = inr req' /\
    runAs (me req') demoWorld = (inr (200, safeHuman alex), demoWorld).
Proof.
  assert (NoDup (Human.id <$> humans (db demoWorld))) as Hnd.
  { apply (bool_decide_unpack _). vm_compute. exact I. }
  assert (forall h, h ∈ humans (db demoWorld) -> Human.id h <> "") as Hid.
  { intros h Hh. simpl in Hh. apply list_elem_of_singleton in Hh as ->. discriminate. }
  assert (fst (runAs (login demoLibs alexLogin) demoWorld)
          = inr (200, ("jwt.u1", safeHuman alex))) as Hlogin by reflexivity.
  split; [exact demoJwt_round_trip|]. split; [exact Hnd|]. split; [exact Hid|].
  split; [exact Hlogin|].
  exact (login_then_me demoLibs demoJwt alexLogin demoWorld "jwt.u1" (safeHuman alex) None
           (mkReq None None None) demoJwt_round_trip Hnd Hid Hlogin).
Defined.

Lemma register_then_login_witness :
  registerSchemaParse demoLibs samRegisters = inr samRegisters /\
  validText (ri_email samRegisters) = true /\
  validText (ri_name samRegisters) = true /\
  validText (hashPassword demoLibs (ri_password samRegisters)) = true /\
  validText (slugOf demoLibs (ri_name samRegisters) (dateNow samEnv)) = true /\
  validText (uuid (forHuman samEnv)) = true /\
  validText (uuid (forWorkspace samEnv)) = true /\
  getHumanByEmail demoDb (ri_email samRegisters) = None /\
  (forall r, r ∈ humans demoDb -> Human.id r <> uuid (forHuman samEnv)) /\
  (forall r, r ∈ [acme] -> Workspace.id r <> uuid (forWorkspace samEnv)) /\
  (forall r, r ∈ [acme] ->
     Workspace.slug r <> slugOf demoLibs (ri_name samRegisters) (dateNow samEnv)) /\
  (forall r, r ∈ workspaceMembers demoDb -> WorkspaceMember.id r <> uuid (forMember samEnv)) /\
  (forall r, r ∈ Storage.channels demoDb -> Channel.id r <> uuid (forChannel samEnv)) /\
  fst (register demoLibs samEnv [acme] demoDb samRegisters)
  = Registered "jwt.u2" (mkSafeHuman "u2" "sam@example.org" "Sam" None 5) /\
  fst (runAs (login demoLibs samRegisters)
         (mkWorld (snd (snd (register demoLibs samEnv [acme] demoDb samRegisters))) []))
  = inr (200, ("jwt.u2", mkSafeHuman "u2" "sam@example.org" "Sam" None 5)).
Proof.
  assert (forall r, r ∈ humans demoDb -> Human.id r <> uuid (forHuman samEnv)) as Hh.
  { intros r Hr. simpl in Hr. apply list_elem_of_singleton in Hr as ->. discriminate. }
  assert (forall r, r ∈ [acme] -> Workspace.id r <> uuid (forWorkspace samEnv)) as Hw.
  { intros r Hr. apply list_elem_of_singleton in Hr as ->. discriminate. }
  assert (forall r, r ∈ [acme] ->
            Workspace.slug r <> slugOf demoLibs (ri_name samRegisters) (dateNow samEnv))
    as Hslug.
  { intros r Hr. apply list_elem_of_singleton in Hr as ->. discriminate. }
  assert (forall r, r ∈ workspaceMembers demoDb ->
            WorkspaceMember.id r <> uuid (forMember samEnv)) as Hm.
  { intros r Hr. simpl in Hr. apply list_elem_of_singleton in Hr as ->. discriminate. }
  assert (forall r, r ∈ Storage.channels demoDb -> Channel.id r <> uuid (forChannel samEnv))
    as Hc.
  { intros r Hr. simpl in Hr.
    repeat (apply elem_of_cons in Hr as [->|Hr]); try discriminate.
    by apply elem_of_nil in Hr. }
  do 8 (split; [reflexivity|]). split; [exact Hh|]. split; [exact Hw|].
  split; [exact Hslug|]. split; [exact Hm|]. split; [exact Hc|].
  destruct (register_then_login demoLibs samEnv [acme] demoDb samRegisters samRegisters
              eq_refl eq_refl eq_refl eq_refl eq_refl eq_refl eq_refl eq_refl
              Hh Hw Hslug Hm Hc)
    as (Hrun & _ & _ & _ & Hlogin).
  split; [by rewrite Hrun|].
  rewrite Hrun. cbn [snd]. by rewrite (Hlogin samRegisters [] eq_refl eq_refl).
Defined.

Lemma register_not_atomic_witness :
  registerSchemaParse demoLibs samRegisters = inr samRegisters /\
  validText (ri_email samRegisters) = true /\
  validText (ri_name samRegisters) = true /\
  validText (hashPassword demoLibs (ri_password samRegisters)) = true /\
  getHumanByEmail demoDb (ri_email samRegisters) = None /\
  (forall r, r ∈ humans demoDb -> Human.id r <> uuid (forHuman samEnv)) /\
  sameSlug ∈ [acme; sameSlug] /\
  Workspace.slug sameSlug = slugOf demoLibs (ri_name samRegisters) (dateNow samEnv) /\
  fst (register demoLibs samEnv [acme; sameSlug] demoDb samRegisters)
  = RegisterError 500 "Registration failed" /\
  length (humans (snd (snd (register demoLibs samEnv [acme; sameSlug] demoDb samRegisters))))
  = 2.
Proof.
  assert (forall r, r ∈ humans demoDb -> Human.id r <> uuid (forHuman samEnv)) as Hh.
  { intros r Hr. simpl in Hr. apply list_elem_of_singleton in Hr as ->. discriminate. }
  assert (sameSlug ∈ [acme; sameSlug]) as Hin.
  { apply elem_of_cons. right. by apply list_elem_of_singleton. }
  do 5 (split; [reflexivity|]). split; [exact Hh|]. split; [exact Hin|].
  split; [reflexivity|].
  destruct (register_not_atomic demoLibs samEnv [acme; sameSlug] demoDb samRegisters
              samRegisters sameSlug eq_refl eq_refl eq_refl eq_refl eq_refl Hh Hin eq_refl)
    as (Hrun & _).
  rewrite Hrun. split; reflexivity.
Defined.

(* ===================================================================== *)
(** ** The listing of a channel                                           *)
(* ===================================================================== *)

Section ListingRoute.

Implicit Types (d : Db) (w : World) (p : Principal).

Lemma authorName_named d msg : authorName d msg <> "".
Proof.
  unfold authorName. repeat case_match; try done; by apply String.eqb_neq.
Qed.

(** X29. The listing route, for a principal with access to the channel's
    workspace, reads and never writes. Without a limit, or with a limit
    that parses to [NaN] or to zero, it lists at most 50 messages; with a
    positive limit below [2^63] at most that many; with a negative limit it
    lists every message of the channel. Each message is of the channel,
    comes with a name for its author that is never empty, and is what the
    storage lists under the limit. From [2^63] on the database rejects the
    limit and the route ends in that error, without a response. *)
Theorem getMessages_window p channel_id q ch w :
  getChannel (db w) channel_id = Some ch ->
  authorized (db w) p (Channel.workspaceId ch) ->
  (forall limit,
     (q_limit q = None /\ limit = 50%Z) \/ (q_limit q = Some 0%Z /\ limit = 50%Z) \/
     (q_limit q = Some limit /\ (limit <> 0)%Z /\ (limit < 2 ^ 63)%Z) ->
     exists rows,
       run (getMessages (asRequest p) channel_id q) w
       = (Responded (mkResponse 200 (BMessages rows)), w) /\
       getMessagesForChannel (db w) channel_id limit (q_before q) = inr (fst <$> rows) /\
       ((0 <= limit)%Z -> length rows <= Z.to_nat limit) /\
       ((limit < 0)%Z ->
        fst <$> rows
        ≡ₚ List.filter (fun m => String.eqb (Message.channelId m) channel_id)
             (messages (db w))) /\
       (forall m name, (m, name) ∈ rows ->
          m ∈ messages (db w) /\ Message.channelId m = channel_id /\
          name = authorName (db w) m /\ name <> "")) /\
  (forall limit, q_limit q = Some limit -> (2 ^ 63 <= limit)%Z ->
     run (getMessages (asRequest p) channel_id q) w = (Threw DatabaseError, w)).
Proof.
  intros Hch Hyes. pose proof (checkAccess_authorized p _ w Hyes) as Hcheck. split.
  - intros limit Hlimit.
    assert (match q_limit q with
            | Some n => if (n =? 0)%Z then 50%Z else n
            | None => 50%Z
            end = limit) as Hl.
    { destruct Hlimit as [[-> ->]|[[-> ->]|[-> [Hnz _]]]]; [done..|].
      by destruct (Z.eqb_spec limit 0). }
    assert (limit < 2 ^ 63)%Z as Hsmall
      by (destruct Hlimit as [[_ ->]|[[_ ->]|[_ [_ ?]]]]; lia).
    destruct (getMessagesForChannel (db w) channel_id limit (q_before q))
      as [e|result] eqn:Hrun.
    { unfold getMessagesForChannel in Hrun. cbv zeta in Hrun.
      destruct (limit <? 0)%Z; [done|].
      by rewrite (proj2 (Z.leb_gt _ _) Hsmall) in Hrun. }
    exists ((fun msg => (msg, authorName (db w) msg)) <$> result).
    destruct (getMessagesForChannel_chronological _ _ _ _ _ Hrun) as (Hlen & Hin & _).
    assert (fst <$> ((fun msg => (msg, authorName (db w) msg)) <$> result) = result)
      as Hfst.
    { rewrite <- list_fmap_compose. apply list_fmap_id. }
    split; [|split; [|split; [|split]]].
    + unfold run, getMessages. cbv zeta. rewrite Hl.
      unfold bind at 1. unfold query at 1. rewrite Hch.
      unfold bind at 1. rewrite Hcheck.
      unfold bind, attempt, query, ret. by rewrite Hrun.
    + by rewrite Hfst.
    + intros Hpos. rewrite length_fmap. by apply Hlen.
    + intros Hneg. rewrite Hfst.
      unfold getMessagesForChannel in Hrun. cbv zeta in Hrun.
      rewrite (proj2 (Z.ltb_lt _ _) Hneg) in Hrun. injection Hrun as <-.
      rewrite reverse_Permutation. apply orderByCreatedDesc_spec.
    + intros m name (m' & [= <- ->] & Hm)%list_elem_of_fmap.
      destruct (Hin m Hm) as [H1 H2]. split; [done|]. split; [done|].
      split; [done|]. apply authorName_named.
  - intros limit Hq Hbig. unfold run, getMessages. cbv zeta. rewrite Hq.
    assert ((limit =? 0)%Z = false) as -> by (apply Z.eqb_neq; lia).
    unfold bind at 1. unfold query at 1. rewrite Hch.
    unfold bind at 1. rewrite Hcheck.
    unfold bind, attempt, query, ret. unfold getMessagesForChannel. cbv zeta.
    assert ((limit <? 0)%Z = false) as -> by (apply Z.ltb_ge; lia).
    by rewrite (proj2 (Z.leb_le _ _) Hbig).
Qed.

End ListingRoute.

Lemma getMessages_window_witness :
  getChannel (db demoWorld) "c1" = Some generalOfW1 /\
  authorized (db demoWorld) (PAgent reviewer) (Channel.workspaceId generalOfW1) /\
  (exists rows,
     run (getMessages (asRequest (PAgent reviewer)) "c1" (mkMessagesQuery None None)) demoWorld
     = (Responded (mkResponse 200 (BMessages rows)), demoWorld) /\
     length rows <= 50) /\
  (exists rows,
     run (getMessages (asRequest (PAgent reviewer)) "c1" (mkMessagesQuery (Some (-1)%Z) None))
       demoWorld
     = (Responded (mkResponse 200 (BMessages rows)), demoWorld) /\
     fst <$> rows ≡ₚ [m1; m2; m3]) /\
  run (getMessages (asRequest (PAgent reviewer)) "c1"
         (mkMessagesQuery (Some (2 ^ 63)%Z) None)) demoWorld
  = (Threw DatabaseError, demoWorld).
Proof.
  split; [reflexivity|]. split; [reflexivity|]. split; [|split].
  - destruct (getMessages_window (PAgent reviewer) "c1" (mkMessagesQuery None None)
                generalOfW1 demoWorld eq_refl eq_refl)
      as [Hlist _].
    destruct (Hlist 50%Z) as (rows & Hrun & _ & Hlen & _); [by left|].
    exists rows. split; [exact Hrun|]. apply Hlen. lia.
  - destruct (getMessages_window (PAgent reviewer) "c1" (mkMessagesQuery (Some (-1)%Z) None)
                generalOfW1 demoWorld eq_refl eq_refl)
      as [Hlist _].
    destruct (Hlist (-1)%Z) as (rows & Hrun & _ & _ & Hall & _).
    { right. right. split; [reflexivity|]. split; lia. }
    exists rows. split; [exact Hrun|]. apply Hall. lia.
  - destruct (getMessages_window (PAgent reviewer) "c1"
                (mkMessagesQuery (Some (2 ^ 63)%Z) None) generalOfW1 demoWorld
                eq_refl eq_refl)
      as [_ Hbig].
    apply (Hbig (2 ^ 63)%Z); [reflexivity|lia].
Defined.

(* ===================================================================== *)
(** ** The seed script                                                    *)
(* ===================================================================== *)

Section Seed.

Implicit Types (d : Db) (t : Tables).

Lemma extends_refl t : extends t t.
Proof. exists []. by rewrite app_nil_r. Qed.

Lemma extends_trans t1 t2 t3 : extends t1 t2 -> extends t2 t3 -> extends t1 t3.
Proof. intros [l1 H1] [l2 H2]. exists (l1 ++ l2)%list. by rewrite H2, H1, <- app_assoc. Qed.

Lemma growing_andThen {A B} (m : Script A) (k : A -> Script B) :
  growing m -> (forall a, growing (k a)) -> growing (andThen m k).
Proof.
  intros Hm Hk t r t'. unfold andThen.
  destruct (m t) as [[e|a] t1] eqn:E.
  - intros [= <- <-]. exact (Hm _ _ _ E).
  - intros H. exact (extends_trans _ _ _ (Hm _ _ _ E) (Hk _ _ _ _ H)).
Qed.

Lemma growing_finished : growing finished.
Proof. intros t r t' [= <- <-]. apply extends_refl. Qed.

Lemma growing_inDb {X A} e (create : string -> Time -> Db -> X -> Exn + A * Db) x :
  (forall d a d', create (uuid e) (now e) d x = inr (a, d') ->
     exists l, humans d' = (humans d ++ l)%list) ->
  growing (inDb e create x).
Proof.
  intros H t r t'. unfold inDb.
  destruct (create _ _ _ _) as [err|[a d']] eqn:E; intros [= <- <-].
  - apply extends_refl.
  - exact (H _ _ _ E).
Qed.

Lemma growing_inWorkspaces e x : growing (inWorkspaces e x).
Proof.
  intros t r t'. unfold inWorkspaces.
  destruct (createWorkspace _ _ _ _) as [err|[a l]]; intros [= <- <-];
    exists []; cbn [snd]; by rewrite app_nil_r.
Qed.

Lemma insertUnique_inr {R} (pk uq : R -> string) row (rows rows' : list R) :
  insertUnique pk uq row rows = inr rows' -> rows' = (rows ++ [row])%list.
Proof.
  unfold insertUnique, insertRow. repeat case_match; congruence.
Qed.

Lemma createHuman_inr uuid now d x a d' :
  createHuman uuid now d x = inr (a, d') ->
  a = Human.mk uuid (InsertHuman.email x) (InsertHuman.password x) (InsertHuman.name x)
        (InsertHuman.avatarUrl x) now /\
  d' = withHumans d (humans d ++ [a])%list /\
  (forall r, r ∈ humans d -> Human.email r <> InsertHuman.email x).
Proof.
  unfold createHuman. cbv zeta. destruct (accepts _); [|done].
  destruct (insertUnique _ _ _ _) as [e|rows] eqn:E; [done|]. intros [= <- <-].
  split; [done|]. split; [by rewrite (insertUnique_inr _ _ _ _ _ E)|].
  intros r Hr Heq. unfold insertUnique in E.
  destruct (existsb _ _) eqn:Hex; [done|].
  apply not_true_iff_false in Hex. apply Hex, existsb_exists.
  exists (Human.email r). split.
  - apply list_elem_of_In. by apply list_elem_of_fmap_2.
  - by apply String.eqb_eq.
Qed.

Lemma growing_createHuman e x : growing (inDb e createHuman x).
Proof.
  apply growing_inDb. intros d a d' (_ & -> & _)%createHuman_inr. by eexists.
Qed.

Lemma growing_addWorkspaceMember e x : growing (inDb e addWorkspaceMember x).
Proof.
  apply growing_inDb. intros d a d'. unfold addWorkspaceMember. cbv zeta.
  destruct (accepts _); [|done]. destruct (insertRow _ _ _); [done|]. intros [= <- <-]. exists []. by rewrite app_nil_r.
Qed.

Lemma growing_createChannel e x : growing (inDb e createChannel x).
Proof.
  apply growing_inDb. intros d a d'. unfold createChannel. cbv zeta.
  destruct (accepts _); [|done]. destruct (insertRow _ _ _); [done|]. intros [= <- <-]. exists []. by rewrite app_nil_r.
Qed.

Lemma growing_createAgent e x : growing (inDb e createAgent x).
Proof.
  apply growing_inDb. intros d a d'. unfold createAgent. cbv zeta.
  destruct (accepts _); [|done]. destruct (insertUnique _ _ _ _); [done|]. intros [= <- <-]. exists []. by rewrite app_nil_r.
Qed.

Lemma growing_createMessage e x : growing (inDb e createMessage x).
Proof.
  apply growing_inDb. intros d a d'. unfold createMessage. cbv zeta.
  destruct (accepts _); [|done]. destruct (insertRow _ _ _); [done|]. intros [= <- <-]. exists []. by rewrite app_nil_r.
Qed.

Lemma growing_createHandoff e x : growing (inDb e createHandoff x).
Proof.
  apply growing_inDb. intros d a d'. unfold createHandoff. cbv zeta.
  repeat case_match; try done; intros [= <- <-]; exists []; by rewrite app_nil_r.
Qed.

Lemma andThen_inr {A B} (m : Script A) (k : A -> Script B) t b t' :
  andThen m k t = (inr b, t') ->
  exists a t1, m t = (inr a, t1) /\ k a t1 = (inr b, t').
Proof.
  unfold andThen. destruct (m t) as [[e|a] t1]; [done|]. by exists a, t1.
Qed.

(** A human found by email stays the one found when rows are appended. *)
Lemma getHumanByEmail_extends t t' email u :
  extends t t' ->
  getHumanByEmail (snd t) email = Some u -> getHumanByEmail (snd t') email = Some u.
Proof.
  intros [l Hl]. unfold getHumanByEmail. rewrite Hl, List.filter_app.
  destruct (List.filter _ (humans (snd t))); [done|]. done.
Qed.

Ltac growing_script :=
  repeat first
    [ apply growing_finished
    | apply growing_andThen; [|intros ?]
    | apply growing_createHuman | apply growing_inWorkspaces
    | apply growing_addWorkspaceMember | apply growing_createChannel
    | apply growing_createAgent | apply growing_createMessage
    | apply growing_createHandoff ].

(** The script from its first insert on. *)
Lemma seed_starts hash hex env t r t' :
  getHumanByEmail (snd t) "demo@agenthq.io" = None ->
  seed hash hex env t = (r, t') ->
  let demoUser := Human.mk (uuid (env 0)) "demo@agenthq.io" (hash "demo123") "Alex Chen"
                    None (now (env 0)) in
  (t' = t /\ exists e, r = inl e) \/
  getHumanByEmail (snd t') "demo@agenthq.io" = Some demoUser.
Proof.
  intros Hguard. unfold seed. rewrite Hguard. cbv zeta. unfold andThen at 1.
  destruct (inDb (env 0) createHuman _ t) as [[e0|demoUser] t1] eqn:E0.
  { intros [= <- <-]. left. unfold inDb in E0.
    destruct (createHuman _ _ _ _) as [?|[? ?]]; [|done].
    injection E0 as _ <-. eauto. }
  intros H. right.
  unfold inDb in E0.
  destruct (createHuman _ _ _ _) as [?|[a d1]] eqn:Hc; [done|].
  injection E0 as -> <-.
  apply createHuman_inr in Hc as (Ha & -> & Hfresh).
  cbn [InsertHuman.email InsertHuman.password InsertHuman.name InsertHuman.avatarUrl]
    in Ha, Hfresh.
  assert (getHumanByEmail (snd (fst t, withHumans (snd t) (humans (snd t) ++ [demoUser])%list))
            "demo@agenthq.io" = Some demoUser) as Hfound.
  { unfold getHumanByEmail. cbn [snd humans withHumans].
    assert (Human.email demoUser = "demo@agenthq.io") as Hmail by by rewrite Ha.
    rewrite <- Hmail. rewrite <- Hmail in Hfresh.
    by destruct (lookup_appended Human.email (humans (snd t)) demoUser Hfresh) as [-> _]. }
  rewrite <- Ha.
  refine (getHumanByEmail_extends _ _ _ _ _ Hfound).
  match type of H with
  | ?s _ = _ => assert (growing s) as Hg by growing_script; exact (Hg _ _ _ H)
  end.
Qed.

(** X30. The seed script runs once. On a database that has a human with
    the demo email it writes nothing. A run that succeeds leaves a database
    on which every later run writes nothing. The script is not one
    transaction: a run that fails either failed at its first insert and
    wrote nothing, or leaves what it wrote in place, and every later run
    then takes the database for seeded and writes nothing. After a run that
    succeeds on a database without the demo human, the demo email is that
    of the human the script made, so that a login with the demo credentials
    succeeds when the hash verifies; and the table of handoffs holds a
    handoff in status [RESOLVED] that has no [resolvedAt]. *)
Theorem seed_runs_once hash hex env t :
  (forall u, getHumanByEmail (snd t) "demo@agenthq.io" = Some u ->
     seed hash hex env t = (inr tt, t)) /\
  (forall t', seed hash hex env t = (inr tt, t') ->
     forall hash' hex' env', seed hash' hex' env' t' = (inr tt, t')) /\
  (forall e t', seed hash hex env t = (inl e, t') ->
     t' = t \/ forall hash' hex' env', seed hash' hex' env' t' = (inr tt, t')) /\
  (forall t', seed hash hex env t = (inr tt, t') ->
     getHumanByEmail (snd t) "demo@agenthq.io" = None ->
     let demoUser := Human.mk (uuid (env 0)) "demo@agenthq.io" (hash "demo123") "Alex Chen"
                       None (now (env 0)) in
     (forall RawBody (libs : AuthLibs RawBody) body clients,
        loginSchemaParse libs body = inr (mkLoginInput "demo@agenthq.io" "demo123") ->
        verifyPassword libs "demo123" (hash "demo123") = true ->
        runAs (login libs body) (mkWorld (snd t') clients)
        = (inr (200, (generateToken libs (uuid (env 0)), safeHuman demoUser)),
           mkWorld (snd t') clients)) /\
     (exists h, h ∈ handoffs (snd t') /\ Handoff.id h = uuid (env 24) /\
                Handoff.status h = RESOLVED /\ Handoff.resolvedAt h = None)).
Proof.
  assert (forall t0 u, getHumanByEmail (snd t0) "demo@agenthq.io" = Some u ->
            forall hash' hex' env', seed hash' hex' env' t0 = (inr tt, t0)) as Hskip.
  { intros t0 u Hu hash' hex' env'. unfold seed. by rewrite Hu. }
  split; [|split; [|split]].
  - intros u Hu. by apply (Hskip t u).
  - intros t' Hrun.
    destruct (getHumanByEmail (snd t) "demo@agenthq.io") as [u|] eqn:Hguard.
    + rewrite (Hskip t u Hguard) in Hrun. injection Hrun as <-. by apply (Hskip t u).
    + destruct (seed_starts _ _ _ _ _ _ Hguard Hrun) as [[_ [e [=]]]|Hfound].
      by apply (Hskip t' _ Hfound).
  - intros e t' Hrun.
    destruct (getHumanByEmail (snd t) "demo@agenthq.io") as [u|] eqn:Hguard.
    + by rewrite (Hskip t u Hguard) in Hrun.
    + destruct (seed_starts _ _ _ _ _ _ Hguard Hrun) as [[-> _]|Hfound]; [by left|].
      right. by apply (Hskip t' _ Hfound).
  - intros t' Hrun Hguard demoUser. split.
    + intros RawBody libs body clients Hparse Hverify.
      destruct (seed_starts _ _ _ _ _ _ Hguard Hrun) as [[_ [e [=]]]|Hfound].
      run_as. rewrite Hparse. cbn [fst snd db li_email li_password].
      rewrite Hfound. cbn [Human.password Human.id]. by rewrite Hverify.
    + unfold seed in Hrun. rewrite Hguard in Hrun. cbv zeta in Hrun.
      do 24 (apply andThen_inr in Hrun as (? & ? & _ & Hrun)).
      apply andThen_inr in Hrun as (h & t1 & Hlast & Hfin).
      injection Hfin as <-. unfold inDb in Hlast.
      destruct (createHandoff _ _ _ _) as [?|[h' d']] eqn:Hc; [done|].
      injection Hlast as -> <-. cbn [snd].
      apply createHandoff_inr in Hc as (s & prio & Hs & _ & -> & Hrows & _).
      cbn in Hs. injection Hs as <-.
      eexists. split.
      * rewrite Hrows. apply elem_of_app. right. by apply list_elem_of_singleton.
      * done.
Qed.

End Seed.

(** On empty tables, with ids and keys that differ, the script succeeds:
    three humans, all members of the one workspace, three channels, three
    agents, eight messages and four handoffs, the last of which is resolved
    without a resolution time. *)
Example seed_on_empty_tables :
  fst seeded = inr tt /\
  Workspace.slug <$> fst (snd seeded) = ["acme-corp"] /\
  Human.email <$> humans (snd (snd seeded))
  = ["demo@agenthq.io"; "sarah@agenthq.io"; "mike@agenthq.io"] /\
  WorkspaceMember.role <$> workspaceMembers (snd (snd seeded)) = ["owner"; "member"; "member"] /\
  Channel.name <$> Storage.channels (snd (snd seeded)) = ["general"; "engineering"; "support"] /\
  Agent.isActive <$> agents (snd (snd seeded)) = [true; true; false] /\
  length (messages (snd (snd seeded))) = 8 /\
  (fun h => (Handoff.status h, Handoff.resolvedAt h)) <$> handoffs (snd (snd seeded))
  = [(OPEN, None); (IN_PROGRESS, None); (OPEN, None); (RESOLVED, None)] /\
  memories (snd (snd seeded)) = [].
Proof. repeat split; vm_compute; reflexivity. Qed.
